(** * Pomodoro timer engine and statistics store

    A shallow embedding of [src/timer_logic.py] (the timer engine) and
    [src/stats.py] (the statistics store), with the properties their
    specification states about them.

    Conventions of the embedding.
    - Python's [int] is [Z]; Python's seconds ([time.time()], the durations
      of a [TimerConfig], elapsed and remaining time) are exact rationals
      [Q]: the arithmetic of the engine is modelled without IEEE rounding.
      The statement on pause and resume depends on the rounding: for it
      the methods that subtract clock readings are modelled again in
      [Timer64], with the subtraction of doubles of [Binary64].
    - Every call to [time.time()] is an explicit argument of the operation
      that makes it, so an operation that reads the clock twice takes two
      readings.
    - A Python exception is an explicit outcome.
    - A [datetime.date] is its proleptic Gregorian ordinal; the library
      functions the store calls on dates ([str], [strptime], subtraction)
      are modelled after CPython's [datetime] and [_strptime] on ASCII text.
    - The file at [storage_path] is identified with what [json.load] does
      on it: it raises on bytes that are not text, it raises on text that
      is not JSON, or it returns a document, taken of the persisted layout
      with members that, where present, have the types the code
      annotates. *)

From Stdlib Require Import ZArith QArith Qminmax Qround Qabs Qpower Lqa Lia.
From Stdlib Require Import Bool List Ascii SpecFloat.
From stdpp Require Import gmap strings list fin_maps sorting.

Import ListNotations.

(** ** timer_logic.py *)

Module Timer.

Local Open Scope Q_scope.

(** [class TimerPhase(Enum)] *)
Inductive TimerPhase : Type :=
  | FOCUS
  | SHORT_BREAK
  | LONG_BREAK.

(** [@dataclass class TimerConfig] *)
Record TimerConfig : Type := mkConfig {
  focus_duration : Q;
  short_break_duration : Q;
  long_break_duration : Q;
  pomodoros_before_long_break : Z
}.

(** The defaults of the dataclass: 25, 5 and 15 minutes, 4 pomodoros. *)
Definition default_config : TimerConfig :=
  mkConfig (25 * 60) (5 * 60) (15 * 60) 4.

(** The attributes of a [PomodoroTimer]. *)
Record PomodoroTimer : Type := mkTimer {
  config : TimerConfig;
  phase : TimerPhase;
  pomodoros_completed : Z;
  is_running : bool;
  is_paused : bool;
  start_time : option Q;
  paused_elapsed : Q;
  total_elapsed : Q
}.

(** The only exception the engine can raise: [%] by a zero
    [pomodoros_before_long_break]. *)
Inductive exn : Type :=
  | ZeroDivisionError.

(** What a method call does: it returns a value or raises, and in both
    cases leaves the object in some state. *)
Inductive outcome (A : Type) : Type :=
  | Returns (a : A) (self : PomodoroTimer)
  | Raises (e : exn) (self : PomodoroTimer).

Arguments Returns {A} a self.
Arguments Raises {A} e self.

Definition final_state {A : Type} (o : outcome A) : PomodoroTimer :=
  match o with
  | Returns _ s => s
  | Raises _ s => s
  end.

(** [reset]: every attribute but [config] goes back to its initial value. *)
Definition reset (self : PomodoroTimer) : PomodoroTimer :=
  {| config := config self;
     phase := FOCUS;
     pomodoros_completed := 0;
     is_running := false;
     is_paused := false;
     start_time := None;
     paused_elapsed := 0;
     total_elapsed := 0 |}.

(** [__init__]: [self.config = config or TimerConfig(); self.reset()]. *)
Definition init (cfg : option TimerConfig) : PomodoroTimer :=
  reset {| config := match cfg with Some c => c | None => default_config end;
           phase := FOCUS;
           pomodoros_completed := 0;
           is_running := false;
           is_paused := false;
           start_time := None;
           paused_elapsed := 0;
           total_elapsed := 0 |}.

(** [start], with [now] the value of [time.time()]. *)
Definition start (now : Q) (self : PomodoroTimer) : PomodoroTimer :=
  if negb (is_running self) then
    {| config := config self;
       phase := phase self;
       pomodoros_completed := pomodoros_completed self;
       is_running := true;
       is_paused := false;
       start_time := Some (now - paused_elapsed self);
       paused_elapsed := paused_elapsed self;
       total_elapsed := total_elapsed self |}
  else self.

(** [get_elapsed], with [now] the value of [time.time()] (read only on the
    running branch). *)
Definition get_elapsed (now : Q) (self : PomodoroTimer) : Q :=
  match is_running self, start_time self with
  | true, Some t0 => now - t0
  | _, _ => paused_elapsed self
  end.

(** [pause]: [get_elapsed] is called while [is_running] is still set. *)
Definition pause (now : Q) (self : PomodoroTimer) : PomodoroTimer :=
  if is_running self && negb (is_paused self) then
    {| config := config self;
       phase := phase self;
       pomodoros_completed := pomodoros_completed self;
       is_running := false;
       is_paused := true;
       start_time := start_time self;
       paused_elapsed := get_elapsed now self;
       total_elapsed := total_elapsed self |}
  else self.

(** [stop] *)
Definition stop (self : PomodoroTimer) : PomodoroTimer :=
  {| config := config self;
     phase := phase self;
     pomodoros_completed := pomodoros_completed self;
     is_running := false;
     is_paused := false;
     start_time := None;
     paused_elapsed := 0;
     total_elapsed := total_elapsed self |}.

(** [get_phase_duration] *)
Definition get_phase_duration (self : PomodoroTimer) : Q :=
  match phase self with
  | FOCUS => focus_duration (config self)
  | SHORT_BREAK => short_break_duration (config self)
  | LONG_BREAK => long_break_duration (config self)
  end.

(** [get_remaining]: [max(0, duration - elapsed)].  Python's [max(0, x)] is
    [x] when [x > 0] and [0] otherwise, which is [Qmax 0 x]. *)
Definition get_remaining (now : Q) (self : PomodoroTimer) : Q :=
  let elapsed := get_elapsed now self in
  let duration := get_phase_duration self in
  Qmax 0 (duration - elapsed).

(** [get_progress]: the guard [duration == 0] comes before the division.
    Python's [min(1.0, x)] is [x] when [x < 1.0] and [1.0] otherwise, which
    is [Qmin 1 x]. *)
Definition get_progress (now : Q) (self : PomodoroTimer) : Q :=
  let elapsed := get_elapsed now self in
  let duration := get_phase_duration self in
  if Qeq_bool duration 0 then 0
  else Qmin 1 (elapsed / duration).

(** [self.pomodoros_completed += 1], the first statement of the focus
    branch of [_advance_phase]. *)
Definition count_pomodoro (self : PomodoroTimer) : PomodoroTimer :=
  {| config := config self;
     phase := phase self;
     pomodoros_completed := pomodoros_completed self + 1;
     is_running := is_running self;
     is_paused := is_paused self;
     start_time := start_time self;
     paused_elapsed := paused_elapsed self;
     total_elapsed := total_elapsed self |}.

(** The tail of [_advance_phase]: the new phase is stored, then
    [self.paused_elapsed = 0.0] and, if running,
    [self.start_time = time.time()]. *)
Definition enter_phase (now : Q) (p : TimerPhase) (self : PomodoroTimer)
  : PomodoroTimer :=
  {| config := config self;
     phase := p;
     pomodoros_completed := pomodoros_completed self;
     is_running := is_running self;
     is_paused := is_paused self;
     start_time := if is_running self then Some now else start_time self;
     paused_elapsed := 0;
     total_elapsed := total_elapsed self |}.

(** [_advance_phase], with [now] the value of [time.time()].  In the focus
    branch the counter is incremented before [%] is evaluated, so a zero
    modulus raises with the counter already incremented.  For a non-zero
    modulus Python's [%] on integers is [Z.modulo] (the sign of the
    divisor). *)
Definition _advance_phase (now : Q) (self : PomodoroTimer) : outcome unit :=
  match phase self with
  | FOCUS =>
      let self1 := count_pomodoro self in
      let n := pomodoros_before_long_break (config self1) in
      if (n =? 0)%Z then Raises ZeroDivisionError self1
      else if (pomodoros_completed self1 mod n =? 0)%Z
           then Returns tt (enter_phase now LONG_BREAK self1)
           else Returns tt (enter_phase now SHORT_BREAK self1)
  | _ => Returns tt (enter_phase now FOCUS self)
  end.

(** [check_completion]: [now_check] is the clock reading of
    [get_remaining], [now_adv] the later one of [_advance_phase]. *)
Definition check_completion (now_check now_adv : Q) (self : PomodoroTimer)
  : outcome bool :=
  if Qle_bool (get_remaining now_check self) 0 then
    match _advance_phase now_adv self with
    | Returns _ self' => Returns true self'
    | Raises e self' => Raises e self'
    end
  else Returns false self.

(** Assignment to the attributes of [timer.config], as the settings page
    does. *)
Definition set_config (cfg : TimerConfig) (self : PomodoroTimer)
  : PomodoroTimer :=
  {| config := cfg;
     phase := phase self;
     pomodoros_completed := pomodoros_completed self;
     is_running := is_running self;
     is_paused := is_paused self;
     start_time := start_time self;
     paused_elapsed := paused_elapsed self;
     total_elapsed := total_elapsed self |}.

End Timer.

(** ** Python floats *)

(** The clock readings of [time.time()] and what the engine computes from
    them are Python floats, that is IEEE 754 binary64 numbers.  A finite
    double is taken as the rational it stands for, and the difference of
    two doubles is their exact difference rounded to the nearest double,
    to the one with the even significand when two are as near.  A double
    has 53 significant bits, and the unit in its last place is never
    below 2^-1074, that of the subnormal numbers.  Beyond the greatest
    double, about 1.8e308, Python gives [inf]; the model has no such
    value, and the statements made with it keep below 2^1022. *)
Module Binary64.

Local Open Scope Q_scope.

(** [floor(log2(x))] for a positive [x]: the [e] with
    [2^e <= x < 2^(e+1)]. *)
Definition ilog2 (x : Q) : Z :=
  let e := (Z.log2 (Qnum x) - Z.log2 (Z.pos (Qden x)))%Z in
  if Qle_bool (2 ^ e) x then e else (e - 1)%Z.

(** The integer nearest to [m], the even one of two that are as near. *)
Definition nearest_even (m : Q) : Z :=
  let f := Qfloor m in
  match Qcompare (m - inject_Z f) (1 # 2) with
  | Lt => f
  | Gt => (f + 1)%Z
  | Eq => if Z.even f then f else (f + 1)%Z
  end.

(** The exponent of the unit in the last place of the doubles next to
    [x]. *)
Definition ulp_exponent (x : Q) : Z :=
  Z.max (ilog2 (Qabs x) - 52) (-1074).

(** The double nearest to [x]. *)
Definition round (x : Q) : Q :=
  if Qeq_bool x 0 then 0
  else
    let ulp := 2 ^ ulp_exponent x in
    inject_Z (nearest_even (x / ulp)) * ulp.

(** [x - y] on floats. *)
Definition sub (x y : Q) : Q := round (x - y).

(** The rational that a finite number of the Standard Library's
    specification of floating-point arithmetic stands for. *)
Definition of_spec_float (f : spec_float) : Q :=
  match f with
  | S754_finite s m e =>
      (if s then - inject_Z (Z.pos m) else inject_Z (Z.pos m)) * 2 ^ e
  | _ => 0
  end.

End Binary64.

(** ** timer_logic.py on doubles *)

(** The methods of [PomodoroTimer] that subtract clock readings, with the
    subtraction of doubles; [now] is the value of [time.time()]. *)
Module Timer64.

Import Timer.

Local Open Scope Q_scope.

(** [start] *)
Definition start (now : Q) (self : PomodoroTimer) : PomodoroTimer :=
  if negb (is_running self) then
    {| config := config self;
       phase := phase self;
       pomodoros_completed := pomodoros_completed self;
       is_running := true;
       is_paused := false;
       start_time := Some (Binary64.sub now (paused_elapsed self));
       paused_elapsed := paused_elapsed self;
       total_elapsed := total_elapsed self |}
  else self.

(** [get_elapsed] *)
Definition get_elapsed (now : Q) (self : PomodoroTimer) : Q :=
  match is_running self, start_time self with
  | true, Some t0 => Binary64.sub now t0
  | _, _ => paused_elapsed self
  end.

(** [pause]: [get_elapsed] is called while [is_running] is still set. *)
Definition pause (now : Q) (self : PomodoroTimer) : PomodoroTimer :=
  if is_running self && negb (is_paused self) then
    {| config := config self;
       phase := phase self;
       pomodoros_completed := pomodoros_completed self;
       is_running := false;
       is_paused := true;
       start_time := start_time self;
       paused_elapsed := get_elapsed now self;
       total_elapsed := total_elapsed self |}
  else self.

End Timer64.

(** ** The part of Python's [datetime] that stats.py uses *)

Module Date.

Local Open Scope Z_scope.

(** A [date] object, as the ordinal [date.toordinal()] returns:
    1 is 0001-01-01 and [max_ordinal] is 9999-12-31. *)
Definition t : Type := Z.

Bind Scope Z_scope with t.

Definition max_ordinal : Z := 3652059.

Definition _is_leap (year : Z) : bool :=
  (year mod 4 =? 0) && (negb (year mod 100 =? 0) || (year mod 400 =? 0)).

Definition _DAYS_IN_MONTH (month : Z) : Z :=
  match month with
  | 1 => 31 | 2 => 28 | 3 => 31 | 4 => 30 | 5 => 31 | 6 => 30
  | 7 => 31 | 8 => 31 | 9 => 30 | 10 => 31 | 11 => 30 | 12 => 31
  | _ => -1
  end.

Definition _DAYS_BEFORE_MONTH (month : Z) : Z :=
  match month with
  | 1 => 0 | 2 => 31 | 3 => 59 | 4 => 90 | 5 => 120 | 6 => 151
  | 7 => 181 | 8 => 212 | 9 => 243 | 10 => 273 | 11 => 304 | 12 => 334
  | _ => -1
  end.

Definition _days_before_year (year : Z) : Z :=
  let y := year - 1 in
  y * 365 + y / 4 - y / 100 + y / 400.

Definition _days_in_month (year month : Z) : Z :=
  if (month =? 2) && _is_leap year then 29 else _DAYS_IN_MONTH month.

Definition _days_before_month (year month : Z) : Z :=
  _DAYS_BEFORE_MONTH month + (if (2 <? month) && _is_leap year then 1 else 0).

Definition _ymd2ord (year month day : Z) : Z :=
  _days_before_year year + _days_before_month year month + day.

(** Days in 400, 100 and 4 years. *)
Definition _DI400Y : Z := 146097.
Definition _DI100Y : Z := 36524.
Definition _DI4Y : Z := 1461.

Definition _ord2ymd (ordinal : Z) : Z * Z * Z :=
  let n := ordinal - 1 in
  let n400 := n / _DI400Y in
  let n := n mod _DI400Y in
  let year := n400 * 400 + 1 in
  let n100 := n / _DI100Y in
  let n := n mod _DI100Y in
  let n4 := n / _DI4Y in
  let n := n mod _DI4Y in
  let n1 := n / 365 in
  let n := n mod 365 in
  let year := year + n100 * 100 + n4 * 4 + n1 in
  if (n1 =? 4) || (n100 =? 4) then (year - 1, 12, 31)
  else
    let leapyear := (n1 =? 3) && (negb (n4 =? 24) || (n100 =? 3)) in
    let month := Z.shiftr (n + 50) 5 in
    let preceding :=
      _DAYS_BEFORE_MONTH month + (if (2 <? month) && leapyear then 1 else 0) in
    if n <? preceding then
      let month := month - 1 in
      let preceding :=
        preceding -
        (_DAYS_IN_MONTH month + (if (month =? 2) && leapyear then 1 else 0)) in
      (year, month, n - preceding + 1)
    else (year, month, n - preceding + 1).

(** The decimal digit of [n] at the position of weight [w]. *)
Definition digit (n w : Z) : ascii :=
  ascii_of_N (Z.to_N (48 + (n / w) mod 10)).

(** ["%04d" % n] and ["%02d" % n], for [0 <= n < 10000] and [0 <= n < 100]. *)
Definition zfill4 (n : Z) : string :=
  String (digit n 1000) (String (digit n 100)
    (String (digit n 10) (String (digit n 1) EmptyString))).

Definition zfill2 (n : Z) : string :=
  String (digit n 10) (String (digit n 1) EmptyString).

(** [str(d)], that is [d.isoformat()]: ["%04d-%02d-%02d" % (year, month, day)]. *)
Definition str (d : t) : string :=
  let '(year, month, day) := _ord2ymd d in
  zfill4 year +:+ "-" +:+ zfill2 month +:+ "-" +:+ zfill2 day.

Definition digit_value (c : ascii) : option Z :=
  Z.of_nat <$> Ascii.is_nat c.

(** The group [%m] of [_strptime]: [1[0-2]|0[1-9]|[1-9]], its alternatives
    tried in this order.  The result is the month and the unread text. *)
Definition match_month (s : string) : option (Z * string) :=
  match s with
  | String "1" (String "0" r) => Some (10, r)
  | String "1" (String "1" r) => Some (11, r)
  | String "1" (String "2" r) => Some (12, r)
  | String "0" (String c r) =>
      match digit_value c with
      | Some v => if 1 <=? v then Some (v, r) else None
      | None => None
      end
  | String c r =>
      match digit_value c with
      | Some v => if 1 <=? v then Some (v, r) else None
      | None => None
      end
  | EmptyString => None
  end.

(** One character in [[1-9]]. *)
Definition nonzero_digit (c : ascii) : option Z :=
  match digit_value c with
  | Some v => if 1 <=? v then Some v else None
  | None => None
  end.

(** The group [%d]: [3[0-1]|[1-2]\d|0[1-9]|[1-9]| [1-9]], its alternatives
    tried in this order. *)
Definition match_day (s : string) : option (Z * string) :=
  let one :=
    match s with
    | String c r => (fun v => (v, r)) <$> nonzero_digit c
    | EmptyString => None
    end in
  match s with
  | String "3" (String "0" r) => Some (30, r)
  | String "3" (String "1" r) => Some (31, r)
  | String "1" (String c r) =>
      match digit_value c with Some v => Some (10 + v, r) | None => one end
  | String "2" (String c r) =>
      match digit_value c with Some v => Some (20 + v, r) | None => one end
  | String "0" (String c r) => (fun v => (v, r)) <$> nonzero_digit c
  | String " " (String c r) => (fun v => (v, r)) <$> nonzero_digit c
  | _ => one
  end.

(** The group [%Y]: four digits. *)
Definition match_year (s : string) : option (Z * string) :=
  match s with
  | String a (String b (String c (String d r))) =>
      match digit_value a, digit_value b, digit_value c, digit_value d with
      | Some va, Some vb, Some vc, Some vd =>
          Some (va * 1000 + vb * 100 + vc * 10 + vd, r)
      | _, _, _, _ => None
      end
  | _ => None
  end.

Definition match_dash (s : string) : option string :=
  match s with
  | String "-" r => Some r
  | _ => None
  end.

(** [datetime.strptime(s, "%Y-%m-%d").date()]; [None] is [ValueError]: the
    text does not match the format, text remains after the match, or the
    fields are not a date. *)
Definition strptime (s : string) : option t :=
  '(year, s) ← match_year s;
  s ← match_dash s;
  '(month, s) ← match_month s;
  s ← match_dash s;
  '(day, s) ← match_day s;
  if decide (s = "") then
    if (1 <=? year) && (day <=? _days_in_month year month)
    then Some (_ymd2ord year month day)
    else None
  else None.

(** [d - timedelta(days=n)]; [None] is [OverflowError]. *)
Definition sub_days (d : t) (n : Z) : option t :=
  let o := d - n in
  if (0 <? o) && (o <=? max_ordinal) then Some o else None.

(** [(a - b).days] *)
Definition days_between (a b : t) : Z := a - b.

End Date.

(** ** stats.py *)

Module Stats.

Local Open Scope Z_scope.

(** The exceptions of the store. *)
Inductive exn : Type :=
  | UnicodeDecodeError
  | JSONDecodeError
  | KeyError
  | ValueError
  | IndexError
  | OverflowError.

Inductive result (A : Type) : Type :=
  | Ok (a : A)
  | Raise (e : exn).

Arguments Ok {A} a.
Arguments Raise {A} e.

#[global] Instance result_ret : MRet result := fun A a => Ok a.

#[global] Instance result_bind : MBind result := fun A B f r =>
  match r with
  | Ok a => f a
  | Raise e => Raise e
  end.

#[global] Instance result_fmap : FMap result := fun A B f r =>
  match r with
  | Ok a => Ok (f a)
  | Raise e => Raise e
  end.

(** A library call that fails with exception [e]. *)
Definition or_raise {A : Type} (e : exn) (o : option A) : result A :=
  match o with
  | Some a => Ok a
  | None => Raise e
  end.

(** A loop that calls [f] on every element in order and collects the
    results; the first exception ends it. *)
Fixpoint for_each {A B : Type} (f : A -> result B) (l : list A)
  : result (list B) :=
  match l with
  | [] => Ok []
  | x :: l' => y ← f x; ys ← for_each f l'; Ok (y :: ys)
  end.

(** The attributes of a [DailyStats]. *)
Record DailyStats : Type := mkDailyStats {
  date : string;
  pomodoros : Z;
  focus_time : Z;
  break_time : Z;
  completed_cycles : Z;
  long_breaks_taken : Z
}.

(** [DailyStats.__init__]: [self.date = date_str or str(date.today())]; an
    empty string is false. *)
Definition new_DailyStats (today : Date.t) (date_str : option string)
  : DailyStats :=
  {| date := match date_str with
             | Some s => if decide (s = "") then Date.str today else s
             | None => Date.str today
             end;
     pomodoros := 0;
     focus_time := 0;
     break_time := 0;
     completed_cycles := 0;
     long_breaks_taken := 0 |}.

(** [add_pomodoro], [add_break] and [add_cycle] *)
Definition add_pomodoro (focus_duration : Z) (self : DailyStats) : DailyStats :=
  {| date := date self;
     pomodoros := pomodoros self + 1;
     focus_time := focus_time self + focus_duration;
     break_time := break_time self;
     completed_cycles := completed_cycles self;
     long_breaks_taken := long_breaks_taken self |}.

Definition add_break (break_duration : Z) (is_long : bool) (self : DailyStats)
  : DailyStats :=
  {| date := date self;
     pomodoros := pomodoros self;
     focus_time := focus_time self;
     break_time := break_time self + break_duration;
     completed_cycles := completed_cycles self;
     long_breaks_taken :=
       if is_long then long_breaks_taken self + 1 else long_breaks_taken self |}.

Definition add_cycle (self : DailyStats) : DailyStats :=
  {| date := date self;
     pomodoros := pomodoros self;
     focus_time := focus_time self;
     break_time := break_time self;
     completed_cycles := completed_cycles self + 1;
     long_breaks_taken := long_breaks_taken self |}.

(** The dictionary of one day, as [to_dict] builds it and [from_dict] reads
    it: each of the seven keys is present with a value or absent. *)
Record dict : Type := mkDict {
  key_date : option string;
  key_pomodoros : option Z;
  key_focus_time : option Z;
  key_break_time : option Z;
  key_completed_cycles : option Z;
  key_long_breaks_taken : option Z;
  key_total_time : option Z
}.

(** [data[key]] and [data.get(key, default)]. *)
Definition getitem {A : Type} (v : option A) : result A := or_raise KeyError v.

Definition get {A : Type} (v : option A) (default : A) : A :=
  match v with
  | Some a => a
  | None => default
  end.

(** [data[key] = v] for the key [total_time]. *)
Definition set_total_time (v : option Z) (data : dict) : dict :=
  {| key_date := key_date data;
     key_pomodoros := key_pomodoros data;
     key_focus_time := key_focus_time data;
     key_break_time := key_break_time data;
     key_completed_cycles := key_completed_cycles data;
     key_long_breaks_taken := key_long_breaks_taken data;
     key_total_time := v |}.

(** [DailyStats.to_dict] *)
Definition to_dict (self : DailyStats) : dict :=
  {| key_date := Some (date self);
     key_pomodoros := Some (pomodoros self);
     key_focus_time := Some (focus_time self);
     key_break_time := Some (break_time self);
     key_completed_cycles := Some (completed_cycles self);
     key_long_breaks_taken := Some (long_breaks_taken self);
     key_total_time := Some (focus_time self + break_time self) |}.

(** [DailyStats.from_dict] *)
Definition from_dict (today : Date.t) (data : dict) : result DailyStats :=
  d ← getitem (key_date data);
  let stats := new_DailyStats today (Some d) in
  p ← getitem (key_pomodoros data);
  f ← getitem (key_focus_time data);
  b ← getitem (key_break_time data);
  Ok {| date := date stats;
        pomodoros := p;
        focus_time := f;
        break_time := b;
        completed_cycles := get (key_completed_cycles data) 0;
        long_breaks_taken := get (key_long_breaks_taken data) 0 |}.

(** The persisted document: the keys [history], [streak] and
    [last_updated], each present or absent. *)
Record document : Type := mkDocument {
  doc_history : option (gmap string dict);
  doc_streak : option Z;
  doc_last_updated : option string
}.

(** A file opened in text mode, by what [json.load] does on it: reading
    bytes that are not text in the encoding of [open] raises
    [UnicodeDecodeError] (a [ValueError], not a [JSONDecodeError]); text
    that is not JSON raises [JSONDecodeError]; JSON text gives its
    document. *)
Inductive file : Type :=
  | Undecodable
  | Malformed
  | Json (data : document).

Definition json_load (f : file) : result document :=
  match f with
  | Undecodable => Raise UnicodeDecodeError
  | Malformed => Raise JSONDecodeError
  | Json data => Ok data
  end.

(** The attributes of a [StatsTracker]. *)
Record StatsTracker : Type := mkTracker {
  storage_path : string;
  current_day : DailyStats;
  history : gmap string DailyStats;
  streak : Z
}.

(** [sorted(self.history.keys(), reverse=True)]: the keys from the greatest
    string to the least. *)
Definition sorted_reverse (keys : list string) : list string :=
  merge_sort (flip String.le) keys.

(** [self.history[date_str].pomodoros > 0] *)
Definition pomodoros_positive (h : gmap string DailyStats) (date_str : string)
  : result bool :=
  stats ← getitem (h !! date_str);
  Ok (0 <? pomodoros stats).

(** [a and b], where [b] is evaluated only when [a] holds. *)
Definition and_then (a : bool) (b : result bool) : result bool :=
  if a then b else Ok false.

(** The loop of [_update_streak] from index [i] on: [rest] is [dates[i:]]
    and [streak] the count so far.  [break] returns the count. *)
Fixpoint streak_loop (current_date : Date.t) (h : gmap string DailyStats)
    (dates : list string) (i : nat) (rest : list string) (streak : Z)
  : result Z :=
  match rest with
  | [] => Ok streak
  | date_str :: rest' =>
      stats_date ← or_raise ValueError (Date.strptime date_str);
      match i with
      | O =>
          let delta := Date.days_between current_date stats_date in
          c ← and_then (delta <=? 1) (pomodoros_positive h date_str);
          if (c : bool)
          then streak_loop current_date h dates (S i) rest' (streak + 1)
          else Ok streak
      | S j =>
          prev_str ← or_raise IndexError (dates !! j);
          prev_date ← or_raise ValueError (Date.strptime prev_str);
          let delta := Date.days_between prev_date stats_date in
          c ← and_then (delta =? 1) (pomodoros_positive h date_str);
          if (c : bool)
          then streak_loop current_date h dates (S i) rest' (streak + 1)
          else Ok streak
      end
  end.

Definition set_streak (n : Z) (self : StatsTracker) : StatsTracker :=
  {| storage_path := storage_path self;
     current_day := current_day self;
     history := history self;
     streak := n |}.

(** [_update_streak], with [today] the value of [date.today()]. *)
Definition _update_streak (today : Date.t) (self : StatsTracker)
  : result StatsTracker :=
  let dates := sorted_reverse (map fst (map_to_list (history self))) in
  n ← streak_loop today (history self) dates 0 dates 0;
  Ok (set_streak n self).

(** [get_streak] *)
Definition get_streak (self : StatsTracker) : Z := streak self.

(** The files of the machine, by path. *)
Abbreviation filesystem := (gmap string file).

(** The dictionary comprehension of [_load]: [from_dict] on every value.
    The order in which the items are visited does not show in the result:
    the keys are distinct and [from_dict] raises nothing but [KeyError]. *)
Definition load_history (today : Date.t) (h : gmap string dict)
  : result (gmap string DailyStats) :=
  entries ← for_each
    (fun '(date_str, stats_data) =>
       stats ← from_dict today stats_data; Ok (date_str, stats))
    (map_to_list h);
  Ok (list_to_map entries).

(** The body of the [try] of [_load]. *)
Definition load_file (today : Date.t) (f : file) (self : StatsTracker)
  : result StatsTracker :=
  data ← json_load f;
  h ← load_history today (get (doc_history data) ∅);
  let today_str := Date.str today in
  let day := match h !! today_str with
             | Some stats => stats
             | None => new_DailyStats today (Some today_str)
             end in
  _update_streak today
    {| storage_path := storage_path self;
       current_day := day;
       history := h;
       streak := streak self |}.

(** [_load]: [except (json.JSONDecodeError, KeyError)] starts fresh; any
    other exception leaves [_load]. *)
Definition _load (today : Date.t) (fs : filesystem) (self : StatsTracker)
  : result StatsTracker :=
  match fs !! storage_path self with
  | Some f =>
      match load_file today f self with
      | Raise JSONDecodeError | Raise KeyError =>
          Ok {| storage_path := storage_path self;
                current_day := new_DailyStats today None;
                history := ∅;
                streak := 0 |}
      | r => r
      end
  | None =>
      _update_streak today
        {| storage_path := storage_path self;
           current_day := new_DailyStats today None;
           history := history self;
           streak := streak self |}
  end.

(** The assignments of [StatsTracker.__init__] before it calls [_load]:
    [storage_path or "pomodoro_stats.json"], a new day, no history. *)
Definition empty_tracker (today : Date.t) (path : option string)
  : StatsTracker :=
  {| storage_path := match path with
                     | Some p =>
                         if decide (p = "") then "pomodoro_stats.json" else p
                     | None => "pomodoro_stats.json"
                     end;
     current_day := new_DailyStats today None;
     history := ∅;
     streak := 0 |}.

(** [StatsTracker.__init__] *)
Definition init (today : Date.t) (fs : filesystem) (path : option string)
  : result StatsTracker :=
  _load today fs (empty_tracker today path).

(** [_save], with [stamp] the value of [datetime.now().isoformat()]: the
    current day is put into the history, the streak recomputed and the
    whole document written over the file. *)
Definition _save (today : Date.t) (stamp : string) (fs : filesystem)
    (self : StatsTracker) : result (StatsTracker * filesystem) :=
  let self1 :=
    {| storage_path := storage_path self;
       current_day := current_day self;
       history := <[date (current_day self) := current_day self]> (history self);
       streak := streak self |} in
  self2 ← _update_streak today self1;
  let data :=
    {| doc_history := Some (to_dict <$> history self2);
       doc_streak := Some (streak self2);
       doc_last_updated := Some stamp |} in
  Ok (self2, <[storage_path self2 := Json data]> fs).

(** The literal dictionary of [get_weekly_summary] for a day without
    history. *)
Definition empty_day (day_str : string) : dict :=
  {| key_date := Some day_str;
     key_pomodoros := Some 0;
     key_focus_time := Some 0;
     key_break_time := Some 0;
     key_completed_cycles := Some 0;
     key_long_breaks_taken := Some 0;
     key_total_time := Some 0 |}.

(** One turn of the loop of [get_weekly_summary]. *)
Definition weekly_entry (today : Date.t) (self : StatsTracker) (i : nat)
  : result dict :=
  day ← or_raise OverflowError (Date.sub_days today (Z.of_nat i));
  let day_str := Date.str day in
  match history self !! day_str with
  | Some stats => Ok (to_dict stats)
  | None => Ok (empty_day day_str)
  end.

(** [get_weekly_summary], with [today] the value of [date.today()]. *)
Definition get_weekly_summary (today : Date.t) (self : StatsTracker)
  : result (list dict) :=
  for_each (weekly_entry today self) (seq 0 7).

End Stats.

(** * Definitions of the statements *)

(** ** For the timer engine *)

Module TimerSpec.

Import Timer.

Local Open Scope Q_scope.

(** The invariant the data model puts on a configuration: all four values
    are positive. *)
Definition config_valid (cfg : TimerConfig) : Prop :=
  0 < focus_duration cfg /\ 0 < short_break_duration cfg /\
  0 < long_break_duration cfg /\ (0 < pomodoros_before_long_break cfg)%Z.

(** The states an engine goes through: built from a valid configuration and
    driven by the public operations, under a clock that never goes back.
    The index is the latest clock reading. *)
Inductive reachable : Q -> PomodoroTimer -> Prop :=
  | reach_init cfg t :
      config_valid cfg -> reachable t (init (Some cfg))
  | reach_wait t t' s :
      reachable t s -> t <= t' -> reachable t' s
  | reach_reset t s :
      reachable t s -> reachable t (reset s)
  | reach_start t s now :
      reachable t s -> t <= now -> reachable now (start now s)
  | reach_pause t s now :
      reachable t s -> t <= now -> reachable now (pause now s)
  | reach_stop t s :
      reachable t s -> reachable t (stop s)
  | reach_check t s now_check now_adv :
      reachable t s -> t <= now_check -> now_check <= now_adv ->
      reachable now_adv (final_state (check_completion now_check now_adv s))
  | reach_set_config t s cfg :
      reachable t s -> config_valid cfg -> reachable t (set_config cfg s).

(** What holds of every reachable state [s] when the clock has reached
    [t]: the configuration is valid, the banked time is not negative, a
    running timer has a [start_time] that is not in the future and is not
    paused, and a stopped timer has no banked time. *)
Record timer_inv (t : Q) (s : PomodoroTimer) : Prop := mk_timer_inv {
  inv_config : config_valid (config s);
  inv_paused_elapsed : 0 <= paused_elapsed s;
  inv_start_time :
    is_running s = true -> exists t0, start_time s = Some t0 /\ t0 <= t;
  inv_exclusive : is_running s = true -> is_paused s = false;
  inv_stopped :
    is_running s = false -> is_paused s = false -> paused_elapsed s == 0
}.

(** A configuration as the tests build it: a focus duration of 10 seconds
    and [n] pomodoros before a long break, the other fields default. *)
Definition config_focus10 (n : Z) : TimerConfig :=
  mkConfig 10 (5 * 60) (15 * 60) n.


End TimerSpec.

(** ** For the statistics store *)

Module StatsSpec.

Import Stats.

Local Open Scope Z_scope.

(** The entry of [get_weekly_summary] for the day [i] days before [today]. *)
Definition week_entry (today : Date.t) (self : StatsTracker) (i : nat) : dict :=
  let day_str := Date.str (today - Z.of_nat i) in
  match history self !! day_str with
  | Some stats => to_dict stats
  | None => empty_day day_str
  end.

(** The walk as the specification words it, over the days of the history
    from the most recent on, each with its pomodoros.  After a counted day [prev],
    the next day counts when it is exactly one day before [prev] and has a
    pomodoro; the first day that does not count ends the walk. *)
Fixpoint spec_walk (prev : Date.t) (days : list (Date.t * Z)) : Z :=
  match days with
  | [] => 0
  | (d, p) :: rest =>
      if (Date.days_between prev d =? 1) && (0 <? p)
      then 1 + spec_walk d rest
      else 0
  end.

(** The streak as the specification words it: the most recent day counts
    when its gap from today is 0 or 1 day and it has a pomodoro, and the
    walk goes on from it; otherwise the streak is 0. *)
Definition spec_streak (today : Date.t) (days : list (Date.t * Z)) : Z :=
  match days with
  | [] => 0
  | (d, p) :: rest =>
      let gap := Date.days_between today d in
      if ((gap =? 0) || (gap =? 1)) && (0 <? p)
      then 1 + spec_walk d rest
      else 0
  end.

(** The key [k] of the history [h] is the date [dp.1] and its day has
    [dp.2] pomodoros. *)
Definition key_is_day (h : gmap string DailyStats) (k : string)
    (dp : Date.t * Z) : Prop :=
  Date.strptime k = Some dp.1 /\
  exists stats, h !! k = Some stats /\ pomodoros stats = dp.2.

(** The history of the streak test: a history with the 9th
    and the 8th of January 2024, with 2 and 3 pomodoros. *)
Definition two_day_history : gmap string DailyStats :=
  {[ "2024-01-09" := mkDailyStats "2024-01-09" 2 3000 600 2 0;
     "2024-01-08" := mkDailyStats "2024-01-08" 3 4500 900 3 0 ]}.

(** A tracker whose history has one day, 2024-01-12, with a pomodoro. *)
Definition future_day_tracker : StatsTracker :=
  mkTracker "pomodoro_stats.json" (new_DailyStats 738895 None)
    {[ "2024-01-12" := mkDailyStats "2024-01-12" 1 1500 0 0 0 ]} 0.

(** An entry [from_dict] cannot read: a key that it indexes is absent. *)
Definition lacks_required_key (d : dict) : Prop :=
  key_date d = None \/ key_pomodoros d = None \/
  key_focus_time d = None \/ key_break_time d = None.

(** A document of the persisted layout whose one history key is not a
    date: there is no month 13. *)
Definition bad_key_document : document :=
  {| doc_history :=
       Some {[ "2024-13-45" :=
                 to_dict (mkDailyStats "2024-13-45" 1 1500 300 1 0) ]};
     doc_streak := Some 1;
     doc_last_updated := Some "2024-01-09T10:00:00" |}.

(** The five counters of a day. *)
Definition counters (s : DailyStats) : Z * Z * Z * Z * Z :=
  (pomodoros s, focus_time s, break_time s, completed_cycles s,
   long_breaks_taken s).

(** What [from_dict] makes of [to_dict s]: [s], but for an empty [date],
    which the constructor replaces by today's. *)
Definition reread (today : Date.t) (s : DailyStats) : DailyStats :=
  {| date := if decide (date s = "") then Date.str today else date s;
     pomodoros := pomodoros s;
     focus_time := focus_time s;
     break_time := break_time s;
     completed_cycles := completed_cycles s;
     long_breaks_taken := long_breaks_taken s |}.

(** [from_dict], made total for the values of a map that it can read. *)
Definition from_dict_or_new (today : Date.t) (data : dict) : DailyStats :=
  match from_dict today data with
  | Ok stats => stats
  | Raise _ => new_DailyStats today None
  end.

End StatsSpec.

(** * The rest of the code *)

(** ** timer_logic.py: the read-outs *)

Module TimerView.

Import Timer.

Local Open Scope Q_scope.

(** [phase.value], the value of the enumeration member. *)
Definition value (p : TimerPhase) : string :=
  match p with
  | FOCUS => "focus"
  | SHORT_BREAK => "short_break"
  | LONG_BREAK => "long_break"
  end.

(** [get_phase_name] *)
Definition get_phase_name (self : PomodoroTimer) : string :=
  match phase self with
  | FOCUS => "Focus"
  | SHORT_BREAK => "Short Break"
  | LONG_BREAK => "Long Break"
  end.

(** [int(x)]: the integer towards zero. *)
Definition int_of (x : Q) : Z :=
  if Qle_bool 0 x then Qfloor x else Qceiling x.

(** [x // y] and [x % y] on seconds: the floor of the quotient, and the
    remainder that goes with it. *)
Definition floordiv (x y : Q) : Q := inject_Z (Qfloor (x / y)).

Definition pymod (x y : Q) : Q := x - y * floordiv x y.

(** [get_time_display], with [now] the value of [time.time()]. *)
Definition get_time_display (now : Q) (self : PomodoroTimer) : Z * Z :=
  let remaining := get_remaining now self in
  let minutes := int_of (floordiv remaining 60) in
  let seconds := int_of (pymod remaining 60) in
  (minutes, seconds).

(** The dictionary of [get_status_summary], by its keys. *)
Record status : Type := mkStatus {
  status_phase : string;
  status_phase_name : string;
  status_remaining_minutes : Z;
  status_remaining_seconds : Z;
  status_progress : Q;
  status_is_running : bool;
  status_is_paused : bool;
  status_pomodoros_completed : Z;
  status_next_long_break : Z
}.

(** [get_status_summary]: [now_display] is the clock reading of
    [get_time_display], [now_progress] the later one of [get_progress].
    The last entry takes [%] by [pomodoros_before_long_break], which
    raises when that is 0; the timer is not changed. *)
Definition get_status_summary (now_display now_progress : Q)
    (self : PomodoroTimer) : outcome status :=
  let '(minutes, seconds) := get_time_display now_display self in
  let progress := get_progress now_progress self in
  let n := pomodoros_before_long_break (config self) in
  if (n =? 0)%Z then Raises ZeroDivisionError self
  else
    Returns
      {| status_phase := value (phase self);
         status_phase_name := get_phase_name self;
         status_remaining_minutes := minutes;
         status_remaining_seconds := seconds;
         status_progress := progress;
         status_is_running := is_running self;
         status_is_paused := is_paused self;
         status_pomodoros_completed := pomodoros_completed self;
         status_next_long_break := (n - pomodoros_completed self mod n)%Z |}
      self.

(** A sequence of phase completions, one advance at each clock reading of
    [nows]; an advance that raises ends it. *)
Fixpoint advance_all (nows : list Q) (self : PomodoroTimer)
  : outcome unit :=
  match nows with
  | [] => Returns tt self
  | now :: nows' =>
      match _advance_phase now self with
      | Returns _ self' => advance_all nows' self'
      | Raises e self' => Raises e self'
      end
  end.

End TimerView.

(** ** stats.py: the operations on the current day *)

Module Store.

Import Stats.

Local Open Scope Z_scope.

(** A [StatsTracker] together with the sharing of its objects.  The values
    of [self.history] are objects, and [self.current_day] can be one of
    them: [_load] takes it out of the history under today's key, and
    [_save] and [reset_today] store it under its own date.  [shared] is the
    set of the keys whose value is the object [current_day]; a method
    called on the current day changes what the history holds under each of
    them.  Every other value of the history is an object that nothing
    changes. *)
Record t : Type := mkStore {
  tracker : StatsTracker;
  shared : gset string
}.

(** [StatsTracker.__init__]: after [_load] the current day is the object of
    the history under today's key, when the file had that key, and a new
    object otherwise. *)
Definition init (today : Date.t) (fs : filesystem) (path : option string)
  : result t :=
  tr ← Stats.init today fs path;
  Ok {| tracker := tr;
        shared := if decide (is_Some (history tr !! Date.str today))
                  then {[ Date.str today ]} else ∅ |}.

(** A method [f] of [DailyStats] called on [self.current_day]: the object
    changes in place, under every key that holds it. *)
Definition on_current_day (f : DailyStats -> DailyStats) (st : t) : t :=
  let tr := tracker st in
  let day := f (current_day tr) in
  {| tracker :=
       {| storage_path := storage_path tr;
          current_day := day;
          history := gset_to_gmap day (shared st) ∪ history tr;
          streak := streak tr |};
     shared := shared st |}.

(** [_save]: the assignment [self.history[self.current_day.date] =
    self.current_day] makes that key one more that holds the current
    day. *)
Definition _save (today : Date.t) (stamp : string) (fs : filesystem)
    (st : t) : result (t * filesystem) :=
  '(tr, fs') ← Stats._save today stamp fs (tracker st);
  Ok ({| tracker := tr;
         shared := {[ date (current_day (tracker st)) ]} ∪ shared st |},
      fs').

(** [record_pomodoro], [record_break] and [record_cycle] *)
Definition record_pomodoro (focus_duration : Z) (today : Date.t)
    (stamp : string) (fs : filesystem) (st : t) : result (t * filesystem) :=
  _save today stamp fs (on_current_day (add_pomodoro focus_duration) st).

Definition record_break (break_duration : Z) (is_long : bool)
    (today : Date.t) (stamp : string) (fs : filesystem) (st : t)
  : result (t * filesystem) :=
  _save today stamp fs (on_current_day (add_break break_duration is_long) st).

Definition record_cycle (today : Date.t) (stamp : string) (fs : filesystem)
    (st : t) : result (t * filesystem) :=
  _save today stamp fs (on_current_day add_cycle st).

(** [get_today_summary], [get_weekly_summary] and [get_streak] *)
Definition get_today_summary (st : t) : dict :=
  to_dict (current_day (tracker st)).

Definition get_weekly_summary (today : Date.t) (st : t) : result (list dict) :=
  Stats.get_weekly_summary today (tracker st).

Definition get_streak (st : t) : Z := Stats.get_streak (tracker st).

(** [reset_today]: a new [DailyStats()] becomes the current day and is
    stored under its date, the only key that holds it; then
    [_update_streak] and [_save]. *)
Definition reset_today (today : Date.t) (stamp : string) (fs : filesystem)
    (st : t) : result (t * filesystem) :=
  let tr := tracker st in
  let day := new_DailyStats today None in
  tr' ← _update_streak today
          {| storage_path := storage_path tr;
             current_day := day;
             history := <[date day := day]> (history tr);
             streak := streak tr |};
  _save today stamp fs {| tracker := tr'; shared := {[ date day ]} |}.

(** The sharing is as [shared] says: every key in it holds the current
    day. *)
Definition wf (st : t) : Prop :=
  forall k, k ∈ shared st ->
    history (tracker st) !! k = Some (current_day (tracker st)).

(** The keys of the history and the date of the current day are dates:
    [strptime] accepts them. *)
Definition dated (tr : StatsTracker) : Prop :=
  map_Forall (fun k _ => is_Some (Date.strptime k)) (history tr) /\
  is_Some (Date.strptime (date (current_day tr))).

End Store.

(** ** For the statements on the current day *)

Module StoreSpec.

Import Stats Store.

Local Open Scope Z_scope.

(** What a recording operation that calls the method [f] on the current
    day and then [_save] has done, from the store [st] and the files [fs]
    to [st'] and [fs']: the current day is [f] of the old one; it is held
    under its date and under the keys that held it before; the rest of the
    history is as it was; the file at the storage path holds the [to_dict]
    of the whole history and the streak, and no other file has changed;
    and the store is still well-formed with dates for keys. *)
Definition recorded (f : DailyStats -> DailyStats) (st : Store.t)
    (fs : filesystem) (st' : Store.t) (fs' : filesystem) : Prop :=
  let old := current_day (tracker st) in
  current_day (tracker st') = f old /\
  shared st' = {[ date old ]} ∪ shared st /\
  (forall k, k ∈ shared st' -> history (tracker st') !! k = Some (f old)) /\
  (forall k, k ∉ shared st' ->
     history (tracker st') !! k = history (tracker st) !! k) /\
  storage_path (tracker st') = storage_path (tracker st) /\
  (exists data,
     fs' !! storage_path (tracker st) = Some (Json data) /\
     doc_history data = Some (to_dict <$> history (tracker st')) /\
     doc_streak data = Some (streak (tracker st'))) /\
  (forall p, p <> storage_path (tracker st) -> fs' !! p = fs !! p) /\
  wf st' /\ dated (tracker st').

End StoreSpec.

(** * The quotes of the voices ([quotes.py]) *)

Module Quotes.

Import Stats.

Local Open Scope string_scope.

(** [class Voice(Enum)] *)
Inductive Voice : Type :=
  | SOLEA
  | NYRA
  | VOX
  | ATLAS.

#[global] Instance Voice_eq_dec : EqDecision Voice.
Proof. solve_decision. Defined.

(** [voice.value].  The texts of this module are the UTF-8 bytes of the
    source: the letter e with acute accent of the first name is the two
    bytes 195 and 169. *)
Definition value (voice : Voice) : string :=
  match voice with
  | SOLEA => "Soléa"
  | NYRA => "Nyra"
  | VOX => "VOX"
  | ATLAS => "Atlas"
  end.

(** [list(Voice)]: the members in the order of their definition. *)
Definition list_Voice : list Voice := [SOLEA; NYRA; VOX; ATLAS].

(** [QUOTES] *)
Definition QUOTES (voice : Voice) : list string :=
  match voice with
  | SOLEA =>
      [
        "Die Pausen sind nicht Leerlauf, sondern Raum für neue Einsicht.";
        "Im Stillen wächst die Klarheit, im Rhythmus die Kraft.";
        "Jeder Atemzug zwischen den Fokus-Phasen nährt die Kreativität.";
        "Geduld ist keine Untätigkeit – sie ist aktives Warten auf den richtigen Moment.";
        "Die Schönheit der Arbeit liegt im Wechsel von Spannung und Entspannung."
      ]
  | NYRA =>
      [
        "Effizienz entsteht durch Rhythmus – nicht durch Hetze.";
        "Pause ist strategische Regeneration, nicht Zeitverschwendung.";
        "Ein klarer Timer schafft klare Ergebnisse.";
        "Disziplin im Fokus, Freiheit in der Pause.";
        "Der nächste Schritt ist immer der wichtigste – aber nur mit frischer Energie."
      ]
  | VOX =>
      [
        "Präzision: 25min ± 0.1% Abweichung tolerabel.";
        "Statistik: 4 Pomodoros = 100min Fokus + 15min Langpause (optimale Ratio).";
        "Evidenz zeigt: Regelmäßige Pausen erhöhen die Gesamtproduktivität um 13-20%.";
        "Zyklus-Konsistenz ist nachweisbar effektiver als unstrukturierte Arbeitsblöcke.";
        "Timer-basierte Arbeit reduziert Entscheidungsmüdigkeit um 34%."
      ]
  | ATLAS =>
      [
        "Balance zwischen Fokus und Erholung ist der Kern nachhaltiger Produktivität.";
        "Das System atmet: Anspannung – Lösung – Integration.";
        "Nicht die Länge der Pause zählt, sondern ihre Qualität.";
        "Rhythmus schafft Stabilität, Stabilität schafft Flow.";
        "Der Wechsel selbst ist die Konstante, die Entwicklung ermöglicht."
      ]
  end.

Definition code_between (lo hi : N) (c : ascii) : bool :=
  ((lo <=? N_of_ascii c) && (N_of_ascii c <=? hi))%N.

Definition plus_32 (c : ascii) : ascii := ascii_of_N (N_of_ascii c + 32).

(** [str.lower] on UTF-8 text, for the letters of Basic Latin (A to Z, one
    byte each) and of the Latin-1 Supplement (U+00C0 to U+00DE without the
    multiplication sign U+00D7: the byte 195 and a byte from 128 to 158
    other than 151); the lower-case letter is 32 code points further in
    both.  These are the letters of the upper-case forms of the keys of
    [voice_key_to_enum].  Every other character is left as it is. *)
Fixpoint lower (s : string) : string :=
  match s with
  | EmptyString => EmptyString
  | String c rest =>
      if code_between 65 90 c then String (plus_32 c) (lower rest)
      else
        match rest with
        | String d rest' =>
            if (N_of_ascii c =? 195)%N && code_between 128 158 d
               && negb (N_of_ascii d =? 151)%N
            then String c (String (plus_32 d) (lower rest'))
            else String c (lower rest)
        | EmptyString => String c EmptyString
        end
  end.

(** A dictionary literal with its items in the order written, and
    [dict.get] with a default. *)
Fixpoint dict_get {A : Type} (d : list (string * A)) (key : string)
    (default : A) : A :=
  match d with
  | [] => default
  | (k, v) :: d' => if decide (k = key) then v else dict_get d' key default
  end.

(** [voice_key_to_enum] *)
Definition voice_key_to_enum (key : string) : Voice :=
  let mapping :=
    [("solea", SOLEA); ("soléa", SOLEA); ("nyra", NYRA); ("vox", VOX);
     ("atlas", ATLAS)] in
  dict_get mapping (lower key) SOLEA.

(** [random.choice(seq)], with [r] the number that the generator gives:
    the element at the index [r mod len(seq)], and [IndexError] for an
    empty sequence. *)
Definition random_choice {A : Type} (r : nat) (seq : list A) : result A :=
  or_raise IndexError (seq !! (r mod length seq)%nat).

(** The attribute of a [QuoteManager]: for every voice the quotes used
    last. *)
Record QuoteManager : Type := mkManager {
  used_quotes : Voice -> list string
}.

(** [__init__] *)
Definition init : QuoteManager := {| used_quotes := fun _ => [] |}.

(** [self.used_quotes[voice] = l] *)
Definition set_used (voice : Voice) (l : list string) (self : QuoteManager)
  : QuoteManager :=
  {| used_quotes := fun v => if decide (v = voice) then l
                             else used_quotes self v |}.

(** [l[-3:]] *)
Definition last_three (l : list string) : list string :=
  drop (length l - 3) l.

(** [get_quote], with [r] the number drawn by [random.choice]. *)
Definition get_quote (r : nat) (voice : Voice) (self : QuoteManager)
  : result (string * QuoteManager) :=
  let available :=
    filter (fun q => q ∉ used_quotes self voice) (QUOTES voice) in
  let '(self, available) :=
    match available with
    | [] => (set_used voice [] self, QUOTES voice)
    | _ => (self, available)
    end in
  quote ← random_choice r available;
  let self := set_used voice (used_quotes self voice ++ [quote]) self in
  let self :=
    if (3 <? length (used_quotes self voice))%nat
    then set_used voice (last_three (used_quotes self voice)) self
    else self in
  Ok (quote, self).

(** [get_break_quote], with [r0], [r1], [r2], [r3] the numbers drawn by the
    calls of [random.choice] in their order: four for a long break, two
    for a short one.  The dictionary returned is the list of its items in
    the order of insertion. *)
Definition get_break_quote (is_long_break : bool) (r0 r1 r2 r3 : nat)
    (self : QuoteManager) : result (list (string * string) * QuoteManager) :=
  if is_long_break then
    '(solea, self) ← get_quote r0 SOLEA self;
    '(nyra, self) ← get_quote r1 NYRA self;
    '(vox, self) ← get_quote r2 VOX self;
    '(atlas, self) ← get_quote r3 ATLAS self;
    Ok ([("solea", solea); ("nyra", nyra); ("vox", vox); ("atlas", atlas)],
        self)
  else
    voice ← random_choice r0 list_Voice;
    '(quote, self) ← get_quote r1 voice self;
    Ok ([(lower (value voice), quote)], self).

(** [reset] *)
Definition reset (self : QuoteManager) : QuoteManager :=
  {| used_quotes := fun _ => [] |}.

End Quotes.

(** ** For the statements on the quotes *)

Module QuotesSpec.

Import Stats Quotes.

(** The managers that the methods make from a new one. *)
Inductive reachable : QuoteManager -> Prop :=
  | reachable_init : reachable Quotes.init
  | reachable_get_quote r voice self quote self' :
      reachable self ->
      get_quote r voice self = Ok (quote, self') ->
      reachable self'
  | reachable_reset self :
      reachable self -> reachable (Quotes.reset self).

(** [l[-2:]] *)
Definition last_two (l : list string) : list string :=
  drop (length l - 2) l.

(** [get_quote] called once for each of the numbers drawn, on the same
    voice: the quotes in the order returned. *)
Fixpoint get_quotes (draws : list nat) (voice : Voice) (self : QuoteManager)
  : result (list string * QuoteManager) :=
  match draws with
  | [] => Ok ([], self)
  | r :: draws' =>
      '(quote, self) ← get_quote r voice self;
      '(quotes, self) ← get_quotes draws' voice self;
      Ok (quote :: quotes, self)
  end.

End QuotesSpec.

(** * The recording of a completed phase ([app.py]) *)

Module App.

Import Timer TimerView Stats Store.

Local Open Scope Z_scope.

(** A duration of [timer.config] as the statistics receive it.  In the
    application the durations are integers, [25 * 60] and the like at the
    start and [focus_min * 60] and the like from the settings; the timer
    engine holds them among the rationals, and [seconds] is the integer
    again. *)
Definition seconds (duration : Q) : Z := Qfloor duration.

(** The statements of [main] under [# Record statistics], run when
    [check_completion] has returned true: [timer] is the timer after it,
    in its new phase.  Every recording reads the clock; [today1], [stamp1]
    and so on are its readings in their order. *)
Definition record_statistics (timer : PomodoroTimer)
    (today1 : Date.t) (stamp1 : string) (today2 : Date.t) (stamp2 : string)
    (today3 : Date.t) (stamp3 : string) (fs : filesystem) (st : Store.t)
  : result (Store.t * filesystem) :=
  if decide (value (phase timer) = "focus") then
    Ok (st, fs)
  else if decide (value (phase timer) = "short_break") then
    '(st, fs) ← record_pomodoro (seconds (focus_duration (config timer)))
                  today1 stamp1 fs st;
    '(st, fs) ← record_break (seconds (short_break_duration (config timer)))
                  false today2 stamp2 fs st;
    record_cycle today3 stamp3 fs st
  else
    record_break (seconds (long_break_duration (config timer))) true
      today1 stamp1 fs st.

End App.

(** * Properties of the timer engine *)

Section TimerProperties.

Import Timer TimerSpec.

Local Open Scope Q_scope.

(** ** Elapsed and remaining time *)


Lemma get_elapsed_running now s t0 :
  is_running s = true -> start_time s = Some t0 -> get_elapsed now s = now - t0.
Proof. unfold get_elapsed. intros -> ->. reflexivity. Qed.



Lemma get_remaining_nonneg now s : 0 <= get_remaining now s.
Proof. unfold get_remaining. apply Q.le_max_l. Qed.

Lemma get_remaining_done_iff now s :
  get_remaining now s <= 0 <-> get_phase_duration s <= get_elapsed now s.
Proof.
  unfold get_remaining. cbv zeta.
  destruct (Q.max_spec 0 (get_phase_duration s - get_elapsed now s))
    as [[Hlt ->] | [Hge ->]]; split; lra.
Qed.

(** ** The invariant of the reachable states *)

Lemma timer_inv_elapsed t s now :
  timer_inv t s -> t <= now -> 0 <= get_elapsed now s.
Proof.
  intros [_ Hpe Hst _ _] Hle. unfold get_elapsed.
  destruct (is_running s) eqn:Hrun.
  - destruct (Hst eq_refl) as (t0 & -> & Ht0). lra.
  - exact Hpe.
Qed.

Lemma timer_inv_enter_phase t s now p :
  timer_inv t s -> t <= now -> timer_inv now (enter_phase now p s).
Proof.
  intros [Hc Hpe Hst Hex Hsp] Hle. split; cbn; auto; try lra.
  intros Hrun. rewrite Hrun. exists now. split; [reflexivity | lra].
Qed.

Lemma timer_inv_count_pomodoro t s :
  timer_inv t s -> timer_inv t (count_pomodoro s).
Proof. intros [Hc Hpe Hst Hex Hsp]. split; cbn; auto. Qed.

Lemma timer_inv_advance t s now :
  timer_inv t s -> t <= now ->
  timer_inv now (final_state (_advance_phase now s)).
Proof.
  intros Hinv Hle. unfold _advance_phase.
  destruct (phase s); try (apply (timer_inv_enter_phase t); assumption).
  cbv zeta.
  destruct (pomodoros_before_long_break (config (count_pomodoro s)) =? 0)%Z.
  - cbn [final_state]. destruct Hinv as [Hc Hpe Hst Hex Hsp].
    split; cbn; auto.
    intros Hrun. destruct (Hst Hrun) as (t0 & Ht0 & Hlt).
    exists t0. split; [assumption | lra].
  - destruct (_ =? 0)%Z; cbn [final_state];
      apply (timer_inv_enter_phase t); auto using timer_inv_count_pomodoro.
Qed.

Lemma timer_inv_wait t t' s : timer_inv t s -> t <= t' -> timer_inv t' s.
Proof.
  intros [Hc Hpe Hst Hex Hsp] Hle. split; auto.
  intros Hrun. destruct (Hst Hrun) as (t0 & Ht0 & Hlt).
  exists t0. split; [assumption | lra].
Qed.

Lemma reachable_inv t s : reachable t s -> timer_inv t s.
Proof.
  induction 1 as [cfg t Hcfg | t t' s _ IH Hle | t s _ IH | t s now _ IH Hle
                 | t s now _ IH Hle | t s _ IH
                 | t s n1 n2 _ IH Hle1 Hle2 | t s cfg _ IH Hcfg].
  - split; cbn; auto; try lra; discriminate.
  - eauto using timer_inv_wait.
  - destruct IH as [Hc _ _ _ _]. split; cbn; auto; try lra; discriminate.
  - unfold start. destruct (is_running s) eqn:Hrun; cbn [negb].
    + eauto using timer_inv_wait.
    + destruct IH as [Hc Hpe Hst Hex Hsp]. split; cbn; auto; try discriminate.
      intros _. eexists. split; [reflexivity | lra].
  - unfold pause.
    destruct (is_running s && negb (is_paused s))%bool eqn:Hcond.
    + apply andb_true_iff in Hcond as [Hrun _].
      pose proof (timer_inv_elapsed t s now IH Hle) as Hel.
      destruct IH as [Hc Hpe Hst Hex Hsp]. split; cbn; auto; discriminate.
    + eauto using timer_inv_wait.
  - destruct IH as [Hc _ _ _ _]. split; cbn; auto; try lra; discriminate.
  - unfold check_completion.
    destruct (Qle_bool (get_remaining n1 s) 0).
    + pose proof (timer_inv_advance t s n2 IH ltac:(lra)) as Hadv.
      destruct (_advance_phase n2 s); exact Hadv.
    + cbn [final_state]. apply (timer_inv_wait t); [assumption | lra].
  - destruct IH as [Hc Hpe Hst Hex Hsp]. split; cbn; auto.
Qed.

(** In a reachable state the elapsed time is never negative. *)
Lemma reachable_elapsed_nonneg t s now :
  reachable t s -> t <= now -> 0 <= get_elapsed now s.
Proof. intros Hr. apply timer_inv_elapsed. apply reachable_inv, Hr. Qed.

Lemma config_valid_duration s :
  config_valid (config s) -> 0 < get_phase_duration s.
Proof.
  intros (Hf & Hs & Hl & _). unfold get_phase_duration.
  destruct (phase s); assumption.
Qed.

(** ** Phase advance *)

(** The advance returns, unless it leaves Focus under a modulus of 0. *)
Lemma advance_phase_returns now s :
  (phase s = FOCUS -> pomodoros_before_long_break (config s) <> 0%Z) ->
  _advance_phase now s = Returns tt (final_state (_advance_phase now s)).
Proof.
  intros Hn. unfold _advance_phase.
  destruct (phase s); try reflexivity. cbv zeta.
  change (config (count_pomodoro s)) with (config s).
  destruct (Z.eqb_spec (pomodoros_before_long_break (config s)) 0) as [E | _];
    [destruct (Hn eq_refl E) |].
  destruct (_ =? 0)%Z; reflexivity.
Qed.

(** C2. The advance that [check_completion] triggers: leaving Focus
    increments [pomodoros_completed] and goes to LongBreak when the
    incremented count is a multiple of [pomodoros_before_long_break], to
    ShortBreak otherwise; leaving either break goes to Focus and keeps the
    count.  Only for leaving Focus is the modulus taken non-zero, as every
    configuration has it.  With a modulus of 2 the second Focus completion
    reaches LongBreak with a count of 2. *)
Theorem advance_phase_policy (now : Q) (s : PomodoroTimer) :
  (phase s = FOCUS -> pomodoros_before_long_break (config s) <> 0%Z) ->
  exists s',
    _advance_phase now s = Returns tt s' /\
    (forall now_check, get_remaining now_check s <= 0 ->
       check_completion now_check now s = Returns true s') /\
    match phase s with
    | FOCUS =>
        pomodoros_completed s' = (pomodoros_completed s + 1)%Z /\
        phase s' =
          if ((pomodoros_completed s + 1)
                mod pomodoros_before_long_break (config s) =? 0)%Z
          then LONG_BREAK else SHORT_BREAK
    | SHORT_BREAK | LONG_BREAK =>
        phase s' = FOCUS /\ pomodoros_completed s' = pomodoros_completed s
    end.
Proof.
  intros Hn. exists (final_state (_advance_phase now s)).
  pose proof (advance_phase_returns now s Hn) as Hret.
  split; [exact Hret | split].
  - intros now_check Hdone. unfold check_completion.
    apply Qle_bool_iff in Hdone. rewrite Hdone, Hret. reflexivity.
  - clear Hret. unfold _advance_phase.
    destruct (phase s); try (split; reflexivity). cbv zeta.
    change (config (count_pomodoro s)) with (config s).
    change (pomodoros_completed (count_pomodoro s))
      with (pomodoros_completed s + 1)%Z.
    destruct (Z.eqb_spec (pomodoros_before_long_break (config s)) 0) as [E | _];
      [destruct (Hn eq_refl E) |].
    destruct (_ =? 0)%Z; split; reflexivity.
Qed.

(** The run of the long-break test: Focus, ShortBreak, Focus again, each
    started at its own time and completed 10, 300 and 10 seconds later, and
    then the advance of the second Focus, which [advance_phase_policy]
    decides. *)
Lemma advance_phase_policy_witness :
  let s0 := start 0 (init (Some (config_focus10 2))) in
  let s1 := final_state (check_completion 10 10 s0) in
  let s2 := final_state (check_completion 310 310 s1) in
  (phase s1 = SHORT_BREAK /\ pomodoros_completed s1 = 1%Z) /\
  (phase s2 = FOCUS /\ pomodoros_completed s2 = 1%Z) /\
  exists s3,
    check_completion 320 320 s2 = Returns true s3 /\
    phase s3 = LONG_BREAK /\ pomodoros_completed s3 = 2%Z.
Proof.
  cbv zeta. split; [split; reflexivity |]. split; [split; reflexivity |].
  set (s2 := final_state (check_completion 310 310 _)).
  destruct (advance_phase_policy 320 s2) as (s3 & _ & Hcheck & Hpc & Hph).
  - intros _. vm_compute. discriminate.
  - exists s3. split; [| split].
    + apply Hcheck. vm_compute. discriminate.
    + exact Hph.
    + exact Hpc.
Defined.

(** ** Completion check *)

(** C5. [check_completion] returns true exactly when the remaining time is
    at most zero at the call; it then has performed the advance, and
    otherwise it leaves the timer as it was.  (The modulus of an advance
    that leaves Focus is taken non-zero.)  On a timer with a focus duration of 10 started at
    [t0], a check at 10 seconds or more after [t0] returns true in
    ShortBreak with one pomodoro, and a second check whose clock reading is
    that of the advance, no time having passed, returns false. *)
Theorem check_completion_spec :
  (forall (now_check now_adv : Q) (s : PomodoroTimer),
     (phase s = FOCUS -> pomodoros_before_long_break (config s) <> 0%Z) ->
     exists b s',
       check_completion now_check now_adv s = Returns b s' /\
       (b = true <-> get_remaining now_check s <= 0) /\
       (b = true -> _advance_phase now_adv s = Returns tt s') /\
       (b = false -> s' = s)) /\
  (forall (t0 t_check t_adv t_next : Q),
     t0 + 10 <= t_check ->
     let s0 := start t0 (init (Some (config_focus10 4))) in
     exists s1,
       check_completion t_check t_adv s0 = Returns true s1 /\
       phase s1 = SHORT_BREAK /\ pomodoros_completed s1 = 1%Z /\
       check_completion t_adv t_next s1 = Returns false s1).
Proof.
  split.
  - intros now_check now_adv s Hn. unfold check_completion.
    destruct (Qle_bool (get_remaining now_check s) 0) eqn:Hdone.
    + rewrite (advance_phase_returns now_adv s Hn).
      eexists true, _. split; [reflexivity |].
      apply Qle_bool_iff in Hdone. repeat split; auto; discriminate.
    + exists false, s. split; [reflexivity |].
      assert (~ get_remaining now_check s <= 0) as Hnot.
      { intros H. apply Qle_bool_iff in H. congruence. }
      split; [split; [discriminate | intros H; contradiction] |].
      split; [discriminate | reflexivity].
  - intros t0 t_check t_adv t_next Hle s0.
    assert (Qle_bool (get_remaining t_check s0) 0 = true) as Hdone.
    { apply Qle_bool_iff, get_remaining_done_iff.
      subst s0. cbn. lra. }
    eexists. split.
    { unfold check_completion. rewrite Hdone. subst s0. cbn. reflexivity. }
    split; [reflexivity |]. split; [reflexivity |].
    unfold check_completion.
    match goal with
    | |- context [Qle_bool ?r 0] => destruct (Qle_bool r 0) eqn:Hagain
    end; [| reflexivity].
    exfalso. apply Qle_bool_iff, get_remaining_done_iff in Hagain.
    cbn in Hagain. lra.
Qed.

(** A running default timer, 7 seconds into its first Focus, is not done;
    [check_completion_spec] gives the answer [false] and the same state. *)
Lemma check_completion_spec_witness :
  let s := start 0 (init None) in
  pomodoros_before_long_break (config s) <> 0%Z /\
  check_completion 7 7 s = Returns false s.
Proof.
  cbv zeta. split; [vm_compute; discriminate |].
  destruct check_completion_spec as [Hspec _].
  destruct (Hspec 7 7 (start 0 (init None))) as (b & s' & Heq & Hiff & _ & Hsame).
  - vm_compute. discriminate.
  - destruct b.
    + exfalso. destruct Hiff as [Hiff _]. specialize (Hiff eq_refl).
      vm_compute in Hiff. apply Hiff. reflexivity.
    + rewrite Heq, (Hsame eq_refl). reflexivity.
Defined.

(** ** Remaining plus elapsed *)




(** ** Rounding to a double *)

Lemma pow2_pos (e : Z) : 0 < 2 ^ e.
Proof.
  apply Qpower_0_lt. reflexivity.
Qed.

(** [ilog2] does not overshoot. *)
Lemma ilog2_le (x : Q) : 0 < x -> 2 ^ Binary64.ilog2 x <= x.
Proof.
  intros Hx. unfold Binary64.ilog2. cbv zeta.
  destruct (Qle_bool _ x) eqn:Htest; [apply Qle_bool_iff, Htest |].
  destruct x as [n d]. cbn [Qnum Qden].
  assert (0 < n)%Z as Hn by (unfold Qlt in Hx; cbn in Hx; lia).
  pose proof (Z.log2_spec n Hn) as [Ha _].
  pose proof (Z.log2_spec (Z.pos d) (Pos2Z.is_pos d)) as [_ Hb].
  pose proof (Z.log2_nonneg n) as Ha0.
  pose proof (Z.log2_nonneg (Z.pos d)) as Hb0.
  set (a := Z.log2 n) in *. set (b := Z.log2 (Z.pos d)) in *.
  replace (a - b - 1)%Z with (a - Z.succ b)%Z by lia.
  rewrite Qpower_minus by discriminate.
  change 2 with (inject_Z 2).
  rewrite <- !Zpower_Qpower by lia.
  assert (0 < 2 ^ Z.succ b)%Z as HB by (apply Z.pow_pos_nonneg; lia).
  assert (0 <= 2 ^ a)%Z as HA by (apply Z.pow_nonneg; lia).
  apply Qle_shift_div_r.
  - unfold Qlt. cbn [Qnum Qden inject_Z]. lia.
  - unfold Qle. cbn [Qnum Qden Qmult inject_Z].
    rewrite Pos.mul_1_r, !Z.mul_1_r.
    apply Z.le_trans with (n * Z.pos d)%Z.
    + apply Z.mul_le_mono_nonneg_r; lia.
    + apply Z.mul_le_mono_nonneg_l; lia.
Qed.

Lemma nearest_even_error (m : Q) :
  Qabs (inject_Z (Binary64.nearest_even m) - m) <= 1 # 2.
Proof.
  unfold Binary64.nearest_even. cbv zeta.
  pose proof (Qfloor_le m) as Hlo. pose proof (Qlt_floor m) as Hhi.
  set (f := Qfloor m) in *.
  rewrite inject_Z_plus in Hhi. change (inject_Z 1) with 1 in Hhi.
  apply Qabs_Qle_condition.
  destruct (Qcompare_spec (m - inject_Z f) (1 # 2)) as [He | Hl | Hg].
  - destruct (Z.even f);
      [| rewrite inject_Z_plus; change (inject_Z 1) with 1]; split; lra.
  - split; lra.
  - rewrite inject_Z_plus. change (inject_Z 1) with 1. split; lra.
Qed.

Lemma nearest_even_inject_Z (m : Q) (n : Z) :
  m == inject_Z n -> Binary64.nearest_even m = n.
Proof.
  intros Hm. unfold Binary64.nearest_even. cbv zeta.
  rewrite (Qfloor_comp _ _ Hm), Qfloor_Z.
  destruct (Qcompare_spec (m - inject_Z n) (1 # 2)) as [He | Hl | Hg];
    [lra | reflexivity | lra].
Qed.

Lemma Qabs_nonzero (x : Q) : ~ x == 0 -> 0 < Qabs x.
Proof.
  intros Hx. apply Qabs_case; intros H.
  - apply Qle_lteq in H as [Hlt | Heq]; [exact Hlt |].
    symmetry in Heq. contradiction.
  - apply Qle_lteq in H as [Hlt | Heq]; [lra |]. contradiction.
Qed.

(** The unit in the last place is at most 2^-52 of the number, or that
    of the subnormal numbers. *)
Lemma ulp_le (x : Q) :
  ~ x == 0 ->
  2 ^ Binary64.ulp_exponent x <= 2 ^ (-52) * Qabs x + 2 ^ (-1074).
Proof.
  intros Hx. unfold Binary64.ulp_exponent.
  pose proof (ilog2_le (Qabs x) (Qabs_nonzero x Hx)) as Hlog.
  pose proof (pow2_pos (-1074)) as Hmin.
  pose proof (pow2_pos (-52)) as H52.
  pose proof (Qabs_nonzero x Hx) as Hpos.
  destruct (Z.max_spec (Binary64.ilog2 (Qabs x) - 52) (-1074))
    as [[_ ->] | [_ ->]].
  - assert (0 <= 2 ^ (-52) * Qabs x) by (apply Qmult_le_0_compat; lra).
    lra.
  - rewrite Qpower_minus by discriminate.
    assert (2 ^ (-52) == / 2 ^ 52) as ->
      by (rewrite <- Qpower_opp; reflexivity).
    assert (0 < 2 ^ 52) as Hp by apply pow2_pos.
    assert (0 < / 2 ^ 52) as Hi by (apply Qinv_lt_0_compat; exact Hp).
    unfold Qdiv.
    assert (2 ^ Binary64.ilog2 (Qabs x) * / 2 ^ 52 <= Qabs x * / 2 ^ 52)
      as Hm by (apply Qmult_le_compat_r; lra).
    lra.
Qed.

(** Rounding moves a number by at most half a unit in the last place. *)
Lemma round_error (x : Q) :
  Qabs (Binary64.round x - x) <= 2 ^ (-53) * Qabs x + 2 ^ (-1075).
Proof.
  unfold Binary64.round.
  pose proof (pow2_pos (-1075)) as Hmin.
  pose proof (pow2_pos (-53)) as H53.
  pose proof (Qabs_nonneg x) as Hx0.
  destruct (Qeq_bool x 0) eqn:Hz.
  - apply Qeq_bool_iff in Hz.
    assert (Qabs (0 - x) == 0) as -> by (rewrite Hz; reflexivity).
    assert (0 <= 2 ^ (-53) * Qabs x) by (apply Qmult_le_0_compat; lra).
    lra.
  - assert (~ x == 0) as Hx
      by (intros H; apply Qeq_bool_iff in H; congruence).
    cbv zeta.
    pose proof (ulp_le x Hx) as Hulp.
    pose proof (pow2_pos (Binary64.ulp_exponent x)) as Hq.
    set (q := 2 ^ Binary64.ulp_exponent x) in *.
    pose proof (nearest_even_error (x / q)) as Hn.
    set (n := inject_Z (Binary64.nearest_even (x / q))) in *.
    assert (n * q - x == (n - x / q) * q) as -> by (field; lra).
    rewrite Qabs_Qmult, (Qabs_pos q) by lra.
    assert (Qabs (n - x / q) * q <= (1 # 2) * q) as Hm
      by (apply Qmult_le_compat_r; lra).
    assert (2 ^ (-53) == (1 # 2) * 2 ^ (-52)) as E53 by reflexivity.
    assert (2 ^ (-1075) == (1 # 2) * 2 ^ (-1074)) as E1075 by reflexivity.
    rewrite E53, E1075.
    lra.
Qed.

(** A whole number below 2^53 is a double. *)
Lemma round_integer (x : Q) (n : Z) :
  x == inject_Z n -> (Z.abs n < 2 ^ 53)%Z -> Binary64.round x == x.
Proof.
  intros Hx Hn. unfold Binary64.round.
  destruct (Qeq_bool x 0) eqn:Hz;
    [apply Qeq_bool_iff in Hz; rewrite Hz; reflexivity |].
  assert (~ x == 0) as Hx0
    by (intros H; apply Qeq_bool_iff in H; congruence).
  cbv zeta.
  assert (Binary64.ulp_exponent x <= 0)%Z as Hk.
  { unfold Binary64.ulp_exponent.
    pose proof (ilog2_le (Qabs x) (Qabs_nonzero x Hx0)) as Hlog.
    assert (Qabs x < 2 ^ 53) as Hlt.
    { rewrite Hx. change (Qabs (inject_Z n)) with (inject_Z (Z.abs n)).
      change 2 with (inject_Z 2).
      rewrite <- Zpower_Qpower by lia. rewrite <- Zlt_Qlt. exact Hn. }
    assert (Binary64.ilog2 (Qabs x) < 53)%Z.
    { apply (Qpower_lt_compat_l_inv 2); [lra | reflexivity]. }
    lia. }
  set (k := Binary64.ulp_exponent x) in *.
  assert (2 ^ k == / inject_Z (2 ^ (- k))) as Hpow.
  { rewrite Zpower_Qpower by lia. change (inject_Z 2) with 2.
    rewrite <- Qpower_opp, Z.opp_involutive. reflexivity. }
  assert (0 < inject_Z (2 ^ (- k))) as Hpos.
  { change 0 with (inject_Z 0). rewrite <- Zlt_Qlt.
    apply Z.pow_pos_nonneg; lia. }
  rewrite (nearest_even_inject_Z _ (n * 2 ^ (- k))).
  - rewrite Hpow, inject_Z_mult, Hx. field. lra.
  - rewrite Hpow, inject_Z_mult, Hx. field. lra.
Qed.

(** The elapsed time that a resume at the clock reading [t] makes of a
    banked [e]. *)
Lemma sub_sub_error (t e : Q) :
  Qabs (Binary64.sub t (Binary64.sub t e) - e)
  <= 2 ^ (-51) * (Qabs t + Qabs e) + 2 ^ (-1073).
Proof.
  unfold Binary64.sub.
  pose proof (round_error (t - e)) as H1.
  set (a := Binary64.round (t - e)) in *.
  pose proof (round_error (t - a)) as H2.
  set (r := Binary64.round (t - a)) in *.
  assert (2 ^ (-51) == 4 * 2 ^ (-53)) as -> by reflexivity.
  assert (2 ^ (-1073) == 4 * 2 ^ (-1075)) as -> by reflexivity.
  assert (2 ^ (-53) == 1 # 9007199254740992) as Hu by reflexivity.
  pose proof (pow2_pos (-1075)) as Heta.
  set (eta := 2 ^ (-1075)) in *.
  rewrite Hu in *.
  apply Qabs_Qle_condition in H1.
  apply Qabs_Qle_condition in H2.
  apply Qabs_Qle_condition.
  pose proof (Qle_Qabs t) as Ht1. pose proof (Qle_Qabs (- t)) as Ht2.
  pose proof (Qle_Qabs e) as He1. pose proof (Qle_Qabs (- e)) as He2.
  rewrite Qabs_opp in Ht2, He2.
  pose proof (Qabs_triangle t (- e)) as Hte. rewrite Qabs_opp in Hte.
  assert (t + - e == t - e) as Eq1 by ring. rewrite Eq1 in Hte.
  pose proof (Qabs_triangle e (t - e - a)) as Hta.
  assert (e + (t - e - a) == t - a) as Eq2 by ring. rewrite Eq2 in Hta.
  assert (Qabs (t - e - a) <= (1 # 9007199254740992) * Qabs (t - e) + eta)
    as Hb1.
  { apply Qabs_Qle_condition. split; lra. }
  split; lra.
Qed.

(** With whole numbers below 2^53 the two subtractions are exact. *)
Lemma sub_sub_integer (t e : Q) (z_t z_e : Z) :
  t == inject_Z z_t -> e == inject_Z z_e ->
  (Z.abs z_e < 2 ^ 53)%Z -> (Z.abs (z_t - z_e) < 2 ^ 53)%Z ->
  Binary64.sub t (Binary64.sub t e) == e.
Proof.
  intros Ht He Hze Hzd. unfold Binary64.sub.
  assert (Binary64.round (t - e) == t - e) as Ha.
  { apply (round_integer _ (z_t - z_e)); [| exact Hzd].
    unfold Zminus. rewrite inject_Z_plus, inject_Z_opp, Ht, He. ring. }
  set (a := Binary64.round (t - e)) in *.
  rewrite (round_integer (t - a) z_e); [rewrite Ha; ring | | exact Hze].
  rewrite Ha, He. ring.
Qed.

(** The subtractions of the example below, in the Standard Library's
    specification of binary64 arithmetic ([SFsub] with 53 bits of
    precision and the exponents up to 1024) and here: the doubles written
    [0.1], [0.3] and [1.1] and the differences the engine takes of them. *)
Example sub_agrees_with_SpecFloat :
  let of_sf := Binary64.of_spec_float in
  let tenth := S754_finite false 7205759403792794 (-56) in
  let three_tenths := S754_finite false 5404319552844595 (-54) in
  let eleven_tenths := S754_finite false 4953959590107546 (-52) in
  let elapsed := SFsub 53 1024 three_tenths tenth in
  let start_time := SFsub 53 1024 eleven_tenths elapsed in
  of_sf tenth == Binary64.round (1 # 10) /\
  of_sf three_tenths == Binary64.round (3 # 10) /\
  of_sf eleven_tenths == Binary64.round (11 # 10) /\
  of_sf elapsed == Binary64.sub (of_sf three_tenths) (of_sf tenth) /\
  of_sf start_time == Binary64.sub (of_sf eleven_tenths) (of_sf elapsed) /\
  of_sf (SFsub 53 1024 eleven_tenths start_time)
  == Binary64.sub (of_sf eleven_tenths) (of_sf start_time).
Proof.
  cbv zeta. repeat split; vm_compute; reflexivity.
Qed.

(** ** Pause and resume *)

(** C6, as stated, fails.  A default timer is started at the clock reading
    [0.1], paused at [0.3] and resumed at [1.1].  The pause captures
    [0.3 - 0.1], the double 0.19999999999999998; the resume sets
    [start_time] to [1.1 - 0.19999999999999998], and the elapsed time read
    at the clock reading of the resume is the double 0.19999999999999996:
    it is not the elapsed time that the pause captured. *)
Lemma pause_start_exact_counterexample :
  let tenth := Binary64.round (1 # 10) in
  let three_tenths := Binary64.round (3 # 10) in
  let eleven_tenths := Binary64.round (11 # 10) in
  let s := Timer64.start tenth (init None) in
  let resumed := Timer64.start eleven_tenths (Timer64.pause three_tenths s) in
  is_running s = true /\ is_paused s = false /\
  Timer64.get_elapsed three_tenths s
  == 7205759403792793 # 36028797018963968 /\
  Timer64.get_elapsed eleven_tenths resumed
  == 900719925474099 # 4503599627370496 /\
  Timer64.get_elapsed eleven_tenths resumed
  < Timer64.get_elapsed three_tenths s.
Proof.
  cbv zeta. repeat split; vm_compute; reflexivity.
Qed.

(** C6, amended.  On a running timer, [pause] at [t_pause] captures the
    elapsed time, and while the timer is paused the elapsed time is that
    value at every clock reading.  After [start] at [t_resume] the elapsed
    time read at that clock reading is [t_resume - (t_resume - e)] in the
    arithmetic of doubles, for [e] the captured time.  It is [e] itself
    when [t_resume] and [e] are whole numbers with [e] and their
    difference below 2^53 in size; in general it is within
    [2^-51 * (|t_resume| + |e|) + 2^-1073] of [e], the rounding of two
    subtractions.  The timer runs again, in the same phase, with the same
    count and configuration.  (The clock reading and the captured time
    are below 2^1022 in size, so that no difference leaves the range of
    the doubles.) *)
Theorem pause_start_elapsed_within_rounding (t_pause t_resume : Q)
    (s : PomodoroTimer) :
  is_running s = true ->
  is_paused s = false ->
  Qabs t_resume <= 2 ^ 1022 ->
  Qabs (Timer64.get_elapsed t_pause s) <= 2 ^ 1022 ->
  let e := Timer64.get_elapsed t_pause s in
  let paused := Timer64.pause t_pause s in
  let resumed := Timer64.start t_resume paused in
  paused_elapsed paused = e /\
  (forall now, Timer64.get_elapsed now paused = e) /\
  Timer64.get_elapsed t_resume resumed
  = Binary64.sub t_resume (Binary64.sub t_resume e) /\
  Qabs (Timer64.get_elapsed t_resume resumed - e)
  <= 2 ^ (-51) * (Qabs t_resume + Qabs e) + 2 ^ (-1073) /\
  (forall z_resume z_e : Z,
     t_resume == inject_Z z_resume -> e == inject_Z z_e ->
     (Z.abs z_e < 2 ^ 53)%Z -> (Z.abs (z_resume - z_e) < 2 ^ 53)%Z ->
     Timer64.get_elapsed t_resume resumed == e) /\
  is_running resumed = true /\ is_paused resumed = false /\
  phase resumed = phase s /\
  pomodoros_completed resumed = pomodoros_completed s /\
  config resumed = config s.
Proof.
  intros Hrun Hp _ _. cbv zeta.
  unfold Timer64.pause. rewrite Hrun, Hp. cbn [andb negb].
  set (e := Timer64.get_elapsed t_pause s).
  unfold Timer64.start, Timer64.get_elapsed.
  cbn [is_running is_paused start_time paused_elapsed negb phase
       pomodoros_completed config].
  split; [reflexivity |]. split; [reflexivity |]. split; [reflexivity |].
  split; [apply sub_sub_error |].
  split; [apply sub_sub_integer |].
  repeat split.
Qed.

(** The timer of the counterexample: after the resume at [1.1] the
    elapsed time is within the bound of the captured one, here 2^-55
    below it. *)
Lemma pause_start_elapsed_within_rounding_witness :
  let tenth := Binary64.round (1 # 10) in
  let three_tenths := Binary64.round (3 # 10) in
  let eleven_tenths := Binary64.round (11 # 10) in
  let s := Timer64.start tenth (init None) in
  let e := Timer64.get_elapsed three_tenths s in
  let resumed := Timer64.start eleven_tenths (Timer64.pause three_tenths s) in
  Qabs (Timer64.get_elapsed eleven_tenths resumed - e)
  <= 2 ^ (-51) * (Qabs eleven_tenths + Qabs e) + 2 ^ (-1073) /\
  Timer64.get_elapsed eleven_tenths resumed - e == - 2 ^ (-55).
Proof.
  cbv zeta.
  destruct (pause_start_elapsed_within_rounding
              (Binary64.round (3 # 10)) (Binary64.round (11 # 10))
              (Timer64.start (Binary64.round (1 # 10)) (init None)))
    as (_ & _ & _ & Hbound & _).
  - reflexivity.
  - reflexivity.
  - vm_compute. discriminate.
  - vm_compute. discriminate.
  - split; [exact Hbound |]. vm_compute. reflexivity.
Defined.

(** ** Progress ratio *)







(** ** What a completion check leaves alone *)

(** C10. [check_completion], whether it advances or not, leaves
    [is_running], [is_paused] and the configuration as they were.  When it
    has advanced, a timer that was not running (paused, or stopped) is in
    the same condition in the new phase with no elapsed time, and a running
    timer is still running with [start_time] at the clock reading of the
    advance. *)
Theorem check_completion_frame (now_check now_adv : Q) (s : PomodoroTimer) :
  let o := check_completion now_check now_adv s in
  is_running (final_state o) = is_running s /\
  is_paused (final_state o) = is_paused s /\
  config (final_state o) = config s /\
  (forall s', o = Returns true s' ->
     paused_elapsed s' = 0 /\
     (is_running s = false -> forall now, get_elapsed now s' = 0) /\
     (is_running s = true ->
      start_time s' = Some now_adv /\ get_elapsed now_adv s' == 0)).
Proof.
  cbv zeta. unfold check_completion.
  destruct (Qle_bool (get_remaining now_check s) 0); cbn [final_state];
    [| repeat split; discriminate].
  unfold _advance_phase.
  destruct (phase s); cbv zeta;
    try (destruct (_ =? 0)%Z; [| destruct (_ =? 0)%Z]);
    cbn [final_state];
    (split; [reflexivity |]); (split; [reflexivity |]);
    (split; [reflexivity |]);
    intros s' Heq; try discriminate; injection Heq as <-;
    (split; [reflexivity |]); split; intros Hrun;
    unfold get_elapsed; cbn; rewrite ?Hrun; try reflexivity;
    (split; [reflexivity | lra]).
Qed.

(** A default timer paused at 1500 seconds, when its Focus is over: the
    check advances it to ShortBreak, still paused and not running, with no
    elapsed time. *)
Example check_completion_paused :
  let s := pause 1500 (start 0 (init None)) in
  exists s', check_completion 1600 1600 s = Returns true s' /\
    phase s' = SHORT_BREAK /\ is_paused s' = true /\ is_running s' = false /\
    get_elapsed 1600 s' = 0.
Proof. cbv zeta. eexists. repeat split. Qed.

End TimerProperties.

(** * Properties of the statistics store *)

Section StatsProperties.

Import Stats StatsSpec.

Local Open Scope Z_scope.

(** ** Dates *)

(** The calendar functions on some dates: the first and the last date, a
    leap day, the text forms [strptime] accepts and some it refuses. *)
Example date_examples :
  Date.str 1 = "0001-01-01" /\ Date.str Date.max_ordinal = "9999-12-31" /\
  Date.str 738895 = "2024-01-10" /\
  Date.strptime "2024-01-10" = Some 738895 /\
  Date.strptime "2024-02-29" = Some 738945 /\
  Date.strptime "2024-1-5" = Some 738890 /\
  Date.strptime "2023-02-29" = None /\
  Date.strptime "2024-13-45" = None /\
  Date.strptime "2024-01-10 " = None /\
  Date.sub_days 738895 6 = Some 738889 /\
  Date.sub_days 3 6 = None.
Proof.
  repeat split; vm_compute; reflexivity.
Qed.

(** ** Loops *)

Lemma for_each_ok {A B : Type} (f : A -> result B) (g : A -> B) (l : list A) :
  (forall x, x ∈ l -> f x = Ok (g x)) -> for_each f l = Ok (map g l).
Proof.
  induction l as [| x l IH]; intros Hall; [reflexivity |].
  cbn. rewrite (Hall x) by apply list_elem_of_here.
  cbn. rewrite IH; [reflexivity |].
  intros y Hy. apply Hall, list_elem_of_further, Hy.
Qed.

Lemma for_each_raise {A B : Type} (f : A -> result B) (e : exn) (l : list A) :
  (forall x, x ∈ l -> f x = Raise e \/ exists y, f x = Ok y) ->
  (exists x, x ∈ l /\ f x = Raise e) ->
  for_each f l = Raise e.
Proof.
  induction l as [| x l IH]; intros Hall (x0 & Hin & Hx0).
  - apply elem_of_nil in Hin. contradiction.
  - cbn. destruct (Hall x (list_elem_of_here _ _)) as [-> | [y Hy]];
      [reflexivity |].
    rewrite Hy. cbn. rewrite IH; [reflexivity | |].
    + intros z Hz. apply Hall, list_elem_of_further, Hz.
    + apply elem_of_cons in Hin as [-> | Hin]; [congruence |].
      exists x0. split; assumption.
Qed.

(** ** The week *)

Lemma sub_days_in_week (today : Date.t) (i : nat) :
  6 < today -> today <= Date.max_ordinal -> (i < 7)%nat ->
  Date.sub_days today (Z.of_nat i) = Some (today - Z.of_nat i).
Proof.
  intros Hlo Hhi Hi. unfold Date.sub_days. cbv zeta.
  destruct (Z.ltb_spec 0 (today - Z.of_nat i)); [| lia].
  destruct (Z.leb_spec (today - Z.of_nat i) Date.max_ordinal); [| lia].
  reflexivity.
Qed.

(** C7. [get_weekly_summary] returns exactly 7 entries whatever the
    history holds: entry [i] is for the day [i] days before today, from
    today to 6 days before; a day the history has appears as its
    [to_dict], and a day it lacks as a dictionary with that day's date and
    every counter, [total_time] included, at zero.  ([today] is a date from
    which 6 days can be subtracted, as any date of the clock is.) *)
Theorem weekly_summary_seven_days (today : Date.t) (self : StatsTracker) :
  6 < today -> today <= Date.max_ordinal ->
  exists weekly,
    get_weekly_summary today self = Ok weekly /\
    length weekly = 7%nat /\
    forall i : nat, (i < 7)%nat ->
      let day_str := Date.str (today - Z.of_nat i) in
      (forall stats, history self !! day_str = Some stats ->
         weekly !! i = Some (to_dict stats)) /\
      (history self !! day_str = None ->
         weekly !! i = Some (mkDict (Some day_str) (Some 0) (Some 0) (Some 0)
                                    (Some 0) (Some 0) (Some 0))).
Proof.
  intros Hlo Hhi. exists (map (week_entry today self) (seq 0 7)).
  split; [| split].
  - unfold get_weekly_summary. apply for_each_ok.
    intros i Hi. apply elem_of_seq in Hi.
    unfold weekly_entry, week_entry.
    rewrite sub_days_in_week by lia. cbn.
    destruct (history self !! _); reflexivity.
  - reflexivity.
  - intros i Hi day_str.
    assert (map (week_entry today self) (seq 0 7) !! i
            = Some (week_entry today self i)) as Hlook.
    { change (map (week_entry today self) (seq 0 7))
        with (week_entry today self <$> seq 0 7).
      rewrite list_lookup_fmap, lookup_seq_lt by lia. reflexivity. }
    rewrite Hlook. unfold week_entry. cbv zeta. fold day_str.
    split.
    + intros stats ->. reflexivity.
    + intros ->. reflexivity.
Qed.

(** The week before 2024-01-10 (ordinal 738895) of a tracker that has
    only the 9th: seven entries, the fourth a zero entry dated 2024-01-07. *)
Lemma weekly_summary_seven_days_witness :
  let self :=
    mkTracker "pomodoro_stats.json" (new_DailyStats 738895 None)
      {[ "2024-01-09" := mkDailyStats "2024-01-09" 2 3000 600 2 0 ]} 2 in
  exists weekly,
    get_weekly_summary 738895 self = Ok weekly /\
    length weekly = 7%nat /\
    weekly !! 3%nat = Some (empty_day "2024-01-07").
Proof.
  cbv zeta.
  edestruct (weekly_summary_seven_days 738895) as (weekly & Hw & Hlen & Hent);
    [lia | vm_compute; discriminate |].
  exists weekly. split; [exact Hw |]. split; [exact Hlen |].
  apply (Hent 3%nat); [lia |]. vm_compute. reflexivity.
Defined.

(** ** The streak *)

Lemma streak_loop_tail today h dates rest days :
  Forall2 (key_is_day h) rest days ->
  forall (j : nat) (prev_str : string) (prev : Date.t) (acc : Z),
    dates !! j = Some prev_str ->
    Date.strptime prev_str = Some prev ->
    (forall n k, rest !! n = Some k -> dates !! (S j + n)%nat = Some k) ->
    streak_loop today h dates (S j) rest acc = Ok (acc + spec_walk prev days).
Proof.
  induction 1 as [| k [d p] rest days [Hk (stats & Hs & Hp)] _ IH];
    intros j prev_str prev acc Hprev Hparse Hrest.
  - cbn. f_equal. lia.
  - cbn in Hk, Hp. cbn [streak_loop spec_walk].
    rewrite Hk, Hprev. cbn. rewrite Hparse. cbn.
    unfold pomodoros_positive. rewrite Hs. cbn. rewrite Hp.
    destruct (Date.days_between prev d =? 1); cbn;
      [| f_equal; lia].
    destruct (0 <? p); cbn; [| f_equal; lia].
    rewrite (IH (S j) k d (acc + 1)).
    + f_equal. lia.
    + specialize (Hrest 0%nat k eq_refl).
      rewrite Nat.add_0_r in Hrest. exact Hrest.
    + exact Hk.
    + intros n k' Hn. specialize (Hrest (S n) k' Hn).
      replace (S (S j) + n)%nat with (S j + S n)%nat by lia. exact Hrest.
Qed.

(** Where no day of the history is later than today, the loop of
    [_update_streak] is the walk of the specification. *)
Lemma streak_loop_spec today h dates days :
  Forall2 (key_is_day h) dates days ->
  (forall d p rest, days = (d, p) :: rest -> d <= today) ->
  streak_loop today h dates 0 dates 0 = Ok (spec_streak today days).
Proof.
  intros Hall Hpast. destruct Hall as [| k [d p] rest days' [Hk (stats & Hs & Hp)] Hrest];
    [reflexivity |].
  cbn in Hk, Hp. specialize (Hpast d p days' eq_refl).
  cbn [streak_loop spec_streak]. rewrite Hk. cbn.
  unfold pomodoros_positive. rewrite Hs. cbn. rewrite Hp.
  unfold Date.days_between in *.
  replace ((today - d =? 0) || (today - d =? 1))%bool with (today - d <=? 1)
    by (destruct (Z.leb_spec (today - d) 1), (Z.eqb_spec (today - d) 0),
          (Z.eqb_spec (today - d) 1); cbn; lia).
  destruct (today - d <=? 1); cbn; [| reflexivity].
  destruct (0 <? p); cbn; [| reflexivity].
  rewrite (streak_loop_tail today h (k :: rest) rest days' Hrest 0 k d (0 + 1));
    auto.
Qed.

(** [_update_streak] on a history of dates none of which is after today. *)
Lemma update_streak_spec today self days :
  Forall2 (key_is_day (history self))
    (sorted_reverse (map fst (map_to_list (history self)))) days ->
  (forall d p rest, days = (d, p) :: rest -> d <= today) ->
  _update_streak today self = Ok (set_streak (spec_streak today days) self).
Proof.
  intros Hdays Hpast. unfold _update_streak. cbv zeta.
  rewrite (streak_loop_spec today _ _ days Hdays Hpast). reflexivity.
Qed.

(** On 2024-01-10 (ordinal 738895) yesterday and the day before make a
    streak of 2, and a history with only the 7th, three days back, makes a
    streak of 0. *)
Example update_streak_examples :
  get_streak <$> _update_streak 738895
     (mkTracker "pomodoro_stats.json" (new_DailyStats 738895 None)
        two_day_history 0) = Ok 2 /\
  get_streak <$> _update_streak 738895
     (mkTracker "pomodoro_stats.json" (new_DailyStats 738895 None)
        {[ "2024-01-07" := mkDailyStats "2024-01-07" 2 3000 600 2 0 ]} 5)
  = Ok 0.
Proof. split; vm_compute; reflexivity. Qed.

(** C1.  On 2024-01-10 (ordinal 738895) the only day of
    [future_day_tracker] is two days ahead: its gap from today is neither 0
    nor 1, and the walk of the specification gives 0.  [_update_streak]
    tests [delta <= 1] on a [delta] of -2 and counts the day: the streak
    is 1. *)
Theorem update_streak_counts_future_day :
  Date.strptime "2024-01-12" = Some 738897 /\
  Date.days_between 738895 738897 = -2 /\
  spec_streak 738895 [(738897, 1)] = 0 /\
  get_streak <$> _update_streak 738895 future_day_tracker = Ok 1.
Proof.
  split; [| split; [| split]].
  - vm_compute. reflexivity.
  - reflexivity.
  - reflexivity.
  - unfold future_day_tracker. vm_compute. reflexivity.
Qed.

(** ** Loading *)

Lemma from_dict_cases today d :
  (lacks_required_key d /\ from_dict today d = Raise KeyError) \/
  (~ lacks_required_key d /\ exists stats, from_dict today d = Ok stats).
Proof.
  unfold from_dict, lacks_required_key.
  destruct (key_date d) as [dt |]; cbn; [| left; auto].
  destruct (key_pomodoros d) as [pm |]; cbn; [| left; auto].
  destruct (key_focus_time d) as [ft |]; cbn; [| left; auto].
  destruct (key_break_time d) as [bt |]; cbn; [| left; auto].
  right. split; [| eexists; reflexivity].
  intros [H | [H | [H | H]]]; discriminate.
Qed.

Lemma load_history_key_error today (h : gmap string dict) k d :
  h !! k = Some d -> lacks_required_key d ->
  load_history today h = Raise KeyError.
Proof.
  intros Hk Hd. unfold load_history.
  rewrite (for_each_raise _ KeyError); [reflexivity | |].
  - intros [k' d'] _.
    destruct (from_dict_cases today d') as [[_ ->] | [_ [st ->]]];
      cbn; eauto.
  - exists (k, d). split; [apply elem_of_map_to_list, Hk |].
    destruct (from_dict_cases today d) as [[_ ->] | [Hn _]];
      [reflexivity | contradiction].
Qed.

Lemma update_streak_empty today self :
  history self = ∅ -> _update_streak today self = Ok (set_streak 0 self).
Proof.
  intros He. unfold _update_streak. rewrite He, map_to_list_empty.
  reflexivity.
Qed.

(** What [_load] takes for a fresh start.  Loading the store ([__init__],
    which calls [_load]) succeeds with an empty history and a streak of 0
    when there is no file at the storage path, when the file is text that
    is not JSON, and when an entry of its history lacks a key that
    [from_dict] indexes. *)
Lemma load_missing_or_malformed (today : Date.t) (fs : filesystem)
    (path : option string) :
  let p := storage_path (empty_tracker today path) in
  (fs !! p = None \/
   fs !! p = Some Malformed \/
   exists data k d,
     fs !! p = Some (Json data) /\
     get (doc_history data) ∅ !! k = Some d /\ lacks_required_key d) ->
  exists self,
    init today fs path = Ok self /\
    history self = ∅ /\ get_streak self = 0 /\
    current_day self = new_DailyStats today None.
Proof.
  cbv zeta. intros Hfile. unfold init, _load.
  destruct Hfile as [-> | [-> | (data & k & d & -> & Hk & Hd)]].
  - rewrite update_streak_empty by reflexivity.
    eexists. split; [reflexivity |]. repeat split.
  - cbn. eexists. split; [reflexivity |]. repeat split.
  - unfold load_file. cbn.
    rewrite (load_history_key_error today _ k d Hk Hd). cbn.
    eexists. split; [reflexivity |]. repeat split.
Qed.

(** A machine without the default file, and one whose file is not JSON:
    both load as an empty store. *)
Example load_missing_or_malformed_examples :
  (exists self, init 738895 ∅ None = Ok self /\
     history self = ∅ /\ get_streak self = 0) /\
  (exists self,
     init 738895 {[ "stats.json" := Malformed ]} (Some "stats.json") = Ok self /\
     history self = ∅ /\ get_streak self = 0).
Proof.
  split.
  - destruct (load_missing_or_malformed 738895 ∅ None)
      as (self & H1 & H2 & H3 & _).
    + left. reflexivity.
    + exists self. auto.
  - destruct (load_missing_or_malformed 738895 {[ "stats.json" := Malformed ]}
                (Some "stats.json")) as (self & H1 & H2 & H3 & _).
    + right. left. reflexivity.
    + exists self. auto.
Qed.

(** C3.  Corrupt content is not always taken for a fresh start: [_load]
    catches [JSONDecodeError] and [KeyError] only.  A document whose
    history key is not a date makes [strptime] raise [ValueError] in
    [_update_streak], and a file whose bytes are not text makes
    [json.load] raise [UnicodeDecodeError]; both exceptions leave [_load]
    and the constructor, and no store is built. *)
Theorem load_corrupt_file_raises :
  init 738895 {[ "pomodoro_stats.json" := Json bad_key_document ]} None
  = Raise ValueError /\
  init 738895 {[ "pomodoro_stats.json" := Undecodable ]} None
  = Raise UnicodeDecodeError.
Proof.
  split.
  - unfold bad_key_document. vm_compute. reflexivity.
  - unfold init, _load. cbn [storage_path empty_tracker].
    rewrite lookup_singleton_eq. reflexivity.
Qed.

(** ** Saving and loading again *)

Lemma from_dict_to_dict today s :
  from_dict today (to_dict s) = Ok (reread today s).
Proof. reflexivity. Qed.

Lemma reread_dated today s : date s <> "" -> reread today s = s.
Proof.
  intros Hd. unfold reread. destruct (decide (date s = "")); [contradiction |].
  destruct s; reflexivity.
Qed.

Lemma counters_reread today s : counters (reread today s) = counters s.
Proof. reflexivity. Qed.

Lemma from_dict_ignores_total_time today v data :
  from_dict today (set_total_time v data) = from_dict today data.
Proof. reflexivity. Qed.

Lemma load_history_to_dict today (h : gmap string DailyStats) :
  load_history today (to_dict <$> h) = Ok (reread today <$> h).
Proof.
  unfold load_history.
  rewrite (for_each_ok _ (prod_map (@id string) (from_dict_or_new today))).
  - cbn. f_equal.
    change (map (prod_map (@id string) (from_dict_or_new today)))
      with (fmap (M := list) (prod_map (@id string) (from_dict_or_new today))).
    rewrite list_to_map_fmap, list_to_map_to_list.
    rewrite <- map_fmap_compose. apply map_fmap_ext.
    intros k s _. reflexivity.
  - intros [k d] Hin. apply elem_of_map_to_list in Hin.
    rewrite lookup_fmap in Hin.
    destruct (h !! k) as [s |]; [| discriminate].
    injection Hin as <-. reflexivity.
Qed.

Lemma streak_loop_ok today (h : gmap string DailyStats) dates :
  Forall (fun k => is_Some (Date.strptime k) /\ is_Some (h !! k)) dates ->
  forall rest i acc,
    (forall n k, rest !! n = Some k -> dates !! (i + n)%nat = Some k) ->
    exists n, streak_loop today h dates i rest acc = Ok n.
Proof.
  intros Hall. induction rest as [| k rest IH]; intros i acc Hrest.
  - eexists. reflexivity.
  - pose proof (Hrest 0%nat k eq_refl) as Hk. rewrite Nat.add_0_r in Hk.
    assert (forall n k', rest !! n = Some k' ->
              dates !! (S i + n)%nat = Some k') as Hnext.
    { intros n k' Hn. specialize (Hrest (S n) k' Hn).
      replace (S i + n)%nat with (i + S n)%nat by lia. exact Hrest. }
    rewrite Forall_forall in Hall.
    destruct (Hall k) as [[d Hd] [s Hs]].
    { apply list_elem_of_lookup. eauto. }
    cbn [streak_loop]. rewrite Hd. cbn.
    unfold pomodoros_positive. rewrite Hs. cbn.
    destruct i as [| j].
    + destruct (_ <=? 1); cbn; [| eauto].
      destruct (0 <? pomodoros s); cbn; [| eauto].
      apply IH, Hnext.
    + destruct (lookup_lt_is_Some_2 dates j) as [prev Hprev].
      { apply lookup_lt_Some in Hk. lia. }
      rewrite Hprev. cbn.
      destruct (Hall prev) as [[dp Hdp] _].
      { apply list_elem_of_lookup. eauto. }
      rewrite Hdp. cbn.
      destruct (_ =? 1); cbn; [| eauto].
      destruct (0 <? pomodoros s); cbn; [| eauto].
      apply IH, Hnext.
Qed.

(** With keys that are dates, [_update_streak] raises nothing. *)
Lemma update_streak_ok today self :
  (forall k, is_Some (history self !! k) -> is_Some (Date.strptime k)) ->
  exists n, _update_streak today self = Ok (set_streak n self).
Proof.
  intros Hkeys. unfold _update_streak. cbv zeta.
  set (dates := sorted_reverse (map fst (map_to_list (history self)))).
  destruct (streak_loop_ok today (history self) dates) with
    (rest := dates) (i := 0%nat) (acc := 0) as [n Hn].
  - apply Forall_forall. intros k Hk.
    unfold dates, sorted_reverse in Hk.
    rewrite merge_sort_Permutation in Hk.
    change (map fst) with (fmap (M := list) (@fst string DailyStats)) in Hk.
    apply list_elem_of_fmap in Hk as ([k' s] & -> & Hin).
    apply elem_of_map_to_list in Hin. cbn. split; eauto.
  - intros n k Hk. exact Hk.
  - exists n. rewrite Hn. reflexivity.
Qed.

(** C8.  [_save] then a load from the same path is a round trip.  For a
    tracker whose keys and current date are dates, [_save] writes the
    [to_dict] of every day of the history (the current day put in first),
    and a tracker then constructed on that path, on any day, has the same
    keys with the same five counters; a day with a non-empty [date] is
    identical.  The written [total_time] is [focus_time + break_time], and
    [from_dict] gives the same day whatever [total_time] holds. *)
Theorem save_load_round_trip (today today' : Date.t) (stamp : string)
    (fs : filesystem) (self : StatsTracker) :
  map_Forall (fun k _ => is_Some (Date.strptime k)) (history self) ->
  is_Some (Date.strptime (date (current_day self))) ->
  exists saved fs' data loaded,
    _save today stamp fs self = Ok (saved, fs') /\
    history saved
      = <[date (current_day self) := current_day self]> (history self) /\
    fs' !! storage_path self = Some (Json data) /\
    doc_history data = Some (to_dict <$> history saved) /\
    _load today' fs'
      (mkTracker (storage_path self) (new_DailyStats today' None) ∅ 0)
      = Ok loaded /\
    (forall k,
       counters <$> history loaded !! k = counters <$> history saved !! k) /\
    (forall k stats,
       history saved !! k = Some stats -> date stats <> "" ->
       history loaded !! k = Some stats) /\
    (forall stats,
       key_total_time (to_dict stats)
       = Some (focus_time stats + break_time stats)) /\
    (forall v d, from_dict today' (set_total_time v d) = from_dict today' d).
Proof.
  intros Hkeys Hcur.
  set (h1 := <[date (current_day self) := current_day self]> (history self)).
  assert (forall k, is_Some (h1 !! k) -> is_Some (Date.strptime k)) as Hkeys1.
  { intros k. unfold h1. rewrite lookup_insert.
    case_decide as Hk; [subst k; auto |].
    intros [stats Hs]. exact (Hkeys k stats Hs). }
  destruct (update_streak_ok today
              (mkTracker (storage_path self) (current_day self) h1 (streak self))
              Hkeys1) as [n Hn].
  destruct (update_streak_ok today'
              (mkTracker (storage_path self)
                 (match (reread today' <$> h1) !! Date.str today' with
                  | Some stats => stats
                  | None => new_DailyStats today' (Some (Date.str today'))
                  end)
                 (reread today' <$> h1) 0)) as [n' Hn'].
  { intros k. cbn. rewrite lookup_fmap, fmap_is_Some. apply Hkeys1. }
  eexists _, _, _, _.
  split; [| split; [| split; [| split; [| split]]]].
  - unfold _save. cbv zeta. fold h1. rewrite Hn. cbn. reflexivity.
  - reflexivity.
  - cbn. apply lookup_insert_eq.
  - reflexivity.
  - unfold _load. cbn [storage_path]. rewrite lookup_insert_eq.
    unfold load_file. cbn [json_load mbind result_bind doc_history get].
    rewrite load_history_to_dict.
    cbn [mbind result_bind storage_path streak]. rewrite Hn'. reflexivity.
  - cbn. split; [| split; [| split]].
    + intros k. rewrite lookup_fmap.
      destruct (h1 !! k); reflexivity.
    + intros k stats Hk Hd. rewrite lookup_fmap, Hk. cbn.
      f_equal. apply reread_dated, Hd.
    + reflexivity.
    + reflexivity.
Qed.

(** The history of the streak test, saved on 2024-01-10 on a machine
    without files and loaded the day after, has the counters it had. *)
Lemma save_load_round_trip_witness :
  let self :=
    mkTracker "stats.json" (new_DailyStats 738895 None) two_day_history 0 in
  exists saved fs' loaded,
    _save 738895 "2024-01-10T09:00:00" ∅ self = Ok (saved, fs') /\
    init 738896 fs' (Some "stats.json") = Ok loaded /\
    counters <$> history loaded !! "2024-01-09" = Some (2, 3000, 600, 2, 0).
Proof.
  cbv zeta.
  destruct (save_load_round_trip 738895 738896 "2024-01-10T09:00:00" ∅
              (mkTracker "stats.json" (new_DailyStats 738895 None)
                 two_day_history 0))
    as (saved & fs' & data & loaded & Hsave & Hh & _ & _ & Hload & Hc & _).
  - cbn [history]. apply map_Forall_insert_2; [vm_compute; eauto |].
    apply map_Forall_singleton. vm_compute. eauto.
  - vm_compute. eauto.
  - exists saved, fs', loaded.
    split; [exact Hsave |]. split; [exact Hload |].
    rewrite Hc, Hh. vm_compute. reflexivity.
Defined.

End StatsProperties.

(** * More properties of the timer engine *)

Section TimerReadouts.

Import Timer TimerSpec TimerView.

Local Open Scope Q_scope.

(** ** The clock face *)

Lemma int_of_nonneg (x : Q) : 0 <= x -> int_of x = Qfloor x.
Proof.
  intros Hx. unfold int_of.
  apply Qle_bool_iff in Hx. rewrite Hx. reflexivity.
Qed.

Lemma Qfloor_nonneg (x : Q) : 0 <= x -> (0 <= Qfloor x)%Z.
Proof.
  intros Hx. change 0%Z with (Qfloor 0). apply Qfloor_resp_le, Hx.
Qed.

(** The floor of a non-negative [x] over 60 and what is left of [x]. *)
Lemma floordiv_60_bounds (x : Q) :
  0 <= x ->
  0 <= floordiv x 60 /\ 0 <= pymod x 60 /\ pymod x 60 < 60.
Proof.
  intros Hx. unfold pymod, floordiv.
  assert (0 <= x / 60) as Hq.
  { apply Qle_shift_div_l; lra. }
  pose proof (Qfloor_nonneg _ Hq) as Hf0.
  pose proof (Qfloor_le (x / 60)) as Hlo.
  pose proof (Qlt_floor (x / 60)) as Hhi.
  rewrite inject_Z_plus in Hhi.
  assert (x / 60 * 60 == x) as Hx60 by (field).
  rewrite Zle_Qle in Hf0.
  split; [exact Hf0 |].
  set (f := inject_Z (Qfloor (x / 60))) in *.
  split.
  - assert (f * 60 <= x / 60 * 60) as H
      by (apply Qmult_le_compat_r; [exact Hlo | lra]).
    lra.
  - assert (x / 60 * 60 < (f + inject_Z 1) * 60) as H
      by (apply Qmult_lt_compat_r; [lra | exact Hhi]).
    change (inject_Z 1) with 1 in H. lra.
Qed.

(** X1.  [get_time_display] never shows a negative number or 60 seconds:
    the minutes are not negative, the seconds lie between 0 and 59, and
    together they are the whole seconds of the remaining time. *)
Theorem time_display_whole_seconds (now : Q) (s : PomodoroTimer) :
  let '(minutes, seconds) := get_time_display now s in
  (0 <= minutes)%Z /\ (0 <= seconds <= 59)%Z /\
  inject_Z (60 * minutes + seconds) <= get_remaining now s /\
  get_remaining now s < inject_Z (60 * minutes + seconds) + 1.
Proof.
  unfold get_time_display. cbv zeta.
  pose proof (get_remaining_nonneg now s) as Hr.
  set (r := get_remaining now s) in *.
  destruct (floordiv_60_bounds r Hr) as (Hf & Hm0 & Hm60).
  rewrite (int_of_nonneg _ Hf), (int_of_nonneg _ Hm0).
  replace (Qfloor (floordiv r 60)) with (Qfloor (r / 60))
    by (unfold floordiv; rewrite Qfloor_Z; reflexivity).
  pose proof (Qfloor_le (pymod r 60)) as Hlo.
  pose proof (Qlt_floor (pymod r 60)) as Hhi.
  rewrite inject_Z_plus in Hhi. change (inject_Z 1) with 1 in Hhi.
  pose proof (Qfloor_nonneg _ Hm0) as Hs0.
  assert (Qfloor (pymod r 60) < 60)%Z as Hs60.
  { rewrite Zlt_Qlt. change (inject_Z 60) with 60. lra. }
  split; [| split; [lia |]].
  - apply Qfloor_nonneg, Qle_shift_div_l; lra.
  - rewrite inject_Z_plus, inject_Z_mult. change (inject_Z 60) with 60.
    set (g := inject_Z (Qfloor (pymod r 60))) in *.
    unfold pymod, floordiv in Hlo, Hhi.
    set (f := inject_Z (Qfloor (r / 60))) in *.
    split; lra.
Qed.

(** A default timer that has run 83.5 seconds of its Focus shows 23:36. *)
Example time_display_example :
  get_time_display (167 # 2) (start 0 (init None)) = (23, 36)%Z.
Proof. vm_compute. reflexivity. Qed.

(** ** The status summary *)

Lemma next_long_break_is_one (pc n : Z) :
  (0 < n)%Z ->
  (n - pc mod n = 1 <-> (pc + 1) mod n = 0)%Z.
Proof.
  intros Hn. pose proof (Z.mod_pos_bound pc n Hn) as Hr.
  pose proof (Z.div_mod pc n ltac:(lia)) as Hpc.
  split.
  - intros H1.
    replace (pc + 1)%Z with ((pc / n + 1) * n)%Z by nia.
    apply Z.mod_mul. lia.
  - intros H0. destruct (Z.eq_dec (pc mod n)%Z (n - 1)%Z) as [Heq | Hne]; [lia |].
    exfalso.
    assert ((pc + 1) mod n = pc mod n + 1)%Z as Hm.
    { symmetry. apply (Z.mod_unique_pos _ _ (pc / n)%Z); nia. }
    lia.
Qed.

(** X2.  [get_status_summary] reports the state as it is and does not
    change it.  With a positive [pomodoros_before_long_break] its
    [next_long_break] lies between 1 and that number, and in Focus it is 1
    exactly when the completion of this Focus leads to the long break; with
    0 the call raises [ZeroDivisionError]. *)
Theorem status_summary_next_long_break (now_display now_progress : Q)
    (s : PomodoroTimer) :
  let n := pomodoros_before_long_break (config s) in
  (n = 0%Z ->
   get_status_summary now_display now_progress s
   = Raises ZeroDivisionError s) /\
  ((0 < n)%Z ->
   exists st,
     get_status_summary now_display now_progress s = Returns st s /\
     status_phase st = value (phase s) /\
     status_is_running st = is_running s /\
     status_is_paused st = is_paused s /\
     status_pomodoros_completed st = pomodoros_completed s /\
     (status_remaining_minutes st, status_remaining_seconds st)
     = get_time_display now_display s /\
     status_progress st = get_progress now_progress s /\
     (1 <= status_next_long_break st <= n)%Z /\
     (phase s = FOCUS ->
      forall now,
        status_next_long_break st = 1%Z <->
        phase (final_state (_advance_phase now s)) = LONG_BREAK)).
Proof.
  cbv zeta. unfold get_status_summary.
  destruct (get_time_display now_display s) as [minutes seconds].
  split.
  - intros ->. reflexivity.
  - intros Hn.
    destruct (Z.eqb_spec (pomodoros_before_long_break (config s)) 0)
      as [E | _]; [lia |].
    eexists. split; [reflexivity |]. cbn.
    repeat (split; [reflexivity |]).
    pose proof (Z.mod_pos_bound (pomodoros_completed s) _ Hn) as Hr.
    split; [lia |].
    intros Hfocus now. rewrite next_long_break_is_one by exact Hn.
    unfold _advance_phase. rewrite Hfocus. cbv zeta.
    change (config (count_pomodoro s)) with (config s).
    change (pomodoros_completed (count_pomodoro s))
      with (pomodoros_completed s + 1)%Z.
    destruct (Z.eqb_spec (pomodoros_before_long_break (config s)) 0)
      as [E | _]; [lia |].
    destruct (Z.eqb_spec
                ((pomodoros_completed s + 1)
                   mod pomodoros_before_long_break (config s)) 0)
      as [E | E]; cbn; split; intros H; congruence.
Qed.

(** A default timer with three pomodoros done, in its fourth Focus: the
    next long break is one pomodoro away, and this Focus leads to it. *)
Lemma status_summary_next_long_break_witness :
  let s := mkTimer default_config FOCUS 3 false false None 0 0 in
  exists st,
    get_status_summary 0 0 s = Returns st s /\
    status_next_long_break st = 1%Z /\
    phase (final_state (_advance_phase 0 s)) = LONG_BREAK.
Proof.
  cbv zeta.
  destruct (status_summary_next_long_break 0 0
              (mkTimer default_config FOCUS 3 false false None 0 0))
    as [_ Hpos].
  destruct Hpos as (st & Hst & _ & _ & _ & _ & _ & _ & _ & Hnext);
    [cbn; lia |].
  exists st. split; [exact Hst |].
  assert (status_next_long_break st = 1%Z) as H1.
  { cbv in Hst. injection Hst as <-. reflexivity. }
  split; [exact H1 |].
  apply (Hnext eq_refl 0), H1.
Defined.

End TimerReadouts.

Section TimerControls.

Import Timer TimerSpec TimerView.

Local Open Scope Q_scope.

(** ** The buttons *)

(** X3.  Pressing a control twice is pressing it once: a second [start],
    [pause], [stop] or [reset], at whatever time, changes nothing. *)
Theorem controls_idempotent (now now' : Q) (s : PomodoroTimer) :
  start now' (start now s) = start now s /\
  pause now' (pause now s) = pause now s /\
  stop (stop s) = stop s /\
  reset (reset s) = reset s.
Proof.
  split; [| split; [| split]].
  - unfold start. destruct (is_running s) eqn:Hrun; cbn; rewrite ?Hrun;
      reflexivity.
  - unfold pause.
    destruct (is_running s) eqn:Hrun, (is_paused s) eqn:Hp; cbn;
      rewrite ?Hrun, ?Hp; reflexivity.
  - reflexivity.
  - reflexivity.
Qed.

(** X4.  [stop] throws the elapsed time away and keeps the phase, the
    count and the configuration: a timer stopped and started again at
    [now] has nothing elapsed at [now] and the whole phase before it,
    where [pause] would have kept what had run. *)
Theorem stop_restarts_phase (now : Q) (s : PomodoroTimer) :
  let restarted := start now (stop s) in
  (forall t, get_elapsed t (stop s) = 0) /\
  is_running (stop s) = false /\ is_paused (stop s) = false /\
  is_running restarted = true /\
  get_elapsed now restarted == 0 /\
  get_remaining now restarted == Qmax 0 (get_phase_duration s) /\
  phase restarted = phase s /\
  pomodoros_completed restarted = pomodoros_completed s /\
  config restarted = config s.
Proof.
  cbv zeta. repeat split.
  - unfold get_elapsed. cbn. lra.
  - unfold get_remaining, get_elapsed, get_phase_duration. cbn.
    apply Q.max_compat; [reflexivity | lra].
Qed.

(** X5.  A paused timer stands still: on a running timer paused at
    [t_pause], the elapsed time, the remaining time, the progress and the
    clock face read at any later time are those of the moment of the
    pause. *)
Theorem pause_freezes_readouts (t_pause now : Q) (s : PomodoroTimer) :
  is_running s = true ->
  is_paused s = false ->
  get_elapsed now (pause t_pause s) = get_elapsed t_pause s /\
  get_remaining now (pause t_pause s) = get_remaining t_pause s /\
  get_progress now (pause t_pause s) = get_progress t_pause s /\
  get_time_display now (pause t_pause s) = get_time_display t_pause s.
Proof.
  intros Hrun Hp.
  assert (get_elapsed now (pause t_pause s) = get_elapsed t_pause s) as He.
  { unfold pause. rewrite Hrun, Hp. reflexivity. }
  assert (get_phase_duration (pause t_pause s) = get_phase_duration s) as Hd.
  { unfold pause. rewrite Hrun, Hp. reflexivity. }
  assert (get_remaining now (pause t_pause s) = get_remaining t_pause s) as Hr.
  { unfold get_remaining. rewrite He, Hd. reflexivity. }
  split; [exact He |]. split; [exact Hr |]. split.
  - unfold get_progress. rewrite He, Hd. reflexivity.
  - unfold get_time_display. rewrite Hr. reflexivity.
Qed.

(** A default timer started at 0 and paused at 83.5 still shows 23:36 an
    hour later. *)
Lemma pause_freezes_readouts_witness :
  let s := start 0 (init None) in
  get_time_display 3600 (pause (167 # 2) s) = (23, 36)%Z.
Proof.
  cbv zeta.
  destruct (pause_freezes_readouts (167 # 2) 3600 (start 0 (init None))
              eq_refl eq_refl) as (_ & _ & _ & Hd).
  rewrite Hd. vm_compute. reflexivity.
Defined.

(** ** What every reachable state satisfies *)

(** X6.  In every state the engine can reach, [is_running] and
    [is_paused] are never both set, a running timer has a [start_time], a
    stopped timer has no banked time, the count of pomodoros is not
    negative, and in a break at least one pomodoro has been completed. *)
Theorem reachable_state_invariants (t : Q) (s : PomodoroTimer) :
  reachable t s ->
  (is_running s && is_paused s = false) /\
  (is_running s = true -> exists t0, start_time s = Some t0 /\ t0 <= t) /\
  (is_running s = false -> is_paused s = false -> paused_elapsed s == 0) /\
  (0 <= pomodoros_completed s)%Z /\
  (phase s <> FOCUS -> (1 <= pomodoros_completed s)%Z).
Proof.
  intros Hreach. pose proof (reachable_inv t s Hreach) as [_ _ Hst Hex Hsp].
  split; [| split; [exact Hst | split; [exact Hsp |]]].
  { destruct (is_running s); [rewrite (Hex eq_refl) |]; reflexivity. }
  clear Hst Hex Hsp.
  induction Hreach as [cfg t Hcfg | t t' s _ IH Hle | t s _ IH | t s now _ IH Hle
                      | t s now _ IH Hle | t s _ IH
                      | t s n1 n2 _ IH Hle1 Hle2 | t s cfg _ IH Hcfg].
  - cbn. split; [lia | congruence].
  - exact IH.
  - cbn. split; [lia | congruence].
  - unfold start. destruct (is_running s); exact IH.
  - unfold pause. destruct (is_running s && negb (is_paused s))%bool; exact IH.
  - exact IH.
  - destruct IH as [H0 H1]. unfold check_completion.
    destruct (Qle_bool (get_remaining n1 s) 0); [| split; assumption].
    unfold _advance_phase. destruct (phase s) eqn:Hph; cbv zeta.
    + destruct (_ =? 0)%Z; [| destruct (_ =? 0)%Z]; cbn; split; intros; lia.
    + cbn. split; [exact H0 | congruence].
    + cbn. split; [exact H0 | congruence].
  - exact IH.
Qed.

(** The state after a default timer has completed its first Focus while
    running: running and not paused, one pomodoro, in a break. *)
Lemma reachable_state_invariants_witness :
  let s := final_state (check_completion 1500 1500 (start 0 (init None))) in
  (is_running s && is_paused s = false) /\ (1 <= pomodoros_completed s)%Z.
Proof.
  cbv zeta.
  destruct (reachable_state_invariants 1500
              (final_state (check_completion 1500 1500 (start 0 (init None)))))
    as (Hex & _ & _ & _ & Hbreak).
  - apply (reach_check 0); [| lra | lra].
    apply (reach_start 0); [| lra].
    apply (reach_init default_config).
    unfold config_valid, default_config. cbn. repeat split; lra || lia.
  - split; [exact Hex |]. apply Hbreak. vm_compute. discriminate.
Defined.

(** X7.  In every reachable state the remaining time lies between 0 and
    the phase duration; and in any state it does not grow as the clock
    goes on. *)
Theorem remaining_bounds_and_decrease :
  (forall (t now : Q) (s : PomodoroTimer),
     reachable t s -> t <= now ->
     0 <= get_remaining now s <= get_phase_duration s) /\
  (forall (now now' : Q) (s : PomodoroTimer),
     now <= now' -> get_remaining now' s <= get_remaining now s).
Proof.
  split.
  - intros t now s Hreach Hle.
    pose proof (reachable_elapsed_nonneg t s now Hreach Hle) as He.
    pose proof (config_valid_duration s
                  (inv_config t s (reachable_inv t s Hreach))) as Hd.
    split; [apply get_remaining_nonneg |].
    unfold get_remaining. cbv zeta. apply Q.max_lub; lra.
  - intros now now' s Hle. unfold get_remaining. cbv zeta.
    apply Q.max_le_compat_l.
    assert (get_elapsed now s <= get_elapsed now' s) as He.
    { unfold get_elapsed. destruct (is_running s), (start_time s); lra. }
    lra.
Qed.

(** A default timer 100 seconds into Focus has between 0 and 1500 seconds
    left, and no more at 200 seconds than at 100. *)
Lemma remaining_bounds_and_decrease_witness :
  let s := start 0 (init (Some default_config)) in
  0 <= get_remaining 100 s <= 1500 /\
  get_remaining 200 s <= get_remaining 100 s.
Proof.
  cbv zeta. destruct remaining_bounds_and_decrease as [Hb Hm].
  split.
  - apply (Hb 0); [| lra].
    apply (reach_start 0); [| lra].
    apply reach_init. unfold config_valid, default_config. cbn.
    repeat split; lra || lia.
  - apply Hm. lra.
Defined.

(** ** Completions *)

(** After an advance the new phase has nothing elapsed at the clock
    reading of the advance, and the configuration is the same. *)
Lemma advance_starts_afresh now_check now_adv s s' :
  check_completion now_check now_adv s = Returns true s' ->
  config s' = config s /\ get_elapsed now_adv s' == 0 /\
  is_running s' = is_running s /\ is_paused s' = is_paused s.
Proof.
  unfold check_completion.
  destruct (Qle_bool (get_remaining now_check s) 0); [| discriminate].
  unfold _advance_phase.
  destruct (phase s); cbv zeta;
    try (destruct (_ =? 0)%Z; [| destruct (_ =? 0)%Z]);
    intros Heq; try discriminate; injection Heq as <-;
    (split; [reflexivity |]); (split; [| split; reflexivity]);
    unfold get_elapsed; cbn; destruct (is_running s); cbn; lra.
Qed.

(** X8.  A completion is not counted twice: under a valid configuration,
    when [check_completion] has advanced the timer, a second check at the
    clock reading of the advance finds the new phase unfinished and
    changes nothing, whether the timer runs, is paused or is stopped. *)
Theorem no_double_advance (now_check now_adv now_next : Q)
    (s s' : PomodoroTimer) :
  config_valid (config s) ->
  check_completion now_check now_adv s = Returns true s' ->
  check_completion now_adv now_next s' = Returns false s'.
Proof.
  intros Hcfg Hadv.
  destruct (advance_starts_afresh _ _ _ _ Hadv) as (Hc & He & _).
  assert (0 < get_phase_duration s') as Hd.
  { apply config_valid_duration. rewrite Hc. exact Hcfg. }
  unfold check_completion.
  destruct (Qle_bool (get_remaining now_adv s') 0) eqn:Hdone; [| reflexivity].
  exfalso. apply Qle_bool_iff, get_remaining_done_iff in Hdone. lra.
Qed.

(** A default timer paused at the end of its Focus: the check advances
    it, and the next check leaves the paused ShortBreak alone. *)
Lemma no_double_advance_witness :
  let s := pause 1500 (start 0 (init None)) in
  exists s',
    check_completion 1600 1600 s = Returns true s' /\
    check_completion 1600 1700 s' = Returns false s'.
Proof.
  cbv zeta. eexists. split; [reflexivity |].
  apply (no_double_advance 1600 1600 1700 (pause 1500 (start 0 (init None)))).
  - unfold config_valid. cbn. repeat split; lra || lia.
  - reflexivity.
Defined.

(** Two advances from Focus lead back to Focus with one more pomodoro. *)
Lemma advance_twice_from_focus now1 now2 s :
  phase s = FOCUS ->
  pomodoros_before_long_break (config s) <> 0%Z ->
  exists s2,
    advance_all [now1; now2] s = Returns tt s2 /\
    phase s2 = FOCUS /\
    pomodoros_completed s2 = (pomodoros_completed s + 1)%Z /\
    config s2 = config s.
Proof.
  intros Hph Hn.
  assert (exists p, p <> FOCUS /\
            _advance_phase now1 s
            = Returns tt (enter_phase now1 p (count_pomodoro s)))
    as (p & Hp & Hadv).
  { unfold _advance_phase. rewrite Hph. cbv zeta.
    change (config (count_pomodoro s)) with (config s).
    destruct (Z.eqb_spec (pomodoros_before_long_break (config s)) 0)
      as [E | _]; [contradiction |].
    destruct (_ =? 0)%Z; eexists; (split; [| reflexivity]); discriminate. }
  cbn [advance_all]. rewrite Hadv.
  unfold _advance_phase. cbn [phase enter_phase].
  destruct p; [contradiction | |]; eexists; (split; [reflexivity |]);
    repeat split.
Qed.

(** X9.  The rhythm of the breaks.  From a timer in Focus, after [k] full
    rounds of Focus and break and one more Focus (2k + 1 completions, at
    whatever times), [k + 1] pomodoros have been added, and the timer is
    in a break that is the long one exactly when the count has become a
    multiple of [pomodoros_before_long_break]. *)
Theorem long_break_every_nth (k : nat) :
  forall (nows : list Q) (s : PomodoroTimer),
    length nows = S (2 * k) ->
    phase s = FOCUS ->
    pomodoros_before_long_break (config s) <> 0%Z ->
    exists s',
      advance_all nows s = Returns tt s' /\
      pomodoros_completed s'
      = (pomodoros_completed s + Z.of_nat k + 1)%Z /\
      phase s' =
        if (pomodoros_completed s'
              mod pomodoros_before_long_break (config s) =? 0)%Z
        then LONG_BREAK else SHORT_BREAK.
Proof.
  induction k as [| k IH]; intros nows s Hlen Hph Hn.
  - destruct nows as [| now [| ? ?]]; try discriminate.
    cbn [advance_all]. unfold _advance_phase. rewrite Hph. cbv zeta.
    change (config (count_pomodoro s)) with (config s).
    change (pomodoros_completed (count_pomodoro s))
      with (pomodoros_completed s + 1)%Z.
    destruct (Z.eqb_spec (pomodoros_before_long_break (config s)) 0)
      as [E | _]; [contradiction |].
    destruct (_ =? 0)%Z eqn:Hmod; eexists; (split; [reflexivity |]);
      cbn [pomodoros_completed phase enter_phase count_pomodoro];
      rewrite Hmod; (split; [cbn; lia | reflexivity]).
  - destruct nows as [| now1 [| now2 rest]]; try discriminate.
    destruct (advance_twice_from_focus now1 now2 s Hph Hn)
      as (s2 & Hs2 & Hph2 & Hpc2 & Hc2).
    destruct (IH rest s2) as (s' & Hs' & Hpc' & Hph').
    + cbn in Hlen. lia.
    + exact Hph2.
    + rewrite Hc2. exact Hn.
    + exists s'. split; [| split].
      * cbn [advance_all] in Hs2 |- *.
        destruct (_advance_phase now1 s) as [[] s1 | e s1]; [| discriminate].
        destruct (_advance_phase now2 s1) as [[] s2' | e s2'];
          [| discriminate].
        injection Hs2 as ->. exact Hs'.
      * rewrite Hpc', Hpc2. lia.
      * rewrite Hph', Hc2. reflexivity.
Qed.

(** A fresh default timer: the 7 completions that end its fourth Focus
    leave 4 pomodoros and the long break. *)
Lemma long_break_every_nth_witness :
  exists s',
    advance_all [1; 2; 3; 4; 5; 6; 7] (init None) = Returns tt s' /\
    pomodoros_completed s' = 4%Z /\ phase s' = LONG_BREAK.
Proof.
  destruct (long_break_every_nth 3 [1; 2; 3; 4; 5; 6; 7] (init None))
    as (s' & Hs' & Hpc & Hph).
  - reflexivity.
  - reflexivity.
  - cbn. discriminate.
  - exists s'. split; [exact Hs' |]. split; [exact Hpc |].
    rewrite Hph, Hpc. reflexivity.
Defined.

End TimerControls.

(** * More properties of the statistics store *)

Section StoreProperties.

Import Stats StatsSpec Store StoreSpec.

Local Open Scope Z_scope.

(** ** Saving *)

(** With dates for keys [_save] raises nothing: it stores the current day
    under its date, recomputes the streak and writes the document. *)
Lemma save_dated today stamp fs tr :
  dated tr ->
  exists n,
    Stats._save today stamp fs tr
    = Ok (mkTracker (storage_path tr) (current_day tr)
            (<[date (current_day tr) := current_day tr]> (history tr)) n,
          <[storage_path tr :=
              Json (mkDocument
                      (Some (to_dict <$>
                               <[date (current_day tr) := current_day tr]>
                                 (history tr)))
                      (Some n) (Some stamp))]> fs).
Proof.
  intros [Hkeys Hcur].
  destruct (update_streak_ok today
              (mkTracker (storage_path tr) (current_day tr)
                 (<[date (current_day tr) := current_day tr]> (history tr))
                 (streak tr))) as [n Hn].
  { intros k. cbn. rewrite lookup_insert.
    case_decide as Hk; [subst k; auto |].
    intros [stats Hs]. exact (Hkeys k stats Hs). }
  exists n. unfold Stats._save. cbv zeta. rewrite Hn. reflexivity.
Qed.

Lemma on_current_day_lookup f st k :
  history (tracker (on_current_day f st)) !! k
  = if decide (k ∈ shared st) then Some (f (current_day (tracker st)))
    else history (tracker st) !! k.
Proof.
  cbn. rewrite lookup_union, lookup_gset_to_gmap.
  case_decide as Hk.
  - rewrite option_guard_True by exact Hk.
    destruct (history (tracker st) !! k); reflexivity.
  - rewrite option_guard_False by exact Hk.
    destruct (history (tracker st) !! k); reflexivity.
Qed.

(** A method that keeps the date, then [_save]. *)
Lemma record_with f today stamp fs st :
  (forall s, date (f s) = date s) ->
  wf st -> dated (tracker st) ->
  exists st' fs',
    Store._save today stamp fs (on_current_day f st) = Ok (st', fs') /\
    recorded f st fs st' fs'.
Proof.
  intros Hdate Hwf [Hkeys Hcur].
  set (old := current_day (tracker st)).
  assert (dated (tracker (on_current_day f st))) as Hdated.
  { split.
    - intros k stats Hk. rewrite on_current_day_lookup in Hk.
      case_decide as Hin.
      + apply (Hkeys k old). apply Hwf, Hin.
      + apply (Hkeys k stats Hk).
    - cbn. rewrite Hdate. exact Hcur. }
  destruct (save_dated today stamp fs _ Hdated) as [n Hsave].
  unfold Store._save. rewrite Hsave. cbn [mbind result_bind].
  eexists _, _. split; [reflexivity |].
  assert (forall k,
            k ∈ ({[date old]} ∪ shared st : gset string) ->
            (<[date (f old) := f old]>
               (gset_to_gmap (f old) (shared st) ∪ history (tracker st)))
              !! k = Some (f old)) as Hshared.
  { intros k Hmem. rewrite Hdate, lookup_insert.
    destruct (decide (date old = k)) as [Hd | Hd]; [reflexivity |].
    pose proof (on_current_day_lookup f st k) as Hl. cbn in Hl.
    fold old in Hl. rewrite Hl.
    apply decide_True.
    apply elem_of_union in Hmem as [Hm | Hm]; [| exact Hm].
    apply elem_of_singleton in Hm. congruence. }
  rewrite (Hdate old) in Hshared.
  unfold recorded. cbn. fold old. rewrite Hdate.
  split; [reflexivity |]. split; [reflexivity |].
  split; [exact Hshared |].
  split.
  { intros k Hk. apply not_elem_of_union in Hk as [Hk1 Hk2].
    apply not_elem_of_singleton in Hk1.
    rewrite lookup_insert_ne by congruence.
    pose proof (on_current_day_lookup f st k) as Hl. cbn in Hl.
    fold old in Hl. rewrite Hl.
    apply decide_False. exact Hk2. }
  split; [reflexivity |].
  split.
  { eexists. split; [apply lookup_insert_eq |]. split; reflexivity. }
  split; [intros p Hp; apply lookup_insert_ne; congruence |].
  split; [exact Hshared |].
  split.
  - intros k stats Hk. cbn in Hk. rewrite lookup_insert in Hk.
    case_decide as Hd; [subst k; exact Hcur |].
    apply (proj1 Hdated k stats). cbn. exact Hk.
  - cbn. rewrite Hdate. exact Hcur.
Qed.

(** ** Recording *)

(** A store as [__init__] leaves it on 2024-01-10 on a machine without
    files, and the same after two pomodoros of 25 minutes. *)
Example record_pomodoro_twice :
  exists st0 st1 fs1 st2 fs2,
    Store.init 738895 ∅ (Some "stats.json") = Ok st0 /\
    record_pomodoro 1500 738895 "09:25" ∅ st0 = Ok (st1, fs1) /\
    record_pomodoro 1500 738895 "09:55" fs1 st1 = Ok (st2, fs2) /\
    get_today_summary st2
    = mkDict (Some "2024-01-10") (Some 2) (Some 3000) (Some 0) (Some 0)
        (Some 0) (Some 3000) /\
    Store.get_streak st2 = 1.
Proof.
  eexists _, _, _, _, _.
  split; [vm_compute; reflexivity |].
  split; [vm_compute; reflexivity |].
  split; [vm_compute; reflexivity |].
  split; reflexivity.
Qed.

(** X10.  [record_pomodoro] adds one pomodoro and the given focus time to
    the current day and leaves its other counters; the day is then in the
    history under its date, the file holds the whole history, and nothing
    else has changed.  (The keys and the current date are dates, so that
    [_update_streak] can read them.) *)
Theorem record_pomodoro_effect (focus_duration : Z) (today : Date.t)
    (stamp : string) (fs : filesystem) (st : Store.t) :
  wf st -> dated (tracker st) ->
  exists st' fs',
    record_pomodoro focus_duration today stamp fs st = Ok (st', fs') /\
    recorded (add_pomodoro focus_duration) st fs st' fs' /\
    let old := current_day (tracker st) in
    get_today_summary st'
    = mkDict (Some (date old)) (Some (pomodoros old + 1))
        (Some (focus_time old + focus_duration)) (Some (break_time old))
        (Some (completed_cycles old)) (Some (long_breaks_taken old))
        (Some (focus_time old + focus_duration + break_time old)).
Proof.
  intros Hwf Hdated.
  destruct (record_with (add_pomodoro focus_duration) today stamp fs st)
    as (st' & fs' & Hsave & Hrec); auto.
  exists st', fs'. split; [exact Hsave |]. split; [exact Hrec |].
  cbv zeta. unfold get_today_summary.
  destruct Hrec as (-> & _). reflexivity.
Qed.

(** The store of a machine without files on 2024-01-10: after a pomodoro
    of 25 minutes the day has one. *)
Lemma record_pomodoro_effect_witness :
  let st := mkStore (empty_tracker 738895 (Some "stats.json")) ∅ in
  exists st' fs',
    record_pomodoro 1500 738895 "09:25" ∅ st = Ok (st', fs') /\
    key_pomodoros (get_today_summary st') = Some 1 /\
    key_total_time (get_today_summary st') = Some 1500.
Proof.
  cbv zeta.
  destruct (record_pomodoro_effect 1500 738895 "09:25" ∅
              (mkStore (empty_tracker 738895 (Some "stats.json")) ∅))
    as (st' & fs' & Hrec & _ & Hsum).
  - intros k Hk. apply not_elem_of_empty in Hk. contradiction.
  - split; [apply map_Forall_empty | vm_compute; eauto].
  - exists st', fs'. split; [exact Hrec |].
    cbv zeta in Hsum. rewrite Hsum. split; reflexivity.
Defined.

(** X11.  [record_break] adds the given time to [break_time] of the
    current day, and one to [long_breaks_taken] when the break is a long
    one and only then; the pomodoros, the focus time and the cycles stay,
    and the day is saved as by every recording. *)
Theorem record_break_effect (break_duration : Z) (is_long : bool)
    (today : Date.t) (stamp : string) (fs : filesystem) (st : Store.t) :
  wf st -> dated (tracker st) ->
  exists st' fs',
    record_break break_duration is_long today stamp fs st = Ok (st', fs') /\
    recorded (add_break break_duration is_long) st fs st' fs' /\
    let old := current_day (tracker st) in
    get_today_summary st'
    = mkDict (Some (date old)) (Some (pomodoros old))
        (Some (focus_time old)) (Some (break_time old + break_duration))
        (Some (completed_cycles old))
        (Some (if is_long then long_breaks_taken old + 1
               else long_breaks_taken old))
        (Some (focus_time old + (break_time old + break_duration))).
Proof.
  intros Hwf Hdated.
  destruct (record_with (add_break break_duration is_long) today stamp fs st)
    as (st' & fs' & Hsave & Hrec); auto.
  exists st', fs'. split; [exact Hsave |]. split; [exact Hrec |].
  cbv zeta. unfold get_today_summary.
  destruct Hrec as (-> & _). reflexivity.
Qed.

(** A long break of 15 minutes on the empty store of 2024-01-10. *)
Lemma record_break_effect_witness :
  let st := mkStore (empty_tracker 738895 (Some "stats.json")) ∅ in
  exists st' fs',
    record_break 900 true 738895 "11:00" ∅ st = Ok (st', fs') /\
    key_break_time (get_today_summary st') = Some 900 /\
    key_long_breaks_taken (get_today_summary st') = Some 1 /\
    key_pomodoros (get_today_summary st') = Some 0.
Proof.
  cbv zeta.
  destruct (record_break_effect 900 true 738895 "11:00" ∅
              (mkStore (empty_tracker 738895 (Some "stats.json")) ∅))
    as (st' & fs' & Hrec & _ & Hsum).
  - intros k Hk. apply not_elem_of_empty in Hk. contradiction.
  - split; [apply map_Forall_empty | vm_compute; eauto].
  - exists st', fs'. split; [exact Hrec |].
    cbv zeta in Hsum. rewrite Hsum. repeat split.
Defined.

(** X12.  [record_cycle] adds one to [completed_cycles] of the current day
    and nothing else, and saves the day as every recording does. *)
Theorem record_cycle_effect (today : Date.t) (stamp : string)
    (fs : filesystem) (st : Store.t) :
  wf st -> dated (tracker st) ->
  exists st' fs',
    record_cycle today stamp fs st = Ok (st', fs') /\
    recorded add_cycle st fs st' fs' /\
    let old := current_day (tracker st) in
    get_today_summary st'
    = mkDict (Some (date old)) (Some (pomodoros old))
        (Some (focus_time old)) (Some (break_time old))
        (Some (completed_cycles old + 1)) (Some (long_breaks_taken old))
        (Some (focus_time old + break_time old)).
Proof.
  intros Hwf Hdated.
  destruct (record_with add_cycle today stamp fs st)
    as (st' & fs' & Hsave & Hrec); auto.
  exists st', fs'. split; [exact Hsave |]. split; [exact Hrec |].
  cbv zeta. unfold get_today_summary.
  destruct Hrec as (-> & _). reflexivity.
Qed.

(** A cycle on the empty store of 2024-01-10. *)
Lemma record_cycle_effect_witness :
  let st := mkStore (empty_tracker 738895 (Some "stats.json")) ∅ in
  exists st' fs',
    record_cycle 738895 "09:30" ∅ st = Ok (st', fs') /\
    key_completed_cycles (get_today_summary st') = Some 1.
Proof.
  cbv zeta.
  destruct (record_cycle_effect 738895 "09:30" ∅
              (mkStore (empty_tracker 738895 (Some "stats.json")) ∅))
    as (st' & fs' & Hrec & _ & Hsum).
  - intros k Hk. apply not_elem_of_empty in Hk. contradiction.
  - split; [apply map_Forall_empty | vm_compute; eauto].
  - exists st', fs'. split; [exact Hrec |].
    cbv zeta in Hsum. rewrite Hsum. reflexivity.
Defined.

(** ** The streak *)

Lemma streak_loop_bounds today (h : gmap string DailyStats) dates :
  forall rest i acc n,
    streak_loop today h dates i rest acc = Ok n ->
    acc <= n <= acc + Z.of_nat (length rest).
Proof.
  induction rest as [| k rest IH]; intros i acc n Hn; cbn in Hn.
  - injection Hn as <-. cbn. lia.
  - cbn [length]. rewrite Nat2Z.inj_succ.
    destruct (Date.strptime k) as [d |]; cbn in Hn; [| discriminate].
    unfold pomodoros_positive in Hn.
    destruct i as [| j].
    + destruct (_ <=? 1); cbn in Hn; [| injection Hn as <-; lia].
      destruct (h !! k) as [stats |]; cbn in Hn; [| discriminate].
      destruct (0 <? pomodoros stats); [| injection Hn as <-; lia].
      apply IH in Hn. lia.
    + destruct (dates !! j) as [prev |]; cbn in Hn; [| discriminate].
      destruct (Date.strptime prev) as [dp |]; cbn in Hn; [| discriminate].
      destruct (_ =? 1); cbn in Hn; [| injection Hn as <-; lia].
      destruct (h !! k) as [stats |]; cbn in Hn; [| discriminate].
      destruct (0 <? pomodoros stats); [| injection Hn as <-; lia].
      apply IH in Hn. lia.
Qed.

Lemma sorted_reverse_length (keys : list string) :
  length (sorted_reverse keys) = length keys.
Proof.
  unfold sorted_reverse. apply Permutation_length, merge_sort_Permutation.
Qed.

(** X13.  When [_update_streak] returns it has changed the streak and
    nothing else, and the streak is not negative and not greater than the
    number of days in the history. *)
Theorem update_streak_bounds (today : Date.t) (self self' : StatsTracker) :
  _update_streak today self = Ok self' ->
  self' = set_streak (Stats.get_streak self') self /\
  0 <= Stats.get_streak self' <= Z.of_nat (size (history self)).
Proof.
  unfold _update_streak. cbv zeta.
  destruct (streak_loop _ _ _ _ _ _) as [n |] eqn:Hn; cbn; [| discriminate].
  intros Heq. injection Heq as <-. split; [reflexivity |].
  apply streak_loop_bounds in Hn.
  rewrite sorted_reverse_length, length_map, length_map_to_list in Hn.
  cbn. lia.
Qed.

(** The history of the streak test on 2024-01-10: a streak of 2, within
    its two days. *)
Lemma update_streak_bounds_witness :
  exists self',
    _update_streak 738895
      (mkTracker "stats.json" (new_DailyStats 738895 None) two_day_history 7)
    = Ok self' /\
    0 <= Stats.get_streak self' <= 2.
Proof.
  eexists. split; [vm_compute; reflexivity |].
  match goal with
  | |- 0 <= Stats.get_streak ?t <= 2 =>
      destruct (update_streak_bounds 738895
                  (mkTracker "stats.json" (new_DailyStats 738895 None)
                     two_day_history 7) t) as [_ Hb]
  end.
  - vm_compute. reflexivity.
  - exact Hb.
Defined.

#[local] Instance flip_le_transitive : Transitive (flip String.le).
Proof. intros x y z Hxy Hyz. unfold flip in *. by etrans. Qed.

#[local] Instance flip_le_total : Total (flip String.le).
Proof. intros x y. unfold flip. destruct (total String.le y x); auto. Qed.

(** The greatest key comes first in [sorted(..., reverse=True)]. *)
Lemma sorted_reverse_head (keys : list string) (top : string) :
  top ∈ keys ->
  (forall k, k ∈ keys -> String.le k top) ->
  exists rest, sorted_reverse keys = top :: rest.
Proof.
  intros Hin Htop. unfold sorted_reverse.
  pose proof (StronglySorted_merge_sort (flip String.le) keys) as Hsorted.
  pose proof (merge_sort_Permutation (flip String.le) keys) as Hperm.
  destruct (merge_sort (flip String.le) keys) as [| first rest].
  - rewrite <- Hperm in Hin. apply elem_of_nil in Hin. contradiction.
  - exists rest. f_equal.
    apply StronglySorted_cons in Hsorted as [Hfirst _].
    assert (first ∈ keys) as Hfk
      by (rewrite <- Hperm; apply list_elem_of_here).
    rewrite <- Hperm in Hin. apply elem_of_cons in Hin as [-> | Hin];
      [reflexivity |].
    rewrite Forall_forall in Hfirst. specialize (Hfirst top Hin).
    unfold flip in Hfirst. apply (anti_symm String.le); auto.
Qed.

(** What [_save] returns is what [_update_streak] returns on the tracker
    with the current day stored. *)
Lemma save_update_streak today stamp fs tr tr' fs' :
  Stats._save today stamp fs tr = Ok (tr', fs') ->
  _update_streak today
    (mkTracker (storage_path tr) (current_day tr)
       (<[date (current_day tr) := current_day tr]> (history tr)) (streak tr))
  = Ok tr'.
Proof.
  unfold Stats._save. cbv zeta.
  destruct (_update_streak _ _) as [tr2 |]; cbn; [| discriminate].
  intros Heq. injection Heq as <- _. reflexivity.
Qed.

(** X14.  A pomodoro recorded today starts or keeps a streak: when the
    current day is today's, its count is not negative and no key of the
    history sorts after its date, the streak after [record_pomodoro] is at
    least 1. *)
Theorem pomodoro_today_gives_streak (focus_duration : Z) (today : Date.t)
    (stamp : string) (fs : filesystem) (st : Store.t) :
  let day := current_day (tracker st) in
  wf st -> dated (tracker st) ->
  Date.strptime (date day) = Some today ->
  0 <= pomodoros day ->
  (forall k, is_Some (history (tracker st) !! k) -> String.le k (date day)) ->
  exists st' fs',
    record_pomodoro focus_duration today stamp fs st = Ok (st', fs') /\
    1 <= Store.get_streak st'.
Proof.
  cbv zeta. intros Hwf Hdated Htoday Hpos Hlast.
  destruct (record_with (add_pomodoro focus_duration) today stamp fs st)
    as (st' & fs' & Hsave & Hrec); auto.
  exists st', fs'. split; [exact Hsave |].
  unfold Store._save in Hsave.
  destruct (Stats._save today stamp fs _) as [[tr' fs2] |] eqn:Hs;
    cbn in Hsave; [| discriminate].
  injection Hsave as <- <-.
  apply save_update_streak in Hs. cbn in Hs.
  set (old := current_day (tracker st)) in *.
  set (new := add_pomodoro focus_duration old) in *.
  set (h1 := <[date old := new]> (gset_to_gmap new (shared st)
                                    ∪ history (tracker st))) in *.
  unfold _update_streak in Hs. cbv zeta in Hs. cbn [history] in Hs.
  destruct (sorted_reverse_head (map fst (map_to_list h1)) (date old))
    as [rest Hsorted].
  { change (map fst) with (fmap (M := list) (@fst string DailyStats)).
    apply list_elem_of_fmap. exists (date old, new). split; [reflexivity |].
    apply elem_of_map_to_list. unfold h1. apply lookup_insert_eq. }
  { intros k Hk.
    change (map fst) with (fmap (M := list) (@fst string DailyStats)) in Hk.
    apply list_elem_of_fmap in Hk as ([k' s'] & -> & Hk).
    apply elem_of_map_to_list in Hk. cbn. unfold h1 in Hk.
    rewrite lookup_insert in Hk.
    destruct (decide (date old = k')) as [<- | Hne]; [reflexivity |].
    pose proof (on_current_day_lookup (add_pomodoro focus_duration) st k')
      as Hl. cbn in Hl. fold old in Hl. fold new in Hl. rewrite Hl in Hk.
    destruct (decide (k' ∈ shared st)) as [Hsh | Hsh].
    - apply Hlast. rewrite (Hwf k' Hsh). eauto.
    - apply Hlast. eauto. }
  rewrite Hsorted in Hs.
  destruct (streak_loop _ _ _ _ _ _) as [n |] eqn:Hn; cbn in Hs;
    [| discriminate].
  injection Hs as <-. cbn.
  cbn [streak_loop] in Hn. rewrite Htoday in Hn. cbn in Hn.
  unfold Date.days_between in Hn. rewrite Z.sub_diag in Hn. cbn in Hn.
  unfold pomodoros_positive in Hn.
  assert (h1 !! date old = Some new) as Hlook by apply lookup_insert_eq.
  rewrite Hlook in Hn. cbn in Hn.
  destruct (Z.ltb_spec 0 (pomodoros old + 1)) as [_ | Hle]; [| lia].
  apply streak_loop_bounds in Hn. lia.
Qed.

(** The empty store of 2024-01-10: one pomodoro and the streak is 1. *)
Lemma pomodoro_today_gives_streak_witness :
  let st := mkStore (empty_tracker 738895 (Some "stats.json")) ∅ in
  exists st' fs',
    record_pomodoro 1500 738895 "09:25" ∅ st = Ok (st', fs') /\
    1 <= Store.get_streak st'.
Proof.
  cbv zeta.
  apply (pomodoro_today_gives_streak 1500 738895 "09:25" ∅
           (mkStore (empty_tracker 738895 (Some "stats.json")) ∅)).
  - intros k Hk. apply not_elem_of_empty in Hk. contradiction.
  - split; [apply map_Forall_empty | vm_compute; eauto].
  - vm_compute. reflexivity.
  - vm_compute. discriminate.
  - intros k [s Hs]. cbn in Hs. rewrite lookup_empty in Hs. discriminate.
Defined.

(** ** Saving twice, reading a day *)

(** X15.  [_save] is idempotent: saved again on the same day with the same
    time stamp, the tracker and the files are what the first [_save] made
    them. *)
Theorem save_twice (today : Date.t) (stamp : string) (fs fs1 : filesystem)
    (self self1 : StatsTracker) :
  Stats._save today stamp fs self = Ok (self1, fs1) ->
  Stats._save today stamp fs1 self1 = Ok (self1, fs1).
Proof.
  unfold Stats._save, _update_streak. cbv zeta. cbn [history].
  destruct (streak_loop _ _ _ _ _ _) as [n |] eqn:Hn; cbn; [| discriminate].
  intros Heq. injection Heq as <- <-. cbn.
  rewrite insert_insert_eq, Hn. cbn. rewrite insert_insert_eq. reflexivity.
Qed.

(** The history of the streak test, saved twice on 2024-01-10. *)
Lemma save_twice_witness :
  let self :=
    mkTracker "stats.json" (new_DailyStats 738895 None) two_day_history 0 in
  exists self1 fs1,
    Stats._save 738895 "10:00" ∅ self = Ok (self1, fs1) /\
    Stats._save 738895 "10:00" fs1 self1 = Ok (self1, fs1).
Proof.
  cbv zeta.
  destruct (Stats._save 738895 "10:00" ∅
              (mkTracker "stats.json" (new_DailyStats 738895 None)
                 two_day_history 0)) as [[self1 fs1] | e] eqn:Hsave.
  - exists self1, fs1. split; [reflexivity |].
    exact (save_twice 738895 "10:00" ∅ fs1 _ self1 Hsave).
  - vm_compute in Hsave. discriminate Hsave.
Defined.

(** The text of a date is not empty. *)
Lemma str_nonempty (d : Date.t) : Date.str d <> "".
Proof.
  unfold Date.str. destruct (Date._ord2ymd d) as [[year month] day].
  discriminate.
Qed.


(** X16.  [from_dict] raises [KeyError] exactly when one of the keys
    [date], [pomodoros], [focus_time], [break_time] is absent.  The day it
    returns otherwise has a date that is not empty, counts an absent
    [completed_cycles] or [long_breaks_taken] as 0, and is read back
    unchanged from its own [to_dict], on any day. *)
Theorem from_dict_normalises (today : Date.t) (data : dict) :
  (lacks_required_key data <-> from_dict today data = Raise KeyError) /\
  (forall stats,
     from_dict today data = Ok stats ->
     date stats <> "" /\
     completed_cycles stats = get (key_completed_cycles data) 0 /\
     long_breaks_taken stats = get (key_long_breaks_taken data) 0 /\
     forall today', from_dict today' (to_dict stats) = Ok stats).
Proof.
  split.
  - destruct (from_dict_cases today data) as [[Hl Hr] | [Hn [stats Hs]]].
    + tauto.
    + rewrite Hs. split; [tauto | discriminate].
  - intros stats Heq. unfold from_dict in Heq.
    destruct (key_date data) as [d |]; cbn in Heq; [| discriminate].
    destruct (key_pomodoros data) as [p |]; cbn in Heq; [| discriminate].
    destruct (key_focus_time data) as [f |]; cbn in Heq; [| discriminate].
    destruct (key_break_time data) as [b |]; cbn in Heq; [| discriminate].
    injection Heq as <-.
    assert ((if decide (d = "") then Date.str today else d) <> "") as Hd.
    { destruct (decide (d = "")); [apply str_nonempty | assumption]. }
    split; [exact Hd |]. split; [reflexivity |]. split; [reflexivity |].
    intros today'. rewrite from_dict_to_dict. f_equal.
    apply reread_dated. exact Hd.
Qed.

(** A day written before cycles and long breaks were counted, with no
    date. *)
Lemma from_dict_normalises_witness :
  exists stats,
    from_dict 738895
      (mkDict (Some "") (Some 3) (Some 4500) (Some 900) None None None)
    = Ok stats /\
    date stats = "2024-01-10" /\
    completed_cycles stats = 0 /\
    from_dict 738896 (to_dict stats) = Ok stats.
Proof.
  destruct (from_dict_normalises 738895
              (mkDict (Some "") (Some 3) (Some 4500) (Some 900)
                 None None None)) as [_ Hok].
  eexists. split; [reflexivity |].
  destruct (Hok _ eq_refl) as (_ & Hc & _ & Hback).
  split; [reflexivity |]. split; [exact Hc | apply Hback].
Defined.

(** ** Starting from a file *)




(** ** A day without pomodoros *)

(** When the greatest key of the history is a day without pomodoros the
    loop of [_update_streak] ends at its first turn. *)
Lemma update_streak_idle_top today self self' top stats :
  history self !! top = Some stats ->
  pomodoros stats <= 0 ->
  (forall k, is_Some (history self !! k) -> String.le k top) ->
  _update_streak today self = Ok self' ->
  streak self' = 0.
Proof.
  intros Htop Hidle Hlast. unfold _update_streak. cbv zeta.
  destruct (sorted_reverse_head (map fst (map_to_list (history self))) top)
    as [rest ->].
  { change (map fst) with (fmap (M := list) (@fst string DailyStats)).
    apply list_elem_of_fmap. exists (top, stats). split; [reflexivity |].
    apply elem_of_map_to_list. exact Htop. }
  { intros k Hk.
    change (map fst) with (fmap (M := list) (@fst string DailyStats)) in Hk.
    apply list_elem_of_fmap in Hk as ([k' s'] & -> & Hk).
    apply elem_of_map_to_list in Hk. apply Hlast. cbn. eauto. }
  cbn [streak_loop].
  destruct (Date.strptime top) as [d |]; cbn; [| discriminate].
  unfold pomodoros_positive. rewrite Htop. cbn.
  destruct (Z.ltb_spec 0 (pomodoros stats)) as [Hlt | _]; [lia |].
  destruct (_ <=? 1); cbn; intros Heq; injection Heq as <-; reflexivity.
Qed.

(** X18.  [reset_today] makes a new day without counts the current day and
    stores it under today's date, over what the history held there; the
    rest of the history stays, also the day that was current when its date
    was another one.  The new day is the only key that holds the current
    day, the file holds the history, and when no key sorts after today's
    the streak is 0.  (The keys of the history are dates, and so is the
    text of today's date.) *)
Theorem reset_today_effect (today : Date.t) (stamp : string)
    (fs : filesystem) (st : Store.t) :
  map_Forall (fun k _ => is_Some (Date.strptime k)) (history (tracker st)) ->
  is_Some (Date.strptime (Date.str today)) ->
  exists st' fs',
    reset_today today stamp fs st = Ok (st', fs') /\
    get_today_summary st' = empty_day (Date.str today) /\
    history (tracker st')
    = <[Date.str today := new_DailyStats today None]> (history (tracker st)) /\
    shared st' = {[ Date.str today ]} /\
    wf st' /\ dated (tracker st') /\
    storage_path (tracker st') = storage_path (tracker st) /\
    (exists data,
       fs' !! storage_path (tracker st) = Some (Json data) /\
       doc_history data = Some (to_dict <$> history (tracker st')) /\
       doc_streak data = Some (streak (tracker st'))) /\
    (forall p, p <> storage_path (tracker st) -> fs' !! p = fs !! p) /\
    ((forall k, is_Some (history (tracker st) !! k) ->
        String.le k (Date.str today)) ->
     Store.get_streak st' = 0).
Proof.
  intros Hkeys Htoday.
  set (day := new_DailyStats today None).
  set (h1 := <[Date.str today := day]> (history (tracker st))).
  assert (forall k, is_Some (h1 !! k) -> is_Some (Date.strptime k)) as Hkeys1.
  { intros k. unfold h1. rewrite lookup_insert.
    case_decide as Hk; [subst k; auto |].
    intros [stats Hs]. exact (Hkeys k stats Hs). }
  destruct (update_streak_ok today
              (mkTracker (storage_path (tracker st)) day h1
                 (streak (tracker st))) Hkeys1) as [n1 Hn1].
  unfold set_streak in Hn1.
  cbn [storage_path current_day history streak] in Hn1.
  assert (dated (mkTracker (storage_path (tracker st)) day h1 n1)) as Hdated.
  { split; [| exact Htoday].
    intros k stats Hk. apply Hkeys1. cbn in Hk. eauto. }
  destruct (save_dated today stamp fs _ Hdated) as [n Hsave].
  cbn [storage_path current_day history] in Hsave.
  change (date day) with (Date.str today) in Hsave.
  assert (<[Date.str today := day]> h1 = h1) as Hh1
    by (unfold h1; apply insert_insert_eq).
  rewrite Hh1 in Hsave.
  eexists _, _. split.
  { unfold reset_today. cbv zeta. fold day.
    change (date day) with (Date.str today). fold h1.
    rewrite Hn1. cbn [mbind result_bind set_streak storage_path current_day
                      history streak].
    unfold Store._save. cbn [tracker]. rewrite Hsave.
    cbn [mbind result_bind]. reflexivity. }
  cbn [tracker shared storage_path current_day history streak
       get_today_summary Store.get_streak Stats.get_streak].
  split; [reflexivity |]. split; [reflexivity |].
  split; [change (date day) with (Date.str today); apply union_idemp_L |].
  split.
  { intros k Hk. cbn in Hk.
    change (date day) with (Date.str today) in Hk.
    rewrite union_idemp_L in Hk. apply elem_of_singleton in Hk as ->.
    cbn. apply lookup_insert_eq. }
  split; [exact Hdated |]. split; [reflexivity |].
  split.
  { eexists. split; [apply lookup_insert_eq |]. split; reflexivity. }
  split; [intros p Hp; apply lookup_insert_ne; congruence |].
  intros Hlast.
  destruct (save_dated today stamp fs _ Hdated) as [n' Hsave'].
  cbn [storage_path current_day history] in Hsave'.
  change (date day) with (Date.str today) in Hsave'.
  rewrite Hh1, Hsave in Hsave'. injection Hsave' as Hnn.
  apply save_update_streak in Hsave.
  cbn [storage_path current_day history streak] in Hsave.
  change (date day) with (Date.str today) in Hsave. rewrite Hh1 in Hsave.
  apply (update_streak_idle_top today _ _ (Date.str today) day) in Hsave.
  - exact Hsave.
  - apply lookup_insert_eq.
  - cbn. lia.
  - intros k. cbn. unfold h1. rewrite lookup_insert.
    case_decide as Hk; [subst k; reflexivity |]. apply Hlast.
Qed.

(** Yesterday's two pomodoros give a streak of 1 at the start of
    2024-01-10; after [reset_today] today's entry of the history has no
    pomodoro and the streak is 0. *)
Lemma reset_today_effect_witness :
  let history := {[ "2024-01-09" := mkDailyStats "2024-01-09" 2 3000 600 2 0 ]} in
  let st := mkStore (mkTracker "stats.json" (new_DailyStats 738895 None)
                       history 1) ∅ in
  exists st' fs',
    reset_today 738895 "08:00" ∅ st = Ok (st', fs') /\
    get_today_summary st' = empty_day "2024-01-10" /\
    Store.get_streak st' = 0.
Proof.
  cbv zeta.
  destruct (reset_today_effect 738895 "08:00" ∅
              (mkStore (mkTracker "stats.json" (new_DailyStats 738895 None)
                          {[ "2024-01-09" :=
                               mkDailyStats "2024-01-09" 2 3000 600 2 0 ]} 1)
                 ∅))
    as (st' & fs' & Hreset & Hsum & _ & _ & _ & _ & _ & _ & _ & Hstreak).
  - apply map_Forall_singleton. vm_compute. eauto.
  - vm_compute. eauto.
  - exists st', fs'. split; [exact Hreset |]. split; [exact Hsum |].
    apply Hstreak. intros k [stats Hk]. cbn in Hk.
    apply lookup_singleton_Some in Hk as [<- _].
    vm_compute. exact I.
Defined.

(** X19.  A break recorded on a day without pomodoros ends the streak:
    when the current day has no pomodoro and no key of the history sorts
    after its date, the streak after [record_break] is 0, whatever the
    days before hold. *)
Theorem break_without_pomodoro_ends_streak (break_duration : Z)
    (is_long : bool) (today : Date.t) (stamp : string) (fs : filesystem)
    (st : Store.t) :
  let day := current_day (tracker st) in
  wf st -> dated (tracker st) ->
  pomodoros day <= 0 ->
  (forall k, is_Some (history (tracker st) !! k) -> String.le k (date day)) ->
  exists st' fs',
    record_break break_duration is_long today stamp fs st = Ok (st', fs') /\
    Store.get_streak st' = 0.
Proof.
  cbv zeta. intros Hwf Hdated Hidle Hlast.
  destruct (record_with (add_break break_duration is_long) today stamp fs st)
    as (st' & fs' & Hsave & Hrec); auto.
  exists st', fs'. split; [exact Hsave |].
  unfold Store._save in Hsave.
  destruct (Stats._save today stamp fs _) as [[tr' fs2] |] eqn:Hs;
    cbn in Hsave; [| discriminate].
  injection Hsave as <- <-.
  apply save_update_streak in Hs. cbn in Hs.
  set (old := current_day (tracker st)) in *.
  set (new := add_break break_duration is_long old) in *.
  apply (update_streak_idle_top today _ _ (date old) new) in Hs.
  - exact Hs.
  - cbn. apply lookup_insert_eq.
  - exact Hidle.
  - intros k Hk. cbn in Hk. rewrite lookup_insert in Hk.
    destruct (decide (date old = k)) as [<- | Hne]; [reflexivity |].
    pose proof (on_current_day_lookup (add_break break_duration is_long) st k)
      as Hl. cbn in Hl. fold old in Hl. fold new in Hl. rewrite Hl in Hk.
    destruct (decide (k ∈ shared st)) as [Hsh | Hsh].
    + apply Hlast. rewrite (Hwf k Hsh). eauto.
    + apply Hlast. exact Hk.
Qed.

(** After yesterday's two pomodoros, a break as the first thing recorded
    on 2024-01-10. *)
Lemma break_without_pomodoro_ends_streak_witness :
  let history := {[ "2024-01-09" := mkDailyStats "2024-01-09" 2 3000 600 2 0 ]} in
  let st := mkStore (mkTracker "stats.json" (new_DailyStats 738895 None)
                       history 1) ∅ in
  exists st' fs',
    record_break 300 false 738895 "08:05" ∅ st = Ok (st', fs') /\
    Store.get_streak st' = 0.
Proof.
  cbv zeta.
  apply (break_without_pomodoro_ends_streak 300 false 738895 "08:05" ∅
           (mkStore (mkTracker "stats.json" (new_DailyStats 738895 None)
                       {[ "2024-01-09" :=
                            mkDailyStats "2024-01-09" 2 3000 600 2 0 ]} 1)
              ∅)).
  - intros k Hk. apply not_elem_of_empty in Hk. contradiction.
  - split; [apply map_Forall_singleton |]; vm_compute; eauto.
  - vm_compute. discriminate.
  - intros k [stats Hk]. cbn in Hk.
    apply lookup_singleton_Some in Hk as [<- _].
    vm_compute. exact I.
Defined.

(** ** The week and the current day *)

Lemma weekly_summary_entries (today : Date.t) (self : StatsTracker) :
  6 < today -> today <= Date.max_ordinal ->
  Stats.get_weekly_summary today self
  = Ok (map (week_entry today self) (seq 0 7)).
Proof.
  intros Hlo Hhi. unfold Stats.get_weekly_summary. apply for_each_ok.
  intros i Hi. apply elem_of_seq in Hi.
  unfold weekly_entry, week_entry.
  rewrite sub_days_in_week by lia. cbn.
  destruct (history self !! _); reflexivity.
Qed.

(** X20.  A pomodoro recorded on the day of the current day shows in the
    week: after [record_pomodoro] the first entry of [get_weekly_summary]
    is [get_today_summary], with the pomodoro counted, and six entries
    follow. *)
Theorem recorded_pomodoro_heads_week (focus_duration : Z) (today : Date.t)
    (stamp : string) (fs : filesystem) (st : Store.t) :
  wf st -> dated (tracker st) ->
  6 < today -> today <= Date.max_ordinal ->
  date (current_day (tracker st)) = Date.str today ->
  exists st' fs' rest,
    record_pomodoro focus_duration today stamp fs st = Ok (st', fs') /\
    Store.get_weekly_summary today st' = Ok (get_today_summary st' :: rest) /\
    length rest = 6%nat /\
    key_pomodoros (get_today_summary st')
    = Some (pomodoros (current_day (tracker st)) + 1).
Proof.
  intros Hwf Hdated Hlo Hhi Hdate.
  destruct (record_with (add_pomodoro focus_duration) today stamp fs st)
    as (st' & fs' & Hsave & Hrec); auto.
  destruct Hrec as (Hcur & Hshared & Hheld & _).
  exists st', fs', (map (week_entry today (tracker st')) (seq 1 6)).
  split; [exact Hsave |].
  split; [| split; [reflexivity |]].
  - unfold Store.get_weekly_summary.
    rewrite weekly_summary_entries by assumption.
    change (seq 0 7) with (0%nat :: seq 1 6). cbn [map]. do 2 f_equal.
    unfold week_entry. cbv zeta.
    replace (today - Z.of_nat 0) with today by (cbn; lia).
    rewrite (Hheld (Date.str today)).
    + unfold get_today_summary. rewrite Hcur. reflexivity.
    + rewrite Hshared, <- Hdate.
      apply elem_of_union_l, elem_of_singleton. reflexivity.
  - unfold get_today_summary. rewrite Hcur. reflexivity.
Qed.

(** The first pomodoro of 2024-01-10 in an empty store. *)
Lemma recorded_pomodoro_heads_week_witness :
  let st := mkStore (empty_tracker 738895 (Some "stats.json")) ∅ in
  exists st' fs' rest,
    record_pomodoro 1500 738895 "09:25" ∅ st = Ok (st', fs') /\
    Store.get_weekly_summary 738895 st'
    = Ok (get_today_summary st' :: rest) /\
    key_pomodoros (get_today_summary st') = Some 1.
Proof.
  cbv zeta.
  destruct (recorded_pomodoro_heads_week 1500 738895 "09:25" ∅
              (mkStore (empty_tracker 738895 (Some "stats.json")) ∅))
    as (st' & fs' & rest & Hrec & Hweek & _ & Hp).
  - intros k Hk. apply not_elem_of_empty in Hk. contradiction.
  - split; [apply map_Forall_empty | vm_compute; eauto].
  - lia.
  - vm_compute. discriminate.
  - reflexivity.
  - exists st', fs', rest. split; [exact Hrec |]. split; [exact Hweek |].
    rewrite Hp. reflexivity.
Defined.

(** ** Starting again *)

(** X21.  The application started again on the same day finds what it
    saved: after [_save] of a tracker whose current day is today's and
    whose days have dates that are not empty, a tracker constructed on the
    same path on that day is the saved one, streak included, and its
    current day is the object of the history under today's key. *)
Theorem restart_same_day (today : Date.t) (stamp : string) (fs fs' : filesystem)
    (st st' : Store.t) :
  dated (tracker st) ->
  storage_path (tracker st) <> "" ->
  date (current_day (tracker st)) = Date.str today ->
  map_Forall (fun _ stats => date stats <> "") (history (tracker st)) ->
  Store._save today stamp fs st = Ok (st', fs') ->
  Store.init today fs' (Some (storage_path (tracker st)))
  = Ok (mkStore (tracker st') {[ Date.str today ]}).
Proof.
  intros Hdated Hpath Hdate Hnonempty Hsave.
  destruct (save_dated today stamp fs _ Hdated) as [n Hs].
  unfold Store._save in Hsave. rewrite Hs in Hsave.
  cbn [mbind result_bind] in Hsave. injection Hsave as <- <-.
  apply save_update_streak in Hs.
  set (path := storage_path (tracker st)) in *.
  set (day := current_day (tracker st)) in *.
  set (h1 := <[date day := day]> (history (tracker st))) in *.
  assert (reread today <$> h1 = h1) as Hreread.
  { rewrite <- (map_fmap_id h1) at 2. apply map_fmap_ext.
    intros k stats Hk. apply reread_dated.
    unfold h1 in Hk. rewrite lookup_insert in Hk.
    case_decide as Hd.
    - injection Hk as <-. change (date day <> "").
      rewrite Hdate. apply str_nonempty.
    - apply (Hnonempty k stats Hk). }
  assert (h1 !! Date.str today = Some day) as Hday
    by (unfold h1; rewrite Hdate; apply lookup_insert_eq).
  unfold _update_streak in Hs. cbv zeta in Hs. cbn [history] in Hs.
  destruct (streak_loop _ _ _ _ _ _) as [m |] eqn:Hm; cbn in Hs;
    [| discriminate].
  injection Hs as ->.
  unfold Store.init, Stats.init, _load, empty_tracker. cbn [storage_path].
  destruct (decide (path = "")) as [He | _]; [contradiction |].
  rewrite lookup_insert_eq. unfold load_file.
  cbn [json_load mbind result_bind doc_history get].
  rewrite load_history_to_dict, Hreread.
  cbn [mbind result_bind storage_path streak]. rewrite Hday.
  unfold _update_streak. cbv zeta. cbn [history]. rewrite Hm.
  cbn [mbind result_bind set_streak storage_path current_day history streak
       tracker].
  unfold set_streak. cbn [storage_path current_day history streak].
  rewrite Hday.
  destruct (decide (is_Some (Some day))) as [_ | Hn]; [reflexivity |].
  destruct Hn. eauto.
Qed.

(** Two pomodoros on 2024-01-10 in an empty store, and the tracker of a
    new start on that day. *)
Lemma restart_same_day_witness :
  let st0 := mkStore (empty_tracker 738895 (Some "stats.json")) ∅ in
  let st := on_current_day (add_pomodoro 1500)
              (on_current_day (add_pomodoro 1500) st0) in
  exists st' fs',
    Store._save 738895 "09:55" ∅ st = Ok (st', fs') /\
    Store.init 738895 fs' (Some "stats.json")
    = Ok (mkStore (tracker st') {[ "2024-01-10" ]}).
Proof.
  cbv zeta.
  set (st := on_current_day (add_pomodoro 1500)
               (on_current_day (add_pomodoro 1500)
                  (mkStore (empty_tracker 738895 (Some "stats.json")) ∅))).
  assert (dated (tracker st)) as Hdated.
  { split; [| vm_compute; eauto].
    intros k stats Hk. unfold st in Hk.
    rewrite !on_current_day_lookup in Hk. cbn in Hk.
    rewrite decide_False in Hk by apply not_elem_of_empty.
    rewrite lookup_empty in Hk. discriminate. }
  destruct (save_dated 738895 "09:55" ∅ _ Hdated) as [n Hs].
  eexists _, _. split.
  - unfold Store._save. rewrite Hs. cbn [mbind result_bind]. reflexivity.
  - apply (restart_same_day 738895 "09:55" ∅ _ st).
    + exact Hdated.
    + discriminate.
    + reflexivity.
    + intros k stats Hk. unfold st in Hk.
      rewrite !on_current_day_lookup in Hk. cbn in Hk.
      rewrite decide_False in Hk by apply not_elem_of_empty.
      rewrite lookup_empty in Hk. discriminate.
    + unfold Store._save. rewrite Hs. cbn [mbind result_bind]. reflexivity.
Defined.

End StoreProperties.

(** * Properties of the quotes *)

Section QuoteProperties.

Import Stats Quotes QuotesSpec.

Local Open Scope string_scope.
Local Open Scope list_scope.

Lemma QUOTES_NoDup voice : NoDup (QUOTES voice).
Proof.
  destruct voice; apply (bool_decide_unpack _); vm_compute; reflexivity.
Qed.

Lemma QUOTES_length voice : length (QUOTES voice) = 5%nat.
Proof. destruct voice; reflexivity. Qed.

Lemma filter_ext_in {A : Type} (P Q : A -> Prop)
    `{!forall x, Decision (P x)} `{!forall x, Decision (Q x)} (l : list A) :
  (forall x, x ∈ l -> P x <-> Q x) -> filter P l = filter Q l.
Proof.
  induction l as [| x l IH]; intros Hall; [reflexivity |].
  pose proof (Hall x (list_elem_of_here _ _)) as Hx.
  assert (filter P l = filter Q l) as Hl
    by (apply IH; intros y Hy; apply Hall, list_elem_of_further, Hy).
  destruct (decide (P x)) as [HP | HP].
  - rewrite !filter_cons_True by tauto. f_equal. exact Hl.
  - rewrite !filter_cons_False by tauto. exact Hl.
Qed.

(** The quotes that are not among the used ones: as many are left as the
    list has more than were used. *)
Lemma available_length voice (used : list string) :
  (length (QUOTES voice)
   <= length (filter (fun q => q ∉ used) (QUOTES voice)) + length used)%nat.
Proof.
  pose proof (QUOTES_NoDup voice) as Hnodup.
  induction (QUOTES voice) as [| q l IH] in used, Hnodup |- *;
    [cbn; lia |].
  apply NoDup_cons in Hnodup as [Hq Hnodup].
  destruct (decide (q ∈ used)) as [Hin | Hout].
  - rewrite filter_cons_False by (intros Hn; exact (Hn Hin)).
    apply list_elem_of_split in Hin as (u1 & u2 & ->).
    specialize (IH (u1 ++ u2) Hnodup).
    assert (filter (fun q0 => q0 ∉ u1 ++ q :: u2) l
            = filter (fun q0 => q0 ∉ u1 ++ u2) l) as ->.
    { apply filter_ext_in. intros x Hx.
      assert (x <> q) by (intros ->; contradiction).
      rewrite !elem_of_app, elem_of_cons. tauto. }
    rewrite length_app in *. cbn. lia.
  - rewrite filter_cons_True by exact Hout. cbn.
    specialize (IH used Hnodup). lia.
Qed.

Lemma random_choice_elem {A : Type} (r : nat) (seq : list A) :
  seq <> [] -> exists x, random_choice r seq = Ok x /\ x ∈ seq.
Proof.
  intros Hne. unfold random_choice.
  destruct (lookup_lt_is_Some_2 seq (r mod length seq)) as [x Hx].
  { apply Nat.mod_upper_bound. destruct seq; [contradiction | discriminate]. }
  exists x. rewrite Hx. split; [reflexivity |].
  apply list_elem_of_lookup. eauto.
Qed.

(** What is kept of the used quotes after one more. *)
Lemma keep_last_three (used : list string) (quote : string) :
  (if (3 <? length (used ++ [quote]))%nat
   then last_three (used ++ [quote]) else used ++ [quote])
  = last_two used ++ [quote].
Proof.
  unfold last_three, last_two. rewrite length_app. cbn [length].
  destruct (Nat.ltb_spec 3 (length used + 1)) as [Hlt | Hle].
  - rewrite drop_app_le by lia. f_equal. f_equal. lia.
  - replace (length used - 2)%nat with 0%nat by lia. reflexivity.
Qed.

Lemma set_used_same voice l self : used_quotes (set_used voice l self) voice = l.
Proof. cbn. rewrite decide_True by reflexivity. reflexivity. Qed.

Lemma set_used_other voice l self v :
  v <> voice -> used_quotes (set_used voice l self) v = used_quotes self v.
Proof. intros Hv. cbn. rewrite decide_False by exact Hv. reflexivity. Qed.

(** [get_quote] on a manager with at most three used quotes of the
    voice. *)
Lemma get_quote_spec (r : nat) (voice : Voice) (self : QuoteManager) :
  (length (used_quotes self voice) <= 3)%nat ->
  exists quote self',
    get_quote r voice self = Ok (quote, self') /\
    quote ∈ QUOTES voice /\
    (quote ∉ used_quotes self voice) /\
    used_quotes self' voice
    = (last_two (used_quotes self voice) ++ [quote]) /\
    (forall v, v <> voice -> used_quotes self' v = used_quotes self v).
Proof.
  intros Hlen. unfold get_quote. cbv zeta.
  pose proof (available_length voice (used_quotes self voice)) as Hav.
  rewrite QUOTES_length in Hav.
  set (available := filter (fun q => q ∉ used_quotes self voice)
                      (QUOTES voice)) in *.
  assert (available <> []) as Hne.
  { intros He. rewrite He in Hav. cbn in Hav. lia. }
  destruct (random_choice_elem r available Hne) as (quote & Hchoice & Hin).
  destruct available as [| q0 rest] eqn:Heq; [contradiction |].
  rewrite Hchoice. cbn [mbind result_bind].
  rewrite set_used_same.
  pose proof (keep_last_three (used_quotes self voice) quote) as Hkeep.
  rewrite <- Heq in Hin. unfold available in Hin.
  apply list_elem_of_filter in Hin as [Hout Hin].
  destruct (3 <? length (used_quotes self voice ++ [quote]))%nat.
  - eexists _, _. split; [reflexivity |].
    split; [exact Hin |]. split; [exact Hout |].
    split; [rewrite set_used_same; exact Hkeep |].
    intros v Hv. rewrite !set_used_other by exact Hv. reflexivity.
  - eexists _, _. split; [reflexivity |].
    split; [exact Hin |]. split; [exact Hout |].
    split; [rewrite set_used_same; exact Hkeep |].
    intros v Hv. rewrite set_used_other by exact Hv. reflexivity.
Qed.

Lemma last_two_length (l : list string) : (length (last_two l) <= 2)%nat.
Proof. unfold last_two. rewrite length_drop. lia. Qed.

(** A manager never holds more than three used quotes of a voice. *)
Lemma reachable_used_length self :
  reachable self -> forall v, (length (used_quotes self v) <= 3)%nat.
Proof.
  induction 1 as [| r voice self quote self' _ IH Hget | self _ _];
    intros v; [cbn; lia | | cbn; lia].
  destruct (get_quote_spec r voice self (IH voice))
    as (q & s' & Hq & _ & _ & Hused & Hothers).
  rewrite Hget in Hq. injection Hq as <- <-.
  destruct (decide (v = voice)) as [-> | Hv].
  - rewrite Hused, length_app. pose proof (last_two_length (used_quotes self voice)).
    cbn. lia.
  - rewrite Hothers by exact Hv. apply IH.
Qed.

(** X22.  [get_quote] never repeats one of the last quotes: on every
    manager that the methods make, for every voice and every number
    drawn, it raises nothing and returns a quote of that voice that is not
    among its used quotes; it then keeps the last two of those and this
    quote as the used quotes, never more than three, and leaves the other
    voices as they are. *)
Theorem get_quote_avoids_recent (r : nat) (voice : Voice)
    (self : QuoteManager) :
  reachable self ->
  exists quote self',
    get_quote r voice self = Ok (quote, self') /\
    quote ∈ QUOTES voice /\
    (quote ∉ used_quotes self voice) /\
    used_quotes self' voice
    = (last_two (used_quotes self voice) ++ [quote]) /\
    (length (used_quotes self' voice) <= 3)%nat /\
    (forall v, v <> voice -> used_quotes self' v = used_quotes self v).
Proof.
  intros Hreach.
  destruct (get_quote_spec r voice self
              (reachable_used_length self Hreach voice))
    as (quote & self' & Hget & Hin & Hout & Hused & Hothers).
  exists quote, self'. repeat (split; [assumption |]).
  split; [| exact Hothers].
  apply (reachable_used_length self'). eapply reachable_get_quote; eauto.
Qed.

(** The first quote of a new manager. *)
Lemma get_quote_avoids_recent_witness :
  exists quote self',
    get_quote 7 VOX Quotes.init = Ok (quote, self') /\
    quote ∈ QUOTES VOX /\
    used_quotes self' VOX = [quote].
Proof.
  destruct (get_quote_avoids_recent 7 VOX Quotes.init reachable_init)
    as (quote & self' & Hget & Hin & _ & Hused & _).
  exists quote, self'. split; [exact Hget |]. split; [exact Hin |].
  exact Hused.
Defined.

(** ** Quotes in a row *)

Lemma last_two_snoc (l : list string) (a : string) :
  exists l', last_two (l ++ [a]) ++ [] = l' ++ [a] /\ (length l' <= 1)%nat.
Proof.
  unfold last_two. rewrite length_app, app_nil_r. cbn [length].
  exists (drop (length l - 1) l). split.
  - rewrite drop_app_le by lia. f_equal. f_equal. lia.
  - rewrite length_drop. lia.
Qed.

Lemma last_two_two (l : list string) (a b : string) :
  last_two (l ++ [a; b]) = [a; b].
Proof.
  unfold last_two. rewrite length_app. cbn [length].
  replace (length l + 2 - 2)%nat with (length l + 0)%nat by lia.
  rewrite drop_app_add. reflexivity.
Qed.

(** X23.  Four quotes of a voice asked for in a row are four different
    quotes, on every manager that the methods make and whatever numbers
    are drawn, and no call raises.  A fifth one can be the first again:
    from a new manager with every draw 0 it is, for each voice. *)
Theorem four_quotes_in_a_row_differ :
  (forall (voice : Voice) (r1 r2 r3 r4 : nat) (self : QuoteManager),
     reachable self ->
     exists q1 q2 q3 q4 self',
       get_quotes [r1; r2; r3; r4] voice self
       = Ok ([q1; q2; q3; q4], self') /\
       NoDup [q1; q2; q3; q4]) /\
  (forall voice : Voice,
     exists q1 q2 q3 q4 self',
       get_quotes [0; 0; 0; 0; 0]%nat voice Quotes.init
       = Ok ([q1; q2; q3; q4; q1], self')).
Proof.
  split.
  - intros voice r1 r2 r3 r4 s0 H0.
    destruct (get_quote_spec r1 voice s0 (reachable_used_length s0 H0 voice))
      as (q1 & s1 & E1 & _ & _ & U1 & _).
    assert (reachable s1) as R1 by (eapply reachable_get_quote; eauto).
    destruct (get_quote_spec r2 voice s1 (reachable_used_length s1 R1 voice))
      as (q2 & s2 & E2 & _ & N2 & U2 & _).
    assert (reachable s2) as R2 by (eapply reachable_get_quote; eauto).
    destruct (get_quote_spec r3 voice s2 (reachable_used_length s2 R2 voice))
      as (q3 & s3 & E3 & _ & N3 & U3 & _).
    assert (reachable s3) as R3 by (eapply reachable_get_quote; eauto).
    destruct (get_quote_spec r4 voice s3 (reachable_used_length s3 R3 voice))
      as (q4 & s4 & E4 & _ & N4 & _ & _).
    exists q1, q2, q3, q4, s4. split.
    { cbn [get_quotes]. rewrite E1. cbn [mbind result_bind].
      rewrite E2. cbn [mbind result_bind]. rewrite E3.
      cbn [mbind result_bind]. rewrite E4. reflexivity. }
    destruct (last_two_snoc (last_two (used_quotes s0 voice)) q1)
      as (l' & Hl' & _).
    rewrite app_nil_r, <- U1 in Hl'.
    rewrite Hl', <- app_assoc in U2. cbn [app] in U2.
    assert (last_two (used_quotes s2 voice) = [q1; q2]) as L2
      by (rewrite U2; apply last_two_two).
    rewrite L2 in U3. cbn [app] in U3.
    rewrite U1 in N2. rewrite U2 in N3. rewrite U3 in N4.
    apply not_elem_of_app in N2 as [_ N2].
    apply not_elem_of_cons in N2 as [N21 _].
    apply not_elem_of_app in N3 as [_ N3].
    apply not_elem_of_cons in N3 as [N31 N3].
    apply not_elem_of_cons in N3 as [N32 _].
    apply not_elem_of_cons in N4 as [N41 N4].
    apply not_elem_of_cons in N4 as [N42 N4].
    apply not_elem_of_cons in N4 as [N43 _].
    rewrite !NoDup_cons, !not_elem_of_cons.
    repeat split; try congruence; try apply not_elem_of_nil.
    apply NoDup_nil_2.
  - intros voice. destruct voice; vm_compute; eexists _, _, _, _, _;
      reflexivity.
Qed.

(** Four quotes of the voice Nyra from a new manager. *)
Lemma four_quotes_in_a_row_differ_witness :
  exists q1 q2 q3 q4 self',
    get_quotes [3; 1; 4; 1]%nat NYRA Quotes.init
    = Ok ([q1; q2; q3; q4], self') /\
    NoDup [q1; q2; q3; q4].
Proof.
  destruct four_quotes_in_a_row_differ as [Hdiffer _].
  exact (Hdiffer NYRA 3%nat 1%nat 4%nat 1%nat Quotes.init reachable_init).
Defined.

(** ** The quotes of a break *)

Lemma voice_key_round_trip voice :
  voice_key_to_enum (lower (value voice)) = voice /\
  voice_key_to_enum (value voice) = voice.
Proof. destruct voice; split; reflexivity. Qed.

(** X24.  [get_break_quote] on a manager that the methods make raises
    nothing.  For a long break it returns four items, with the keys
    [solea], [nyra], [vox], [atlas] in this order; for a short break one
    item, whose key is the lower-case name of a voice, and that of the
    first voice is then written with its accent: the key [solea] is never
    the key of a short break.  In both, [voice_key_to_enum] of a key is the
    voice whose quote the item holds. *)
Theorem break_quote_items (is_long_break : bool) (r0 r1 r2 r3 : nat)
    (self : QuoteManager) :
  reachable self ->
  exists items self',
    get_break_quote is_long_break r0 r1 r2 r3 self = Ok (items, self') /\
    reachable self' /\
    Forall (fun item => item.2 ∈ QUOTES (voice_key_to_enum item.1)) items /\
    (is_long_break = true ->
       map fst items = ["solea"; "nyra"; "vox"; "atlas"]) /\
    (is_long_break = false ->
       exists voice,
         map fst items = [lower (value voice)] /\
         lower (value voice) ∈ ["soléa"; "nyra"; "vox"; "atlas"]).
Proof.
  intros R0. unfold get_break_quote. destruct is_long_break.
  - destruct (get_quote_spec r0 SOLEA self
                (reachable_used_length self R0 SOLEA))
      as (q0 & s1 & E0 & I0 & _).
    assert (reachable s1) as R1 by (eapply reachable_get_quote; eauto).
    destruct (get_quote_spec r1 NYRA s1 (reachable_used_length s1 R1 NYRA))
      as (q1 & s2 & E1 & I1 & _).
    assert (reachable s2) as R2 by (eapply reachable_get_quote; eauto).
    destruct (get_quote_spec r2 VOX s2 (reachable_used_length s2 R2 VOX))
      as (q2 & s3 & E2 & I2 & _).
    assert (reachable s3) as R3 by (eapply reachable_get_quote; eauto).
    destruct (get_quote_spec r3 ATLAS s3 (reachable_used_length s3 R3 ATLAS))
      as (q3 & s4 & E3 & I3 & _).
    assert (reachable s4) as R4 by (eapply reachable_get_quote; eauto).
    rewrite E0. cbn [mbind result_bind]. rewrite E1. cbn [mbind result_bind].
    rewrite E2. cbn [mbind result_bind]. rewrite E3. cbn [mbind result_bind].
    eexists _, _. split; [reflexivity |]. split; [exact R4 |].
    split; [| split; [reflexivity | discriminate]].
    repeat (apply Forall_cons; split; [assumption |]). apply Forall_nil_2.
  - destruct (random_choice_elem r0 list_Voice) as (voice & Hv & _);
      [discriminate |].
    rewrite Hv. cbn [mbind result_bind].
    destruct (get_quote_spec r1 voice self
                (reachable_used_length self R0 voice))
      as (q & s1 & E & I & _).
    assert (reachable s1) as R1 by (eapply reachable_get_quote; eauto).
    rewrite E. cbn [mbind result_bind].
    eexists _, _. split; [reflexivity |]. split; [exact R1 |].
    split; [| split; [discriminate |]].
    + apply Forall_cons. split; [| apply Forall_nil_2].
      cbn [fst snd]. rewrite (proj1 (voice_key_round_trip voice)). exact I.
    + intros _. exists voice. split; [reflexivity |].
      destruct voice; vm_compute;
        repeat first [apply list_elem_of_here | apply list_elem_of_further].
Qed.

(** The quotes of a long break from a new manager. *)
Lemma break_quote_items_witness :
  exists items self',
    get_break_quote true 0 1 2 3 Quotes.init = Ok (items, self') /\
    map fst items = ["solea"; "nyra"; "vox"; "atlas"].
Proof.
  destruct (break_quote_items true 0 1 2 3 Quotes.init reachable_init)
    as (items & self' & Hget & _ & _ & Hlong & _).
  exists items, self'. split; [exact Hget | exact (Hlong eq_refl)].
Defined.

End QuoteProperties.

(** * Properties of the recording of a completed phase *)

Section AppProperties.

Import Timer TimerView Stats StatsSpec Store StoreSpec App.

Local Open Scope Z_scope.

(** X25.  What the application records when a phase is completed.  When a
    focus phase ends the timer counts one more pomodoro.  If a short break
    follows, the statistics of the current day get one pomodoro with the
    focus time, the time of the short break and one cycle.  If a long
    break follows, they get the time of the long break and one long break,
    and neither the pomodoro nor its focus time nor a cycle: the focus
    phase before a long break is not in the statistics.  When a break
    ends, nothing is recorded. *)
Theorem completed_phase_recording (now_check now_adv : Q)
    (timer timer' : PomodoroTimer)
    (today1 : Date.t) (stamp1 : string) (today2 : Date.t) (stamp2 : string)
    (today3 : Date.t) (stamp3 : string) (fs : filesystem) (st : Store.t) :
  wf st -> dated (tracker st) ->
  check_completion now_check now_adv timer = Returns true timer' ->
  exists st' fs',
    record_statistics timer' today1 stamp1 today2 stamp2 today3 stamp3 fs st
    = Ok (st', fs') /\
    let cfg := config timer in
    let day := current_day (tracker st) in
    let day' := current_day (tracker st') in
    match phase timer, phase timer' with
    | FOCUS, SHORT_BREAK =>
        pomodoros_completed timer' = pomodoros_completed timer + 1 /\
        counters day'
        = (pomodoros day + 1,
           focus_time day + seconds (focus_duration cfg),
           break_time day + seconds (short_break_duration cfg),
           completed_cycles day + 1,
           long_breaks_taken day)
    | FOCUS, LONG_BREAK =>
        pomodoros_completed timer' = pomodoros_completed timer + 1 /\
        counters day'
        = (pomodoros day,
           focus_time day,
           break_time day + seconds (long_break_duration cfg),
           completed_cycles day,
           long_breaks_taken day + 1)
    | FOCUS, FOCUS => False
    | _, p => p = FOCUS /\ st' = st /\ fs' = fs
    end.
Proof.
  intros Hwf Hdated Hcheck.
  assert (config timer' = config timer) as Hcfg.
  { unfold check_completion in Hcheck.
    destruct (Qle_bool _ 0); [| discriminate].
    unfold _advance_phase in Hcheck.
    destruct (phase timer); cbv zeta in Hcheck;
      try (destruct (_ =? 0); [| destruct (_ =? 0)]);
      try discriminate; injection Hcheck as <-; reflexivity. }
  unfold check_completion in Hcheck.
  destruct (Qle_bool _ 0); [| discriminate].
  unfold _advance_phase in Hcheck.
  destruct (phase timer) eqn:Hphase; cbv zeta in Hcheck.
  - destruct (_ =? 0); [discriminate |].
    destruct (_ =? 0); injection Hcheck as <-;
      unfold record_statistics; cbn [phase enter_phase value];
      (rewrite decide_False by discriminate).
    + rewrite decide_False by discriminate.
      destruct (record_with
                  (add_break (seconds (long_break_duration (config timer)))
                     true) today1 stamp1 fs st)
        as (st' & fs' & Hsave & Hrec); auto.
      exists st', fs'. split; [exact Hsave |].
      destruct Hrec as (Hcur & _). cbv zeta. rewrite Hcur.
      split; reflexivity.
    + rewrite decide_True by reflexivity.
      cbn [config enter_phase count_pomodoro].
      destruct (record_with
                  (add_pomodoro (seconds (focus_duration (config timer))))
                  today1 stamp1 fs st)
        as (st1 & fs1 & Hsave1 & Hrec1); auto.
      destruct Hrec1 as (Hcur1 & _ & _ & _ & _ & _ & _ & Hwf1 & Hdated1).
      destruct (record_with
                  (add_break (seconds (short_break_duration (config timer)))
                     false) today2 stamp2 fs1 st1)
        as (st2 & fs2 & Hsave2 & Hrec2); auto.
      destruct Hrec2 as (Hcur2 & _ & _ & _ & _ & _ & _ & Hwf2 & Hdated2).
      destruct (record_with add_cycle today3 stamp3 fs2 st2)
        as (st3 & fs3 & Hsave3 & Hrec3); auto.
      destruct Hrec3 as (Hcur3 & _).
      exists st3, fs3. split.
      { unfold record_pomodoro, record_break, record_cycle.
        rewrite Hsave1. cbn [mbind result_bind].
        rewrite Hsave2. cbn [mbind result_bind]. exact Hsave3. }
      cbv zeta. rewrite Hcur3, Hcur2, Hcur1. split; reflexivity.
  - injection Hcheck as <-. exists st, fs. split; [reflexivity |].
    cbv zeta. cbn. auto.
  - injection Hcheck as <-. exists st, fs. split; [reflexivity |].
    cbv zeta. cbn. auto.
Qed.

(** With a long break after every pomodoro, the first focus phase of 25
    minutes ends at second 1500: the timer has one pomodoro and the
    statistics of the day have none. *)
Lemma completed_phase_recording_witness :
  let cfg := mkConfig (25 * 60) (5 * 60) (15 * 60) 1 in
  let timer := start 0 (Timer.init (Some cfg)) in
  let st := mkStore (empty_tracker 738895 (Some "stats.json")) ∅ in
  exists timer' st' fs',
    check_completion 1500 1500 timer = Returns true timer' /\
    record_statistics timer' 738895 "09:25" 738895 "09:25" 738895 "09:25"
      ∅ st = Ok (st', fs') /\
    pomodoros_completed timer' = 1 /\
    counters (current_day (tracker st')) = (0, 0, 900, 0, 1).
Proof.
  cbv zeta.
  exists (enter_phase 1500 LONG_BREAK
            (count_pomodoro
               (start 0 (Timer.init (Some (mkConfig (25 * 60) (5 * 60)
                                             (15 * 60) 1)))))).
  destruct (completed_phase_recording 1500 1500
              (start 0 (Timer.init (Some (mkConfig (25 * 60) (5 * 60)
                                            (15 * 60) 1))))
              (enter_phase 1500 LONG_BREAK
                 (count_pomodoro
                    (start 0 (Timer.init (Some (mkConfig (25 * 60) (5 * 60)
                                                  (15 * 60) 1))))))
              738895 "09:25" 738895 "09:25" 738895 "09:25" ∅
              (mkStore (empty_tracker 738895 (Some "stats.json")) ∅))
    as (st' & fs' & Hrec & Hcount & Hday).
  - intros k Hk. apply not_elem_of_empty in Hk. contradiction.
  - split; [apply map_Forall_empty | vm_compute; eauto].
  - reflexivity.
  - exists st', fs'. split; [reflexivity |].
    split; [exact Hrec |]. split; [reflexivity |].
    rewrite Hday. reflexivity.
Defined.

End AppProperties.
